(** * mandelbrot.py: strip/chunk pipeline, checkpointing and DeepZoom pyramid

    A shallow embedding of [src/mandelbrot.py].  Python integers are [Z];
    module-level NumPy index arrays are [list Z]; the files the program
    keeps on disk are finite maps; the process-wide [mp.Value] flags are a
    record threaded through the listener and the pipeline. *)

From stdpp Require Import gmap strings list pretty.
From Stdlib Require Import ZArith Lia Ascii.

Local Open Scope Z_scope.

(** ** NumPy helpers on integer arrays *)

(** [np.arange(n, dtype=int)] *)
Definition np_arange (n : Z) : list Z := seqZ 0 n.

(** [np.clip(a, lo, hi)] on one element: [minimum(maximum(a, lo), hi)]. *)
Definition np_clip (a lo hi : Z) : Z := Z.min (Z.max a lo) hi.

(** Indexing [a[i]] with a non-negative index. *)
Definition getitem (a : list Z) (i : Z) : option Z :=
  if i <? 0 then None else a !! Z.to_nat i.

(** ** The chunk grid (module level, lines 257-261) *)

Module ChunkGrid.

Definition ncol : Z := 64.

Section Grid.
(** [nx = im_scale*10240] in the program; the grid is defined for any width.
    NumPy keeps [bx] and [ex] as int64; a width whose coordinate array
    [np.linspace] can allocate is far from wrapping, so the elements are
    plain integers here. *)
Variable nx : Z.

(** [fx = nx//ncol] *)
Definition fx : Z := nx / ncol.

(** [nc = fx + (fx*ncol < nx)]: the comparison is a Python bool added as 0/1. *)
Definition nc : Z := fx + (if fx * ncol <? nx then 1 else 0).

(** [bx = np.arange(nc, dtype=int)*ncol] *)
Definition bx : list Z := (fun i => i * ncol) <$> np_arange nc.

(** [ex = np.clip((np.arange(nc, dtype=int)+1)*ncol, 0, nx)] *)
Definition ex : list Z := (fun i => np_clip ((i + 1) * ncol) 0 nx) <$> np_arange nc.



End Grid.


(** The width of chunk [i]: [ex[i] - bx[i]]. *)
Definition chunk_width (nx i : Z) : option Z :=
  b ← getitem (bx nx) i; e ← getitem (ex nx) i; Some (e - b).

End ChunkGrid.

(** ** IEEE-754 binary64 arithmetic

    Python's [float] and NumPy's [float64].  Every finite double is an
    integer multiple of 2^-1074, so a finite value is kept as that integer
    (its number of "units"); a double has at most 53 significant bits, which
    is what [round_units] enforces.  The two zeros are identified. *)

Module Float64.

Inductive float64 :=
| Fin (u : Z)        (* the value u * 2^-1074 *)
| Inf (neg : bool)
| NaN.

Definition unit_exp : Z := 1074.
Definition one_units : Z := 2 ^ unit_exp.
(** Magnitudes from 2^1024 on are out of range. *)
Definition overflow_units : Z := 2 ^ (1024 + unit_exp).

(** Round the quotient [n/d] ([d > 0]) to the nearest integer, ties to even. *)
Definition rne_div (n d : Z) : Z :=
  let q := n / d in
  let r := n mod d in
  if 2 * r <? d then q
  else if d <? 2 * r then q + 1
  else if Z.even q then q else q + 1.

(** Spacing exponent of the doubles around the magnitude [n/d] units:
    53 significant bits, and never finer than one unit (subnormals). *)
Definition ulp_exp (n d : Z) : Z := Z.max (Z.log2 (Z.abs n / d) - 52) 0.

(** Round-to-nearest-even of [n/d] units ([d > 0]) onto the binary64 grid,
    with the exponent unbounded above. *)
Definition round_units (n d : Z) : Z :=
  let s := ulp_exp n d in
  rne_div n (d * 2 ^ s) * 2 ^ s.

(** Deliver a rounded result: overflow gives an infinity. *)
Definition of_units (r : Z) : float64 :=
  if Z.abs r <? overflow_units then Fin r else Inf (r <? 0).

(** [float(i)] for an integer that fits a double exactly. *)
Definition of_Z (i : Z) : float64 := Fin (i * one_units).

(** NumPy [x / y] on float64 (division by zero follows IEEE). *)
Definition fdiv (x y : float64) : float64 :=
  match x, y with
  | NaN, _ | _, NaN => NaN
  | Inf _, Inf _ => NaN
  | Inf s, Fin b => Inf (xorb s (b <? 0))
  | Fin _, Inf _ => Fin 0
  | Fin a, Fin b =>
      if b =? 0 then (if a =? 0 then NaN else Inf (a <? 0))
      else if 0 <? b then of_units (round_units (a * one_units) b)
      else of_units (round_units (- a * one_units) (- b))
  end.

(** NumPy [x * y] on float64. *)
Definition fmul (x y : float64) : float64 :=
  match x, y with
  | NaN, _ | _, NaN => NaN
  | Inf s, Inf t => Inf (xorb s t)
  | Inf s, Fin b => if b =? 0 then NaN else Inf (xorb s (b <? 0))
  | Fin a, Inf t => if a =? 0 then NaN else Inf (xorb (a <? 0) t)
  | Fin a, Fin b => of_units (round_units (a * b) one_units)
  end.

(** [x <= y]; false when either side is NaN. *)
Definition fle (x y : float64) : bool :=
  match x, y with
  | NaN, _ | _, NaN => false
  | Inf true, _ => true
  | _, Inf false => true
  | Inf false, _ => false
  | _, Inf true => false
  | Fin a, Fin b => a <=? b
  end.


(** [np.maximum] and [np.minimum]: NaN propagates. *)
Definition fmax (x y : float64) : float64 :=
  match x, y with
  | NaN, _ | _, NaN => NaN
  | _, _ => if fle x y then y else x
  end.

Definition fmin (x y : float64) : float64 :=
  match x, y with
  | NaN, _ | _, NaN => NaN
  | _, _ => if fle x y then x else y
  end.

(** [np.clip(x, lo, hi)] is [np.minimum(np.maximum(x, lo), hi)]. *)
Definition fclip (x lo hi : float64) : float64 := fmin (fmax x lo) hi.

(** [.astype(np.uint8)]: truncation toward zero when the value is in
    the range of the target; the C cast behind it is undefined otherwise,
    and for NaN. *)
Definition astype_uint8 (x : float64) : option Z :=
  match x with
  | Fin u => let t := Z.quot u one_units in
             if (0 <=? t) && (t <=? 255) then Some t else None
  | _ => None
  end.

(** [math.ceil(x)] on a finite float (it raises on infinities and NaN). *)
Definition math_ceil (x : float64) : option Z :=
  match x with
  | Fin u => Some (- ((- u) / one_units))
  | _ => None
  end.

(** Python's [a / b] on two [int]s: the correctly rounded quotient;
    [None] stands for [ZeroDivisionError] and [OverflowError]. *)
Definition int_truediv (a b : Z) : option float64 :=
  if b =? 0 then None
  else
    let r := if 0 <? b then round_units (a * one_units) b
             else round_units (- a * one_units) (- b) in
    if Z.abs r <? overflow_units then Some (Fin r) else None.

(** [c] units is a binary64 value: it has at most 53 significant bits. *)
Definition on_grid (c : Z) : Prop := (2 ^ Z.max (Z.log2 (Z.abs c) - 52) 0 | c).

End Float64.

(** ** Pyramid level dimensions (lines 306-310) *)

Module Pyramid.
Import Float64.

(** [2 ** k] on [int]s.  For a negative exponent Python returns a float;
    the pyramid loop (lines 552-556) only asks for levels 0..max_level, so
    that case is left out ([None]). *)
Definition int_pow2 (k : Z) : option Z :=
  if k <? 0 then None else Some (2 ^ k).

(** [max(1, int(math.ceil(n / scale)))] *)
Definition level_extent (n scale : Z) : option Z :=
  q ← int_truediv n scale;
  c ← math_ceil q;
  Some (Z.max 1 c).

Definition get_level_dimensions (width height level max_level : Z) : option (Z * Z) :=
  scale ← int_pow2 (max_level - level);
  level_width ← level_extent width scale;
  level_height ← level_extent height scale;
  Some (level_width, level_height).

(** Ceiling division of positive integers. *)
Definition cdiv (a b : Z) : Z := (a + b - 1) / b.

(** The spec's [ceil(n/2)] on integers. *)
Definition ceil_half (n : Z) : Z := (n + 1) / 2.

End Pyramid.

(** ** The worker's colour mapping (lines 264-272) *)

Module Worker.
Import Float64.

Definition color_reference : Z := 100.

(** [color_max = float(color_reference)] *)
Definition color_max : float64 := of_Z color_reference.

(** One row of the lookup table: an RGB triple of bytes. *)
Definition rgb : Type := Z * Z * Z.

(** [np.clip((coldata / color_max) * 255, 0, 255).astype(np.uint8)],
    for one element of [coldata]. *)
Definition chunk_normalized (cmax v : float64) : option Z :=
  astype_uint8 (fclip (fmul (fdiv v cmax) (of_Z 255)) (of_Z 0) (of_Z 255)).

(** [lut[chunk_normalized]] for one element. *)
Definition rgb_of (lut : list rgb) (cmax v : float64) : option rgb :=
  b ← chunk_normalized cmax v; lut !! Z.to_nat b.

Section WorkerLoop.
(** The kernel [mandelbrot.calc_val] is a compiled extension; it maps the
    coordinate grids of a work item to a 2-D array of float64. *)
Context {grids : Type} (calc_val : grids -> list (list float64)).

(** [rgb_chunk = lut[chunk_normalized]] on the whole array. *)
Definition rgb_chunk_of (lut : list rgb) (cmax : float64)
    (coldata : list (list float64)) : option (list (list rgb)) :=
  mapM (mapM (rgb_of lut cmax)) coldata.

(** [worker]: every item taken from the input queue before ['STOP'] is
    answered by one [(i, rgb_chunk)] on the output queue. *)
Definition worker (lut : list rgb) (cmax : float64)
    (items : list (Z * grids)) : option (list (Z * list (list rgb))) :=
  mapM (fun '(i, args) =>
          c ← rgb_chunk_of lut cmax (calc_val args); Some (i, c)) items.
End WorkerLoop.


End Worker.

(** ** The control channel (lines 49-51 and 81-135) *)

Module Control.

(** The three [mp.Value('i', 0)] flags shared by the listener thread and
    the pipeline. *)
Record flags := Flags {
  paused : Z;
  exit_confirm : Z;
  save_requested : Z
}.

Definition initial_flags : flags := Flags 0 0 0.

(** What the listener prints with [tqdm.write]. *)
Inductive message :=
| ExitCancelled        (* Exit cancelled - resuming *)
| PauseRequested       (* Pause requested - will pause after current chunk completes *)
| Resuming             (* Resuming *)
| SavingAndExiting     (* Saving and exiting... *)
| PauseFirst           (* Pause first (press 'p') before saving *)
| ForceQuitConfirmed   (* Force quit confirmed - exiting immediately *)
| PressAgain           (* Press 'e' again to force quit, or 'p' to cancel and resume *)
| CtrlCDetected.       (* Ctrl+C detected - exiting *)

(** After a key: the thread keeps listening, or it has called [os._exit(0)]. *)
Inductive listener :=
| Listening (f : flags)
| Exited.

(** [ch.lower()] on an ASCII character. *)
Definition lower (ch : ascii) : ascii :=
  let n := N_of_ascii ch in
  if ((65 <=? n) && (n <=? 90))%N then ascii_of_N (n + 32) else ch.

Definition ctrl_c : ascii := "003"%char.

(** The body of the [while True] loop for one character read from stdin. *)
Definition key_pressed (f : flags) (ch : ascii) : listener * list message :=
  if Ascii.eqb (lower ch) "p" then
    if exit_confirm f =? 1 then
      (Listening (Flags 0 0 (save_requested f)), [ExitCancelled])
    else if paused f =? 0 then
      (Listening (Flags 1 (exit_confirm f) (save_requested f)), [PauseRequested])
    else
      (Listening (Flags 0 (exit_confirm f) (save_requested f)), [Resuming])
  else if Ascii.eqb (lower ch) "s" then
    if paused f =? 1 then
      (Listening (Flags (paused f) (exit_confirm f) 1), [SavingAndExiting])
    else
      (Listening f, [PauseFirst])
  else if Ascii.eqb (lower ch) "e" then
    if exit_confirm f =? 1 then
      (Exited, [ForceQuitConfirmed])
    else
      (Listening (Flags 1 1 (save_requested f)), [PressAgain])
  else if Ascii.eqb ch ctrl_c then
    (Exited, [CtrlCDetected])
  else
    (Listening f, []).

(** [input_listener] on the characters typed so far, in order. *)
Fixpoint input_listener (f : flags) (keys : list ascii) : listener * list message :=
  match keys with
  | [] => (Listening f, [])
  | ch :: rest =>
      match key_pressed f ch with
      | (Exited, out) => (Exited, out)
      | (Listening f', out) =>
          let '(l, out') := input_listener f' rest in (l, out ++ out')
      end
  end.

(** The commands of the control surface. *)
Definition is_pause (ch : ascii) : bool := Ascii.eqb (lower ch) "p".
Definition is_save (ch : ascii) : bool := Ascii.eqb (lower ch) "s".
Definition is_exit (ch : ascii) : bool := Ascii.eqb (lower ch) "e".
Definition is_interrupt (ch : ascii) : bool := Ascii.eqb ch ctrl_c.

(** The exit is armed after [keys] when an exit command was typed and no
    pause command has been typed since. *)
Fixpoint armed_after (armed : bool) (keys : list ascii) : bool :=
  match keys with
  | [] => armed
  | ch :: rest =>
      armed_after (if is_pause ch then false else if is_exit ch then true else armed) rest
  end.

(** The spec's wording of when the listener ends the process: only on an
    interrupt, or on an exit command that directly follows an exit command. *)
Definition exits_only_on_consecutive_exit : Prop :=
  forall keys prev ch f,
    (input_listener initial_flags (keys ++ [prev])).1 = Listening f ->
    (key_pressed f ch).1 = Exited ->
    is_interrupt ch = true \/ (is_exit ch = true /\ is_exit prev = true).

End Control.

(** ** The checkpoint file (lines 56-79) *)

Module Checkpoint.

Definition max_iter : Z := 750.

(** [SAVE_FILE] as the file system holds it. *)
Inductive file_state :=
| Absent
| Present (readable : bool) (content : string).

(** The file together with the states it went through before, oldest
    first: what a crash at that moment would have left behind. *)
Record disk := Disk {
  current : file_state;
  history : list file_state
}.

Definition store (d : disk) (s : file_state) : disk :=
  Disk s (history d ++ [current d]).

(** [os.path.exists(SAVE_FILE)] *)
Definition os_path_exists (s : file_state) : bool :=
  match s with Absent => false | Present _ _ => true end.

(** [os.remove(SAVE_FILE)] *)
Definition os_remove (d : disk) : disk := store d Absent.

(** [open(SAVE_FILE, 'w')]: the file is created, or cut to length zero. *)
Definition open_write (d : disk) : disk := store d (Present true "").

(** Leaving the [with] block closes the file: the buffered text reaches it. *)
Definition close_written (d : disk) (text : string) : disk :=
  store d (Present true text).

(** The [progress_data] dictionary. *)
Record progress := Progress {
  im_scale : Z;
  current_strip : Z;
  total_strips : Z;
  p_max_iter : Z;
  p_color_reference : Z
}.

Definition quote : string := String "034"%char EmptyString.
Definition newline : string := String "010"%char EmptyString.

Definition json_member (key : string) (value : Z) : string :=
  "  " +:+ quote +:+ key +:+ quote +:+ ": " +:+ pretty value.

(** The text [json.dump(progress_data, f, indent=2)] writes. *)
Definition json_dump (p : progress) : string :=
  "{" +:+ newline +:+
  json_member "im_scale" (im_scale p) +:+ "," +:+ newline +:+
  json_member "current_strip" (current_strip p) +:+ "," +:+ newline +:+
  json_member "total_strips" (total_strips p) +:+ "," +:+ newline +:+
  json_member "max_iter" (p_max_iter p) +:+ "," +:+ newline +:+
  json_member "color_reference" (p_color_reference p) +:+ newline +:+
  "}".

Definition progress_data (scale strip total : Z) : progress :=
  Progress scale strip total max_iter Worker.color_reference.

Definition save_progress (d : disk) (scale strip total : Z) : disk :=
  let d := if os_path_exists (current d) then os_remove d else d in
  let d := open_write d in
  close_written d (json_dump (progress_data scale strip total)).

(** The states the file is in from the call of [save_progress] to its
    return, in order. *)
Definition states_during_save (d : disk) (scale strip total : Z) : list file_state :=
  let d' := save_progress d scale strip total in
  drop (length (history d)) (history d' ++ [current d']).

(** Replace-on-write, as the spec words it: at every point of a save the
    file is the complete previous record or the complete new one. *)
Definition atomic_replace (d : disk) (scale strip total : Z) : Prop :=
  Forall (fun s => s = current d \/
                   s = Present true (json_dump (progress_data scale strip total)))
         (states_during_save d scale strip total).

(** *** Reading it back *)

Inductive exn :=
| FileNotFoundError
| PermissionError
| JSONDecodeError
| UnicodeDecodeError.

(** A Python computation returns or raises. *)
Inductive py (A : Type) :=
| Return (a : A)
| Raise (e : exn).
Arguments Return {A} a.
Arguments Raise {A} e.

Definition py_bind {A B} (m : py A) (k : A -> py B) : py B :=
  match m with Return a => k a | Raise e => Raise e end.

(** [try: body  except: handler] (a bare [except] catches everything). *)
Definition try_except {A} (body : py A) (handler : py A) : py A :=
  match body with Return a => Return a | Raise _ => handler end.

(** What [json.load] can return. *)
#[local] Unset Elimination Schemes.
Inductive pyobj :=
| PyNone
| PyBool (b : bool)
| PyInt (n : Z)
| PyFloat (x : Float64.float64)
| PyStr (s : string)
| PyList (l : list pyobj)
| PyDict (l : list (string * pyobj)).
#[local] Set Elimination Schemes.

(** [open(SAVE_FILE, 'r')] followed by reading the text. *)
Definition open_read (s : file_state) : py string :=
  match s with
  | Absent => Raise FileNotFoundError
  | Present false _ => Raise PermissionError
  | Present true text => Return text
  end.

Section Load.
(** The standard library's JSON parser on the text of the file. *)
Variable json_load : string -> py pyobj.

Definition load_progress (s : file_state) : py pyobj :=
  if negb (os_path_exists s) then Return PyNone
  else try_except (py_bind (open_read s) json_load) (Return PyNone).

(** The file is there, can be read and parses to [v]. *)
Definition parses_to (s : file_state) (v : pyobj) : Prop :=
  exists text, s = Present true text /\ json_load text = Return v.
End Load.

End Checkpoint.

(** ** The strip pipeline ([__main__], lines 372-547) *)

Module Pipeline.
Import Control Checkpoint.

Definition TILE_SIZE : Z := 256.

(** What the main thread prints or logs on the save paths. *)
Inductive notice :=
| PausedPrompt                      (* Paused. Press 'p' to resume, 's' to save and exit. *)
| SavedResumeFrom (strip : Z)       (* Saved! Run again and press 'r' to resume from strip .. *)
| CompletingStripBeforeSaving       (* Save requested - completing current strip before saving *)
| ProgressSavedResumeFrom (strip : Z)  (* Progress saved! Run again and press 'r' to resume from strip .. *)
| ProgressSavedAt (strip : Z)       (* Progress saved at strip ..! *)
| RemovingDirectory                 (* Removing existing DeepZoom directory *)
| ResumingDirectory.                (* Resuming - using existing DeepZoom directory *)

(** The observable steps of the main thread, in the order it takes them. *)
Inductive event :=
| ChunkSaved (i : Z)                (* np.save(temp_chunk_i.npy, rgb_chunk) *)
| WorkersTerminated                 (* p.terminate() on the workers and the feeder *)
| WorkersStopped                    (* the 'STOP' sentinels and the joins *)
| ChunkRemoved (i : Z)              (* os.remove(temp_chunk_i.npy) *)
| TileSaved (level col row : Z)     (* save_tile(tile_data, level, col, row, tiles_dir) *)
| ProgressSaved (strip : Z)         (* save_progress(im_scale, strip, strips_per_height) *)
| Printed (n : notice).

(** The steps that touch the files or end the workers by force. *)
Definition is_file_event (e : event) : bool :=
  match e with
  | ChunkSaved _ | ChunkRemoved _ | TileSaved _ _ _ | ProgressSaved _
  | WorkersTerminated => true
  | WorkersStopped | Printed _ => false
  end.

Definition file_events (evs : list event) : list event := List.filter is_file_event evs.


Section Run.
(** Pixel arrays stay abstract: the 3-D uint8 arrays and the operations of
    NumPy and of the compiled [image_processor] extension on them. *)
Context {rgb_chunk strip_buffer tile : Type}.
Variable np_zeros : Z -> Z -> strip_buffer.
  (* np.zeros((strip_height, nx, 3), dtype=np.uint8) *)
Variable assign_columns : strip_buffer -> Z -> Z -> rgb_chunk -> strip_buffer.
  (* strip_buffer[:, b:e, :] = chunk[:, :, :] *)
Variable flip_vertical : strip_buffer -> strip_buffer.
Variable split_into_tiles : strip_buffer -> Z -> list tile.

(** The scale chosen at the prompt, and [max_level] as line 384 computes
    it from a float logarithm. *)
Variables (im_scale max_level : Z).

Definition ny : Z := im_scale * 7680.
Definition nx : Z := im_scale * 10240.
Definition nc : Z := ChunkGrid.nc nx.

(** [strips_per_height = int(math.ceil(ny / TILE_SIZE))] *)
Definition strips_per_height : option Z :=
  q ← Float64.int_truediv ny TILE_SIZE; Float64.math_ceil q.

(** [mandelbrot_deepzoom_files]. *)
Record tiles_directory := TilesDir {
  levels : gset Z;                  (* sub-directories, named by level *)
  tiles : gmap (Z * Z * Z) tile;    (* <level>/<col>_<row>.png *)
  chunks : gmap Z rgb_chunk;        (* temp_chunk_<i>.npy *)
  others : gmap string string       (* whatever else lies there *)
}.

Definition empty_directory : tiles_directory := TilesDir ∅ ∅ ∅ ∅.

Record world := World {
  flags_of : flags;
  save_file : disk;
  tiles_dir : option tiles_directory;
  trace : list event
}.

(** [w'] is [w] with other flags and [evs] appended to the trace. *)
Definition same_files (w w' : world) (evs : list event) : Prop :=
  save_file w' = save_file w /\ tiles_dir w' = tiles_dir w /\ trace w' = trace w ++ evs.

(** The directory of a world, empty when it does not exist. *)
Definition dir_of (w : world) : tiles_directory := default empty_directory (tiles_dir w).

(** No temporary chunk file of the grid is left in the tiles directory. *)
Definition no_chunk_files (w : world) : Prop :=
  forall d i, tiles_dir w = Some d -> 0 <= i < nc -> chunks d !! i = None.

(** The main thread runs in a world, against the keys still to be typed.
    The listener is a thread of its own; it is let run where the main
    thread looks at the shared flags, one batch of keys for each look (an
    empty batch when nothing was typed in between). *)
Inductive outcome (A : Type) :=
| Done (a : A) (w : world) (keys : list (list ascii))
| Killed (w : world)     (* the listener called os._exit(0) *)
| Blocked (w : world)    (* waiting for a key or a result that never comes *)
| Crashed (w : world).   (* an exception nobody catches *)
Arguments Done {A} a w keys.
Arguments Killed {A} w.
Arguments Blocked {A} w.
Arguments Crashed {A} w.

Definition world_of {A} (o : outcome A) : world :=
  match o with Done _ w _ | Killed w | Blocked w | Crashed w => w end.

Definition M (A : Type) : Type := world -> list (list ascii) -> outcome A.

#[local] Instance M_ret : MRet M := fun A a w keys => Done a w keys.
#[local] Instance M_bind : MBind M := fun A B k m w keys =>
  match m w keys with
  | Done a w' keys' => k a w' keys'
  | Killed w' => Killed w'
  | Blocked w' => Blocked w'
  | Crashed w' => Crashed w'
  end.

Definition get : M world := fun w keys => Done w w keys.
Definition modify (g : world -> world) : M unit := fun w keys => Done () (g w) keys.
Definition crash {A} : M A := fun w _ => Crashed w.
Definition block {A} : M A := fun w _ => Blocked w.

Definition set_flags (f : flags) (w : world) : world :=
  World f (save_file w) (tiles_dir w) (trace w).

Definition set_tiles_dir (d : option tiles_directory) (w : world) : world :=
  World (flags_of w) (save_file w) d (trace w).

Definition set_save_file (d : disk) (w : world) : world :=
  World (flags_of w) d (tiles_dir w) (trace w).

Definition emit (e : event) : M unit :=
  modify (fun w => World (flags_of w) (save_file w) (tiles_dir w) (trace w ++ [e])).

Fixpoint for_each {A} (l : list A) (body : A -> M unit) : M unit :=
  match l with
  | [] => mret ()
  | a :: l' => body a ;; for_each l' body
  end.

Fixpoint fold_each {A B} (l : list A) (body : B -> A -> M B) (b : B) : M B :=
  match l with
  | [] => mret b
  | a :: l' => b' ← body b a; fold_each l' body b'
  end.

(** *** The shared flags *)

(** The listener thread handles the keys typed since the main thread last
    looked at the flags. *)
Definition listen : M unit := fun w keys =>
  match keys with
  | [] => Done () w []
  | batch :: keys' =>
      match input_listener (flags_of w) batch with
      | (Exited, _) => Killed w
      | (Listening f, _) => Done () (set_flags f w) keys'
      end
  end.

Definition read_save_requested : M Z :=
  listen ;; w ← get; mret (save_requested (flags_of w)).

(** [save_requested.value = 0] *)
Definition clear_save_requested : M unit :=
  modify (fun w => let f := flags_of w in
                   set_flags (Flags (paused f) (exit_confirm f) 0) w).

(** [paused.value = 0] *)
Definition clear_paused : M unit :=
  modify (fun w => let f := flags_of w in
                   set_flags (Flags 0 (exit_confirm f) (save_requested f)) w).

(** The [while paused.value == 1] loop: each turn waits 0.1 s, during
    which the next batch of keys is handled. *)
Fixpoint wait_while_paused (w : world) (keys : list (list ascii)) : outcome bool :=
  if paused (flags_of w) =? 1 then
    if save_requested (flags_of w) =? 1 then Done true w keys
    else
      match keys with
      | [] => Blocked w
      | batch :: keys' =>
          match input_listener (flags_of w) batch with
          | (Exited, _) => Killed w
          | (Listening f, _) => wait_while_paused (set_flags f w) keys'
          end
      end
  else Done false w keys.

Definition wait_if_paused : M bool :=
  listen ;;
  w ← get;
  (if (paused (flags_of w) =? 1) && (exit_confirm (flags_of w) =? 0)
   then emit (Printed PausedPrompt) else mret ()) ;;
  wait_while_paused.

(** *** Files *)

Definition put_chunks (d : tiles_directory) (c : gmap Z rgb_chunk) : option tiles_directory :=
  Some (TilesDir (levels d) (tiles d) c (others d)).

(** [np.save(chunk_file, rgb_chunk)] *)
Definition np_save (i : Z) (c : rgb_chunk) : M unit :=
  w ← get;
  match tiles_dir w with
  | None => crash
  | Some d =>
      modify (set_tiles_dir (put_chunks d (<[i:=c]> (chunks d)))) ;;
      emit (ChunkSaved i)
  end.

(** [np.load(chunk_file, mmap_mode='r')] *)
Definition np_load (i : Z) : M rgb_chunk :=
  w ← get;
  match tiles_dir w ≫= (fun d => chunks d !! i) with
  | None => crash
  | Some c => mret c
  end.

(** [if os.path.exists(chunk_file): os.remove(chunk_file)] *)
Definition remove_chunk (i : Z) : M unit :=
  w ← get;
  match tiles_dir w with
  | None => mret ()
  | Some d =>
      match chunks d !! i with
      | None => mret ()
      | Some _ =>
          modify (set_tiles_dir (put_chunks d (delete i (chunks d)))) ;;
          emit (ChunkRemoved i)
      end
  end.

(** [for i in range(nc): ...remove...] *)
Definition remove_chunks : M unit := for_each (np_arange nc) remove_chunk.

(** [save_tile]: [os.makedirs(level_dir, exist_ok=True)], then the PNG. *)
Definition save_tile (tile_data : tile) (level col row : Z) : M unit :=
  modify (fun w =>
    let d := default empty_directory (tiles_dir w) in
    set_tiles_dir
      (Some (TilesDir ({[level]} ∪ levels d) (<[(level, col, row):=tile_data]> (tiles d))
                      (chunks d) (others d))) w) ;;
  emit (TileSaved level col row).

(** [save_progress(im_scale, strip, strips_per_height)] *)
Definition write_progress (strip total : Z) : M unit :=
  modify (fun w => set_save_file (save_progress (save_file w) im_scale strip total) w) ;;
  emit (ProgressSaved strip).

(** *** One strip *)

Section Strip.
Variable total : Z.      (* strips_per_height *)
Variable strip_idx : Z.

Definition strip_y_start : Z := strip_idx * TILE_SIZE.
Definition strip_y_end : Z := Z.min ((strip_idx + 1) * TILE_SIZE) ny.
Definition strip_height : Z := strip_y_end - strip_y_start.

(** The chunk loop, lines 421-451, against the results in the order the
    output queue delivers them; [true] is [saved_and_exited]. *)
Fixpoint chunk_loop (n : nat) (results : list (Z * rgb_chunk)) : M bool :=
  match n with
  | O => mret false
  | S n' =>
      match results with
      | [] => block
      | (i, rgb) :: results' =>
          np_save i rgb ;;
          should_save ← wait_if_paused;
          if should_save : bool then
            emit WorkersTerminated ;;
            remove_chunks ;;
            write_progress strip_idx total ;;
            clear_save_requested ;;
            emit (Printed (SavedResumeFrom strip_idx)) ;;
            mret true
          else chunk_loop n' results'
      end
  end.

(** Lines 465-486 and, again, lines 506-527. *)
Definition assemble_strip : M unit :=
  strip ← fold_each (np_arange nc)
            (fun buf i =>
               chunk_mmap ← np_load i;
               mret (assign_columns buf
                       (default 0 (getitem (ChunkGrid.bx nx) i))
                       (default 0 (getitem (ChunkGrid.ex nx) i)) chunk_mmap))
            (np_zeros strip_height nx);
  let strip := flip_vertical strip in
  let strip_tiles := split_into_tiles strip TILE_SIZE in
  let tile_row := total - 1 - strip_idx in
  for_each (imap (fun k t => (Z.of_nat k, t)) strip_tiles)
    (fun '(tile_x_idx, tile_data) => save_tile tile_data max_level tile_x_idx tile_row) ;;
  remove_chunks.

(** The tiles of one strip go to row [total - 1 - strip_idx] of the
    base level, columns 0, 1, ... *)
Definition tile_events (n : nat) : list event :=
  (fun col => TileSaved max_level col (total - 1 - strip_idx)) <$> seqZ 0 (Z.of_nat n).

(** File events of a strip given up for a save: the chunks collected so
    far, the workers killed, the chunk files deleted, the progress
    saved at this strip. *)
Definition discarded_strip (arrived removed : list Z) : list event :=
  (ChunkSaved <$> arrived) ++ [WorkersTerminated] ++ (ChunkRemoved <$> removed) ++
  [ProgressSaved strip_idx].

(** File events of a strip carried through: every chunk collected, the
    tiles saved, the chunk files deleted. *)
Definition completed_strip (arrived removed : list Z) (n : nat) : list event :=
  (ChunkSaved <$> arrived) ++ tile_events n ++ (ChunkRemoved <$> removed).

(** The body of the [for strip_idx] loop; [true] is [saved_and_exited]. *)
Definition process_strip (results : list (Z * rgb_chunk)) : M bool :=
  saved ← chunk_loop (Z.to_nat nc) results;
  if saved : bool then mret true
  else
    requested ← read_save_requested;                    (* line 456 *)
    if requested =? 1 then
      emit (Printed CompletingStripBeforeSaving) ;;
      emit WorkersStopped ;;
      assemble_strip ;;
      write_progress (strip_idx + 1) total ;;
      clear_save_requested ;;
      clear_paused ;;
      emit (Printed (ProgressSavedResumeFrom (strip_idx + 1))) ;;
      mret true
    else
      requested ← read_save_requested;                  (* line 498 *)
      (if requested =? 0 then emit WorkersStopped else mret ()) ;;
      requested ← read_save_requested;                  (* line 505 *)
      if requested =? 0 then
        assemble_strip ;;
        requested ← read_save_requested;                (* line 532 *)
        if requested =? 1 then
          write_progress (strip_idx + 1) total ;;
          clear_save_requested ;;
          clear_paused ;;
          emit (Printed (ProgressSavedAt (strip_idx + 1))) ;;
          mret true
        else
          wait_if_paused ;; mret false
      else mret false.

(** What one turn of the strip loop can do to the files: the strip is
    given up for a save; it is carried through and the progress saved;
    it is carried through; or only chunks were collected. *)
Definition strip_cases (results : list (Z * rgb_chunk))
    (out : outcome bool) (evs : list event) : Prop :=
  let n := Z.to_nat nc in
  let arrived := take n results.*1 in
  let not_saved := forall w' keys', out <> Done true w' keys' in
  (exists j removed w' keys',
     out = Done true w' keys' /\ (j < n)%nat /\ (S j <= length results)%nat /\
     file_events evs = discarded_strip (take (S j) results.*1) removed /\
     no_chunk_files w') \/
  (exists removed buf w' keys',
     let ts := split_into_tiles (flip_vertical buf) TILE_SIZE in
     out = Done true w' keys' /\ (n <= length results)%nat /\
     file_events evs = completed_strip arrived removed (length ts) ++
                       [ProgressSaved (strip_idx + 1)] /\
     no_chunk_files w' /\
     forall k t, ts !! k = Some t ->
       tiles (dir_of w') !! (max_level, Z.of_nat k, total - 1 - strip_idx) = Some t) \/
  (exists removed buf,
     let ts := split_into_tiles (flip_vertical buf) TILE_SIZE in
     not_saved /\ (n <= length results)%nat /\
     file_events evs = completed_strip arrived removed (length ts)) \/
  (exists j,
     not_saved /\ (j <= n)%nat /\ file_events evs = ChunkSaved <$> take j results.*1).
End Strip.

(** *** The run *)

(** Lines 375-382. *)
Definition prepare_tiles_dir (start_strip : Z) : M unit :=
  if start_strip =? 0 then
    w ← get;
    (if tiles_dir w is Some _ then
       emit (Printed RemovingDirectory) ;;
       modify (set_tiles_dir None)                  (* shutil.rmtree(tiles_dir) *)
     else mret ()) ;;
    (* os.makedirs(tiles_dir, exist_ok=True) *)
    modify (fun w => if tiles_dir w is Some _ then w
                     else set_tiles_dir (Some empty_directory) w)
  else emit (Printed ResumingDirectory).

(** Lines 394-395: [os.makedirs(level_dir, exist_ok=True)]. *)
Definition make_level_dir : M unit :=
  modify (fun w =>
    let d := default empty_directory (tiles_dir w) in
    set_tiles_dir
      (Some (TilesDir ({[max_level]} ∪ levels d) (tiles d) (chunks d) (others d))) w).

(** The [for strip_idx in range(start_strip, strips_per_height)] loop;
    [results s] are the chunk results of strip [s] in arrival order. *)
Fixpoint strips_loop (total : Z) (strips : list Z)
    (results : Z -> list (Z * rgb_chunk)) : M bool :=
  match strips with
  | [] => mret false
  | s :: strips' =>
      saved ← process_strip total s (results s);
      if saved : bool then mret true else strips_loop total strips' results
  end.

(** How the strip phase ends. *)
Inductive ending :=
| SysExit          (* sys.exit(0) after a save *)
| PyramidPhase.    (* on to phase 2 *)

Definition run_strips (start_strip : Z) (results : Z -> list (Z * rgb_chunk)) : M ending :=
  prepare_tiles_dir start_strip ;;
  match strips_per_height with
  | None => crash
  | Some total =>
      make_level_dir ;;
      saved ← strips_loop total (seqZ start_strip (total - start_strip)) results;
      mret (if saved : bool then SysExit else PyramidPhase)
  end.

End Run.

#[export] Existing Instance M_ret.
#[export] Existing Instance M_bind.

Arguments Done {_ _ _} a w keys.
Arguments Killed {_ _ _} w.
Arguments Blocked {_ _ _} w.
Arguments Crashed {_ _ _} w.

(** *** A run at scale 1 with the pixel data left out

    10240 x 7680 pixels: 160 chunks a strip, 30 strips, 40 tiles a strip,
    base level 14.  The chunk results arrive in index order. *)

Definition results_in_order (strip : Z) : list (Z * ()) :=
  (fun i => (i, ())) <$> seqZ 0 160.

Definition bare_strip (total strip_idx : Z) : M bool :=
  process_strip (fun _ _ => ()) (fun buf _ _ _ => buf) (fun buf => buf)
    (fun _ _ => replicate 40 ()) 1 14 total strip_idx (results_in_order strip_idx).

Definition bare_run (start_strip : Z) : M ending :=
  run_strips (fun _ _ => ()) (fun buf _ _ _ => buf) (fun buf => buf)
    (fun _ _ => replicate 40 ()) 1 14 start_strip results_in_order.

(** Nothing on disk yet, no key typed yet. *)
Definition fresh_world : world (rgb_chunk:=()) (tile:=()) :=
  World initial_flags (Disk Absent []) None [].

(** The same once the tiles directory has been made. *)
Definition ready_world : world (rgb_chunk:=()) (tile:=()) :=
  World initial_flags (Disk Absent []) (Some empty_directory) [].

End Pipeline.

(** ** More of the program: what the claims' code leaves out *)

Module WorkerOutput.
Import Float64 Worker.

(** A pixel of the coloured chunk is the table's row at the byte of the
    value it comes from. *)
Definition coloured (lut : list rgb) (v : float64) (px : rgb) : Prop :=
  exists b, chunk_normalized color_max v = Some b /\ lut !! Z.to_nat b = Some px.

(** The kernel returned numbers only. *)
Definition all_numbers (coldata : list (list float64)) : Prop :=
  Forall (Forall (fun v => v <> NaN)) coldata.

End WorkerOutput.

Module StripRun.
Import Control Checkpoint Pipeline.

(** The checkpoint after the saves among [evs], in order. *)
Definition replay (im_scale total : Z) (d : disk) (evs : list event) : disk :=
  foldl (fun d e => match e with
                    | ProgressSaved k => save_progress d im_scale k total
                    | _ => d
                    end) d evs.

Section Accounts.
Context {rgb_chunk tile : Type}.
Variables (im_scale total : Z).

(** From [w] to [w'] the main thread took the steps [evs], and the files
    changed by these steps only: the checkpoint by the saves, a tile by
    its [save_tile], the foreign files not at all; the tiles directory,
    once there, stays. *)
Definition accounts (w w' : world (rgb_chunk:=rgb_chunk) (tile:=tile)) : Prop :=
  exists evs,
    trace w' = trace w ++ evs /\
    save_file w' = replay im_scale total (save_file w) evs /\
    others (dir_of w') = others (dir_of w) /\
    (forall level col row, TileSaved level col row ∉ evs ->
       tiles (dir_of w') !! (level, col, row) = tiles (dir_of w) !! (level, col, row)) /\
    (is_Some (tiles_dir w) -> is_Some (tiles_dir w')).

(** Whatever way [m] ends, the world it leaves is related to the one it
    started in. *)
Definition steady {A} (R : relation (world (rgb_chunk:=rgb_chunk) (tile:=tile)))
    (m : M A) : Prop :=
  forall w keys, R w (world_of (m w keys)).
End Accounts.

(** A key that does nothing to a run that is not paused: anything but
    pause, exit and the interrupt. *)
Definition idle_key (ch : ascii) : bool :=
  negb (is_pause ch) && negb (is_exit ch) && negb (is_interrupt ch).

(** The chunk files once [results] have been saved with [np.save], in
    the order they arrived (a later result of the same index overwrites). *)
Definition chunks_after {rgb_chunk : Type} (files : gmap Z rgb_chunk)
    (results : list (Z * rgb_chunk)) : gmap Z rgb_chunk :=
  foldl (fun files r => <[r.1:=r.2]> files) files results.

(** The chunk results of a strip: the chunk of every index [0 .. nc - 1]
    once, in any order of arrival. *)
Definition all_chunks {rgb_chunk : Type} (im_scale : Z) (chunk_at : Z -> rgb_chunk)
    (results : list (Z * rgb_chunk)) : Prop :=
  results ≡ₚ (fun i => (i, chunk_at i)) <$> np_arange (nc im_scale).

(** Nothing typed during the run is a pause, an exit or the interrupt. *)
Definition quiet (keys : list (list ascii)) : Prop :=
  Forall (Forall (fun ch => idle_key ch = true)) keys.

(** The checkpoint is as it was. *)
Definition same_checkpoint {rgb_chunk tile : Type}
    (w w' : world (rgb_chunk:=rgb_chunk) (tile:=tile)) : Prop :=
  save_file w' = save_file w.

Section Safety.
Context {rgb_chunk tile : Type}.
Local Notation "'world'" := (@world rgb_chunk tile).

(** Started in a world where [P] holds, [m] does not break (no exception
    leaves it); when it returns [a], [Q a] holds of the world it leaves. *)
Definition safe {A} (P : world -> Prop) (Q : A -> world -> Prop) (m : M A) : Prop :=
  forall w keys, P w ->
    match m w keys with
    | Crashed _ => False
    | Done a w' _ => Q a w'
    | Killed _ | Blocked _ => True
    end.

(** The tiles directory is there and holds the chunk file of every index
    of [indices]. *)
Definition has_chunks (indices : list Z) (w : world) : Prop :=
  exists d, tiles_dir w = Some d /\ forall i, i ∈ indices -> is_Some (chunks d !! i).
End Safety.

(** The first [nc] results of a strip hold a chunk for every index. *)
Definition covers {rgb_chunk : Type} (im_scale : Z) (results : list (Z * rgb_chunk)) : Prop :=
  forall i, 0 <= i < nc im_scale -> i ∈ (take (Z.to_nat (nc im_scale)) results).*1.

Section Image.
Context {rgb_chunk strip_buffer : Type}.
Variable np_zeros : Z -> Z -> strip_buffer.
Variable assign_columns : strip_buffer -> Z -> Z -> rgb_chunk -> strip_buffer.
Variable im_scale : Z.

(** The strip buffer of lines 506-512 once the chunk of every index is
    copied in: [strip_buffer[:, bx[i]:ex[i], :] = chunk_at i] for
    [i = 0, 1, ..., nc - 1]. *)
Definition assembled (strip_idx : Z) (chunk_at : Z -> rgb_chunk) : strip_buffer :=
  foldl (fun buf i =>
           assign_columns buf
             (default 0 (getitem (ChunkGrid.bx (nx im_scale)) i))
             (default 0 (getitem (ChunkGrid.ex (nx im_scale)) i)) (chunk_at i))
        (np_zeros (strip_height im_scale strip_idx) (nx im_scale))
        (np_arange (nc im_scale)).
End Image.

End StripRun.

(** ** Phase 2: the pyramid levels (lines 313-342 and 552-587) *)

Module PyramidBuild.
Import Float64 Pyramid Control Checkpoint Pipeline.

(** [int(math.ceil(extent / TILE_SIZE))], lines 558-559. *)
Definition tiles_across (extent : Z) : option Z :=
  q ← int_truediv extent TILE_SIZE; math_ceil q.

(** [(tiles_wide, tiles_high)] of a level, lines 555-559; [None] when one
    of the divisions or [math.ceil] raises. *)
Definition level_grid (nx ny level max_level : Z) : option (Z * Z) :=
  dims ← get_level_dimensions nx ny level max_level;
  tiles_wide ← tiles_across dims.1;
  tiles_high ← tiles_across dims.2;
  Some (tiles_wide, tiles_high).

(** [tiles_to_process], lines 566-569: row by row, as [(level, tile_col,
    tile_row)]; the source level is always [level + 1]. *)
Definition tiles_to_process (level tiles_wide tiles_high : Z) : list (Z * Z * Z) :=
  tile_row ← seqZ 0 tiles_high;
  (fun tile_col => (level, tile_col, tile_row)) <$> seqZ 0 tiles_wide.

Section Build.
(** The 512 x 512 working array and the operations on pixels stay
    abstract; a tile file holds the array that was saved to it (PNG is
    lossless). *)
Context {rgb_chunk tile combined : Type}.
Variable np_zeros : combined.
  (* np.zeros((TILE_SIZE * 2, TILE_SIZE * 2, 3), dtype=np.uint8) *)
Variable paste : combined -> Z -> Z -> tile -> combined.
  (* combined[y_start:y_start + h, x_start:x_start + w, :] = tile_array *)
Variable downsample_tile : combined -> tile.
  (* image_processor.downsample_tile *)

Local Notation "'tiles_directory'" := (@tiles_directory rgb_chunk tile).

(** Lines 319-335: the source tiles that exist, pasted at their quarter,
    in the order of the two loops. *)
Definition combined_of (files : gmap (Z * Z * Z) tile)
    (source_level tile_col tile_row : Z) : combined :=
  let source_tile_col := tile_col * 2 in
  let source_tile_row := tile_row * 2 in
  foldl (fun combined '(dy, dx) =>
           let src_col := source_tile_col + dx in
           let src_row := source_tile_row + dy in
           match files !! (source_level, src_col, src_row) with
           | Some tile_array => paste combined (dy * TILE_SIZE) (dx * TILE_SIZE) tile_array
           | None => combined
           end)
        np_zeros [(0, 0); (0, 1); (1, 0); (1, 1)].

(** [downsample_tile_worker], on the tiles directory. *)
Definition downsample_tile_worker (d : tiles_directory)
    (level tile_col tile_row source_level : Z) : tiles_directory :=
  let combined := combined_of (tiles d) source_level tile_col tile_row in
  let downsampled := downsample_tile combined in
  (* save_tile(downsampled, level, tile_col, tile_row, tiles_dir) *)
  TilesDir ({[level]} ∪ levels d) (<[(level, tile_col, tile_row) := downsampled]> (tiles d))
           (chunks d) (others d).

(** [pool.imap_unordered(downsample_tile_worker, tiles_to_process)] run to
    its end: each task reads its source files and then writes its one
    file, the tasks taken in the [order] in which they finish. *)
Definition imap_unordered (d : tiles_directory) (order : list (Z * Z * Z)) : tiles_directory :=
  foldl (fun d '(level, tile_col, tile_row) =>
           downsample_tile_worker d level tile_col tile_row (level + 1)) d order.

Variables (nx ny max_level : Z).
(** The order in which the pool finishes the tasks of a work list. *)
Variable finished : list (Z * Z * Z) -> list (Z * Z * Z).

(** One turn of the [for level] loop, lines 553-579, on the files. *)
Definition build_level (d : tiles_directory) (level : Z) : option tiles_directory :=
  grid ← level_grid nx ny level max_level;
  (* os.makedirs(level_dir, exist_ok=True) *)
  let d := TilesDir ({[level]} ∪ levels d) (tiles d) (chunks d) (others d) in
  Some (imap_unordered d (finished (tiles_to_process level grid.1 grid.2))).

(** [for level in range(max_level - 1, -1, -1)], on the files. *)
Definition build_pyramid (d : tiles_directory) : option tiles_directory :=
  foldl (fun d level => d ← d; build_level d level) (Some d) (reverse (seqZ 0 max_level)).
End Build.

(** What the main thread does meanwhile: one [wait_if_paused()], its
    answer dropped, for each result of a level (lines 575-577). *)
Definition watch_level {rgb_chunk tile : Type} (results : nat)
    : M (rgb_chunk:=rgb_chunk) (tile:=tile) unit :=
  for_each (replicate results ()) (fun _ => wait_if_paused ;; mret ()).

(** Lines 585-586: [if os.path.exists(SAVE_FILE): os.remove(SAVE_FILE)]. *)
Definition remove_save_file (d : disk) : disk :=
  if os_path_exists (current d) then os_remove d else d.

(** How the program ends when nothing stops it. *)
Inductive finish :=
| Saved        (* sys.exit(0) after a save, line 547 *)
| Completed.   (* the pyramid is built and the save file removed *)

Section Generate.
Context {rgb_chunk strip_buffer tile combined : Type}.
Variable np_zeros : Z -> Z -> strip_buffer.
Variable assign_columns : strip_buffer -> Z -> Z -> rgb_chunk -> strip_buffer.
Variable flip_vertical : strip_buffer -> strip_buffer.
Variable split_into_tiles : strip_buffer -> Z -> list tile.
Variable np_zeros_combined : combined.
Variable paste : combined -> Z -> Z -> tile -> combined.
Variable downsample_tile : combined -> tile.
Variables (im_scale max_level : Z).
Variable finished : list (Z * Z * Z) -> list (Z * Z * Z).

(** One turn of the [for level] loop, lines 553-579, in the main thread.
    The pool writes the tiles of the level while the main thread takes
    the results; they show in the world when the [with mp.Pool] block is
    left, that is when every task is done.  (While results are awaited
    the directory holds some of the level's tiles already, which the
    world does not say.) *)
Definition pyramid_level (level : Z) : M (rgb_chunk:=rgb_chunk) (tile:=tile) unit :=
  match level_grid (nx im_scale) (ny im_scale) level max_level with
  | None => crash
  | Some (tiles_wide, tiles_high) =>
      make_level_dir level ;;
      let work := tiles_to_process level tiles_wide tiles_high in
      watch_level (length work) ;;
      modify (fun w =>
        set_tiles_dir
          (Some (imap_unordered np_zeros_combined paste downsample_tile (dir_of w)
                   (finished work))) w)
  end.

(** [__main__] from line 372 to line 587: the strips, then either the
    exit after a save or the pyramid and the removal of the save file.
    (The [.dzi] descriptor of lines 581-583 is written in between; it is
    no part of the world.) *)
Definition generate (start_strip : Z) (results : Z -> list (Z * rgb_chunk)) : M finish :=
  e ← run_strips np_zeros assign_columns flip_vertical split_into_tiles
        im_scale max_level start_strip results;
  match e with
  | SysExit => mret Saved
  | PyramidPhase =>
      for_each (reverse (seqZ 0 max_level)) pyramid_level ;;
      modify (fun w => set_save_file (remove_save_file (save_file w)) w) ;;
      mret Completed
  end.
End Generate.

End PyramidBuild.

(** ** The start of the program (lines 165-241) *)

Module Startup.
Import Float64 Checkpoint PyramidBuild.

(** What can go wrong before the generation starts; none of it is
    caught. *)
Inductive error :=
| KeyError
| TypeError
| ZeroDivisionError
| OverflowError
| EOFError
| Uncaught (e : exn).

Inductive result (A : Type) :=
| Ok (a : A)
| Raised (e : error).
Arguments Ok {A} a.
Arguments Raised {A} e.

Definition bind {A B} (m : result A) (k : A -> result B) : result B :=
  match m with Ok a => k a | Raised e => Raised e end.

(** [if saved_progress:], the truth value of what [json.load] gave. *)
Definition truthy (v : pyobj) : bool :=
  match v with
  | PyNone => false
  | PyBool b => b
  | PyInt n => negb (n =? 0)
  | PyFloat (Fin u) => negb (u =? 0)
  | PyFloat _ => true
  | PyStr s => negb (String.eqb s "")
  | PyList l => match l with [] => false | _ => true end
  | PyDict l => match l with [] => false | _ => true end
  end.

(** A dictionary holds each key once; the list gives its items. *)
Fixpoint dict_get (l : list (string * pyobj)) (key : string) : option pyobj :=
  match l with
  | [] => None
  | (k, v) :: l' => if String.eqb k key then Some v else dict_get l' key
  end.

(** [saved_progress[key]] with a string key. *)
Definition subscript (v : pyobj) (key : string) : result pyobj :=
  match v with
  | PyDict l => match dict_get l key with Some x => Ok x | None => Raised KeyError end
  | _ => Raised TypeError
  end.

(** [float(n)] as the division does it for a mixed pair. *)
Definition float_of_int (n : Z) : result float64 :=
  let r := round_units (n * one_units) 1 in
  if Z.abs r <? overflow_units then Ok (Fin r) else Raised OverflowError.

(** The operands [/] accepts: [int] (with [bool]) and [float]. *)
Definition number (v : pyobj) : option (Z + float64) :=
  match v with
  | PyInt n => Some (inl n)
  | PyBool b => Some (inl (if b then 1 else 0))
  | PyFloat x => Some (inr x)
  | _ => None
  end.

(** Python's [x / y] on two floats. *)
Definition float_truediv (x y : float64) : result float64 :=
  match y with
  | Fin 0 => Raised ZeroDivisionError
  | _ => Ok (fdiv x y)
  end.

(** [x / y] on what [json.load] can give. *)
Definition truediv (x y : pyobj) : result float64 :=
  match number x, number y with
  | Some (inl a), Some (inl b) =>
      if b =? 0 then Raised ZeroDivisionError
      else match int_truediv a b with
           | Some q => Ok q
           | None => Raised OverflowError
           end
  | Some (inl a), Some (inr y) => bind (float_of_int a) (fun x => float_truediv x y)
  | Some (inr x), Some (inl b) => bind (float_of_int b) (fun y => float_truediv x y)
  | Some (inr x), Some (inr y) => float_truediv x y
  | _, _ => Raised TypeError
  end.

(** Lines 170-174: what is looked up and computed to print the save. *)
Definition show_save (saved_progress : pyobj) : result unit :=
  bind (subscript saved_progress "im_scale") (fun _ =>
  bind (subscript saved_progress "current_strip") (fun _ =>
  bind (subscript saved_progress "total_strips") (fun _ =>
  bind (subscript saved_progress "current_strip") (fun current_strip =>
  bind (subscript saved_progress "total_strips") (fun total_strips =>
  bind (truediv current_strip total_strips) (fun _ => Ok tt)))))).

(** What the prompts settle. *)
Record start := Start {
  im_scale : pyobj;
  start_strip : pyobj;
  save_file : disk;
  unread : list string      (* the lines not yet read from stdin *)
}.

Section Prompt.
Variable json_load : string -> py pyobj.
Variable strip : string -> string.        (* s.strip() *)
Variable lower : string -> string.        (* s.lower() *)
Variable py_int : string -> option Z.     (* int(s); [None] is ValueError *)
Variable estimate_raises : Z -> bool.
  (* estimate_time(scale) or estimate_storage(scale) raises OverflowError *)

(** [confirm in ['y', 'yes']] *)
Definition is_yes (confirm : string) : bool :=
  String.eqb confirm "y" || String.eqb confirm "yes".

(** The scale an entry stands for: the default for an empty entry, the
    integer for a positive integer; nothing for what [int] refuses
    (ValueError) and for a scale that is not positive. *)
Definition entered_scale (entry : string) : option Z :=
  if String.eqb entry "" then Some 4
  else match py_int entry with
       | Some scale => if scale <=? 0 then None else Some scale
       | None => None
       end.

(** [im_scale = saved_progress['im_scale']; start_strip =
    saved_progress['current_strip']], lines 178-179 and 202-203. *)
Definition resume (saved_progress : pyobj) (d : disk) (inputs : list string) : result start :=
  bind (subscript saved_progress "im_scale") (fun scale =>
  bind (subscript saved_progress "current_strip") (fun strip_idx =>
  Ok (Start scale strip_idx d inputs))).

(** The [while True] loop of lines 182-208, entered with [choice]; each
    [input()] takes the next line of [inputs]. *)
Fixpoint fresh_or_resume (saved_progress : pyobj) (d : disk) (choice : string)
    (inputs : list string) {struct inputs} : result start :=
  match entered_scale choice with
  | None =>
      match inputs with
      | [] => Raised EOFError
      | line :: rest => fresh_or_resume saved_progress d (lower (strip line)) rest
      end
  | Some scale =>
      match inputs with
      | [] => Raised EOFError
      | confirm :: rest =>
          if is_yes (lower (strip confirm)) then
            Ok (Start (PyInt scale) (PyInt 0) (remove_save_file d) rest)
          else
            match rest with
            | [] => Raised EOFError
            | line :: rest' =>
                let choice := lower (strip line) in
                if String.eqb choice "r" then resume saved_progress d rest'
                else fresh_or_resume saved_progress d choice rest'
            end
      end
  end.

(** Lines 169-208. *)
Definition save_found (saved_progress : pyobj) (d : disk) (inputs : list string)
    : result start :=
  bind (show_save saved_progress) (fun _ =>
  match inputs with
  | [] => Raised EOFError
  | line :: rest =>
      let choice := lower (strip line) in
      if String.eqb choice "r" then resume saved_progress d rest
      else fresh_or_resume saved_progress d choice rest
  end).

(** The [while True] loop of lines 211-241. *)
Fixpoint ask_scale (start_strip : pyobj) (d : disk) (inputs : list string)
    {struct inputs} : result start :=
  match inputs with
  | [] => Raised EOFError
  | line :: rest =>
      match entered_scale (strip line) with
      | None => ask_scale start_strip d rest
      | Some scale =>
          if estimate_raises scale then Raised OverflowError
          else
            match rest with
            | [] => Raised EOFError
            | confirm :: rest' =>
                if is_yes (lower (strip confirm)) then
                  Ok (Start (PyInt scale) start_strip d rest')
                else ask_scale start_strip d rest'
            end
      end
  end.

(** Lines 165-241. *)
Definition startup (d : disk) (inputs : list string) : result start :=
  match load_progress json_load (current d) with
  | Raise e => Raised (Uncaught e)
  | Return saved_progress =>
      bind (if truthy saved_progress then save_found saved_progress d inputs
            else Ok (Start PyNone (PyInt 0) d inputs))
           (fun st =>
              match im_scale st with
              | PyNone => ask_scale (start_strip st) (save_file st) (unread st)
              | _ => Ok st
              end)
  end.
End Prompt.

(** *** Stand-ins for the examples: an [int] that knows two numerals, a
    parser that refuses everything and one that gives a save with no
    strips. *)
Definition toy_int (s : string) : option Z :=
  if String.eqb s "3" then Some 3 else if String.eqb s "0" then Some 0 else None.

Definition no_json (text : string) : py pyobj := Raise JSONDecodeError.

Definition toy_json (text : string) : py pyobj :=
  Return (PyDict [("im_scale", PyInt 2); ("current_strip", PyInt 0);
                  ("total_strips", PyInt 0)]).

End Startup.
(** * Properties *)

Section ArrayLemmas.

Lemma getitem_arange_map (f : Z -> Z) (n i : Z) :
  0 <= i < n -> getitem (f <$> np_arange n) i = Some (f i).
Proof.
  intros Hi. unfold getitem, np_arange.
  destruct (Z.ltb_spec i 0) as [?|_]; [lia|].
  rewrite list_lookup_fmap.
  rewrite (lookup_seqZ_lt 0 n (Z.to_nat i)) by lia.
  simpl. f_equal. f_equal. lia.
Qed.


End ArrayLemmas.

Module ChunkGridFacts.
Import ChunkGrid.

Lemma bx_lookup nx i : 0 <= i < nc nx -> getitem (bx nx) i = Some (i * ncol).
Proof. intros. unfold bx. by rewrite getitem_arange_map. Qed.

Lemma ex_lookup nx i :
  0 <= i < nc nx -> getitem (ex nx) i = Some (np_clip ((i + 1) * ncol) 0 nx).
Proof. intros. unfold ex. by rewrite getitem_arange_map. Qed.


(** [nc] is the ceiling of [nx/ncol]. *)
Lemma nc_ceil nx : 0 <= nx -> (nc nx - 1) * ncol < nx <= nc nx * ncol \/ (nx = 0 /\ nc nx = 0).
Proof.
  intros Hnx. unfold nc, fx, ncol.
  pose proof (Z.div_mod nx 64 ltac:(lia)) as Hdm.
  pose proof (Z.mod_pos_bound nx 64 ltac:(lia)) as Hb.
  destruct (Z.ltb_spec (nx / 64 * 64) nx); lia.
Qed.

Lemma nc_pos nx : 0 < nx -> 0 < nc nx.
Proof. intros H. destruct (nc_ceil nx) as [?|[? ?]]; unfold ncol in *; lia. Qed.






(** C3, as stated, fails: the number of chunks is not a constant, it grows
    with the width (160 chunks at scale 1, 320 at scale 2). *)
Lemma chunk_count_depends_on_width :
  nc 10240 = 160 /\ nc 20480 = 320 /\
  ~ (exists C, forall nx, 0 < nx -> nc nx = C).
Proof.
  split; [reflexivity|]. split; [reflexivity|].
  intros [C HC].
  pose proof (HC 10240 ltac:(lia)) as H1.
  pose proof (HC 20480 ltac:(lia)) as H2.
  vm_compute in H1, H2. lia.
Qed.

(** C3, amended. The chunk grid is a fixed-width column partition: the
    constant is the band width [ncol = 64], every chunk but the last is
    exactly [ncol] columns wide, the last one is between 1 and [ncol]
    columns wide, and the number of chunks is the ceiling of [nx/ncol]. *)
Theorem chunk_grid_fixed_width nx :
  0 < nx ->
  ncol = 64 /\
  (nc nx - 1) * ncol < nx <= nc nx * ncol /\
  (forall i, 0 <= i < nc nx - 1 -> chunk_width nx i = Some ncol) /\
  (exists w, chunk_width nx (nc nx - 1) = Some w /\ 0 < w <= ncol).
Proof.
  intros Hnx.
  pose proof (nc_pos nx Hnx) as Hnc.
  destruct (nc_ceil nx ltac:(lia)) as [Hceil|[? ?]]; [|lia].
  split; [done|]. split; [done|]. unfold chunk_width. split.
  - intros i Hi. rewrite bx_lookup, ex_lookup by lia. simpl.
    f_equal. unfold np_clip, ncol in *. lia.
  - rewrite bx_lookup, ex_lookup by lia. simpl.
    eexists; split; [done|]. unfold np_clip, ncol in *. lia.
Qed.

Lemma chunk_grid_fixed_width_witness :
  0 < 10240 /\ (nc 10240 - 1) * ncol < 10240 <= nc 10240 * ncol.
Proof.
  split; [lia|]. apply (chunk_grid_fixed_width 10240). lia.
Defined.

End ChunkGridFacts.

Module Float64Facts.
Import Float64.

(** *** Rounding to the nearest integer *)

Lemma rne_div_floor n d : 0 < d -> n / d <= rne_div n d <= n / d + 1.
Proof.
  intros Hd. unfold rne_div.
  repeat case_match; lia.
Qed.

Lemma rne_div_exact n d : 0 < d -> n mod d = 0 -> rne_div n d = n / d.
Proof.
  intros Hd Hr. unfold rne_div. rewrite Hr.
  destruct (Z.ltb_spec (2 * 0) d); [done|lia].
Qed.

Lemma rne_div_mul m d : 0 < d -> rne_div (m * d) d = m.
Proof.
  intros Hd. rewrite rne_div_exact by (try done; apply Z.mod_mul; lia).
  apply Z.div_mul. lia.
Qed.

Lemma rne_div_ge n d m : 0 < d -> m * d <= n -> m <= rne_div n d.
Proof.
  intros Hd Hn. pose proof (rne_div_floor n d Hd).
  assert (m <= n / d) by (apply Z.div_le_lower_bound; lia). lia.
Qed.

Lemma rne_div_le n d m : 0 < d -> n <= m * d -> rne_div n d <= m.
Proof.
  intros Hd Hn.
  pose proof (Z.div_mod n d ltac:(lia)) as Hdm.
  pose proof (Z.mod_pos_bound n d Hd) as Hb.
  destruct (decide (n mod d = 0)) as [Hz|Hnz].
  - rewrite rne_div_exact by done. nia.
  - pose proof (rne_div_floor n d Hd). 
    assert (n / d < m) by nia. lia.
Qed.

(** *** Rounding to the nearest double *)

Lemma ulp_exp_nonneg n d : 0 <= ulp_exp n d.
Proof. unfold ulp_exp. lia. Qed.

Lemma round_units_nonneg n d : 0 < d -> 0 <= n -> 0 <= round_units n d.
Proof.
  intros Hd Hn. unfold round_units.
  pose proof (ulp_exp_nonneg n d) as Hs.
  assert (0 < 2 ^ ulp_exp n d) by (apply Z.pow_pos_nonneg; lia).
  assert (0 <= rne_div n (d * 2 ^ ulp_exp n d)); [|nia].
  apply (rne_div_ge _ _ 0); nia.
Qed.

Lemma round_units_nonpos n d : 0 < d -> n <= 0 -> round_units n d <= 0.
Proof.
  intros Hd Hn. unfold round_units.
  pose proof (ulp_exp_nonneg n d) as Hs.
  assert (0 < 2 ^ ulp_exp n d) by (apply Z.pow_pos_nonneg; lia).
  assert (rne_div n (d * 2 ^ ulp_exp n d) <= 0); [|nia].
  apply (rne_div_le _ _ 0); nia.
Qed.


(** Rounding never crosses a double: a quotient at least [c] rounds to at
    least [c], one at most [c] to at most [c]. *)
Lemma round_units_ge n d c :
  0 < d -> 0 < c -> on_grid c -> c * d <= n -> c <= round_units n d.
Proof.
  intros Hd Hc Hg Hn. unfold round_units, ulp_exp.
  assert (Hq : c <= n / d) by (apply Z.div_le_lower_bound; lia).
  rewrite (Z.abs_eq n) by nia.
  pose proof (Z.log2_le_mono _ _ Hq) as Hl.
  set (l := Z.log2 (n / d)) in *.
  unfold on_grid in Hg. rewrite (Z.abs_eq c) in Hg by lia.
  set (lc := Z.log2 c) in *.
  destruct (decide (Z.max (l - 52) 0 = Z.max (lc - 52) 0)) as [Heq|Hne].
  - rewrite Heq. set (s := Z.max (lc - 52) 0) in *.
    destruct Hg as [m Hm].
    assert (0 < 2 ^ s) by (apply Z.pow_pos_nonneg; lia).
    assert (m <= rne_div n (d * 2 ^ s)); [|nia].
    apply rne_div_ge; nia.
  - assert (Hs : Z.max (l - 52) 0 = l - 52) by lia. rewrite Hs.
    assert (lc < l) by lia.
    pose proof (Z.log2_spec c Hc) as [_ Hcu]. fold lc in Hcu.
    pose proof (Z.log2_spec (n / d) ltac:(lia)) as [Hnl _]. fold l in Hnl.
    assert (0 < 2 ^ (l - 52)) by (apply Z.pow_pos_nonneg; lia).
    assert (H2l : 2 ^ l = 2 ^ 52 * 2 ^ (l - 52)).
    { rewrite <- Z.pow_add_r by lia. f_equal. lia. }
    assert (2 ^ 52 <= rne_div n (d * 2 ^ (l - 52))).
    { apply rne_div_ge; [nia|].
      pose proof (Z.mul_div_le n d Hd). nia. }
    assert (2 ^ Z.succ lc <= 2 ^ l) by (apply Z.pow_le_mono_r; lia).
    nia.
Qed.

Lemma round_units_le n d c :
  0 < d -> 0 <= n -> 0 < c -> on_grid c -> n <= c * d -> round_units n d <= c.
Proof.
  intros Hd Hn0 Hc Hg Hn. unfold round_units, ulp_exp.
  rewrite (Z.abs_eq n) by nia.
  assert (Hq : n / d <= c).
  { apply Z.div_le_upper_bound; lia. }
  assert (Hq0 : 0 <= n / d) by (apply Z.div_pos; lia).
  pose proof (Z.log2_le_mono _ _ Hq) as Hl.
  set (l := Z.log2 (n / d)) in *.
  unfold on_grid in Hg. rewrite (Z.abs_eq c) in Hg by lia.
  set (lc := Z.log2 c) in *.
  assert (0 <= l) by apply Z.log2_nonneg.
  destruct (decide (Z.max (l - 52) 0 = Z.max (lc - 52) 0)) as [Heq|Hne].
  - rewrite Heq. set (s := Z.max (lc - 52) 0) in *.
    destruct Hg as [m Hm].
    assert (0 < 2 ^ s) by (apply Z.pow_pos_nonneg; lia).
    assert (rne_div n (d * 2 ^ s) <= m); [|nia].
    apply rne_div_le; nia.
  - assert (l < lc) by lia.
    set (s := Z.max (l - 52) 0) in *.
    assert (Hs0 : 0 <= s) by lia.
    assert (0 < 2 ^ s) by (apply Z.pow_pos_nonneg; lia).
    pose proof (Z.log2_spec c Hc) as [Hcl _]. fold lc in Hcl.
    assert (Hnu : n / d < 2 ^ (l + 1)).
    { destruct (decide (n / d = 0)) as [->|?].
      - apply Z.pow_pos_nonneg; lia.
      - pose proof (Z.log2_spec (n / d) ltac:(lia)) as [_ Hu]. fold l in Hu.
        by rewrite <- Z.add_1_r in Hu. }
    assert (H2l : 2 ^ (l + 1) = 2 ^ (l + 1 - s) * 2 ^ s).
    { rewrite <- Z.pow_add_r by lia. f_equal. lia. }
    assert (rne_div n (d * 2 ^ s) <= 2 ^ (l + 1 - s)).
    { apply rne_div_le; [nia|].
      assert (n < 2 ^ (l + 1) * d); [|nia].
      pose proof (Z.div_mod n d ltac:(lia)).
      pose proof (Z.mod_pos_bound n d Hd). nia. }
    assert (2 ^ (l + 1) <= 2 ^ lc) by (apply Z.pow_le_mono_r; lia).
    nia.
Qed.

Lemma one_units_pos : 0 < one_units.
Proof. reflexivity. Qed.

Lemma on_grid_mul_one m : 0 < m < 2 ^ 53 -> on_grid (m * one_units).
Proof.
  intros Hm. unfold on_grid.
  pose proof one_units_pos.
  rewrite Z.abs_eq by nia.
  assert (Hl : Z.log2 (m * one_units) = Z.log2 m + unit_exp).
  { unfold one_units. rewrite <- Z.shiftl_mul_pow2 by done.
    rewrite Z.log2_shiftl; [done|lia|done]. }
  rewrite Hl.
  assert (Z.log2 m < 53) by (apply Z.log2_lt_pow2; lia).
  pose proof (Z.log2_nonneg m).
  unfold one_units, unit_exp in *.
  set (s := Z.max (Z.log2 m + 1074 - 52) 0).
  exists (m * 2 ^ (1074 - s)).
  rewrite <- Z.mul_assoc, <- Z.pow_add_r by lia. do 2 f_equal; lia.
Qed.

Lemma fclip_Fin a lo hi :
  fclip (Fin a) (Fin lo) (Fin hi) = Fin (Z.min (Z.max a lo) hi).
Proof.
  unfold fclip, fmax, fmin, fle.
  destruct (Z.leb_spec a lo).
  - rewrite Z.max_r by lia. destruct (Z.leb_spec lo hi); f_equal; lia.
  - rewrite Z.max_l by lia. destruct (Z.leb_spec a hi); f_equal; lia.
Qed.

Lemma fclip_Inf s lo hi :
  lo <= hi -> fclip (Inf s) (Fin lo) (Fin hi) = Fin (if s then lo else hi).
Proof.
  intros. unfold fclip, fmax, fmin, fle. destruct s; [|done].
  destruct (Z.leb_spec lo hi); [done|lia].
Qed.

Lemma of_units_cases r :
  of_units r = Fin r \/ (of_units r = Inf false /\ 0 < r) \/ (of_units r = Inf true /\ r < 0).
Proof.
  unfold of_units. pose proof one_units_pos.
  assert (0 < overflow_units) by reflexivity.
  destruct (Z.ltb_spec (Z.abs r) overflow_units); [by left|right].
  destruct (Z.ltb_spec r 0); [right|left]; split; try done; lia.
Qed.

Lemma of_units_small r : Z.abs r < overflow_units -> of_units r = Fin r.
Proof. intros. unfold of_units. destruct (Z.ltb_spec (Z.abs r) overflow_units); [done|lia]. Qed.

Lemma astype_uint8_of_Z b : 0 <= b <= 255 -> astype_uint8 (Fin (b * one_units)) = Some b.
Proof.
  intros Hb. unfold astype_uint8. pose proof one_units_pos.
  rewrite Z.quot_mul by lia.
  destruct (Z.leb_spec 0 b); [|lia]. destruct (Z.leb_spec b 255); [done|lia].
Qed.

Lemma astype_uint8_range u :
  0 <= u <= 255 * one_units ->
  exists b, astype_uint8 (Fin u) = Some b /\ 0 <= b <= 255.
Proof.
  intros Hu. unfold astype_uint8. pose proof one_units_pos.
  rewrite Z.quot_div_nonneg by lia.
  assert (0 <= u / one_units) by (apply Z.div_pos; lia).
  assert (u / one_units <= 255) by (apply Z.div_le_upper_bound; lia).
  destruct (Z.leb_spec 0 (u / one_units)); [|lia].
  destruct (Z.leb_spec (u / one_units) 255); [|lia].
  eexists; split; [done|lia].
Qed.

(** Integers of at most 53 bits, scaled by a power of two, are doubles. *)
Lemma on_grid_shift m t : 0 < m <= 2 ^ 53 -> 0 <= t -> on_grid (m * 2 ^ t).
Proof.
  intros Hm Ht. unfold on_grid.
  assert (0 < 2 ^ t) by (apply Z.pow_pos_nonneg; lia).
  rewrite Z.abs_eq by nia.
  assert (Hl : Z.log2 (m * 2 ^ t) = Z.log2 m + t).
  { rewrite <- Z.shiftl_mul_pow2 by done.
    rewrite Z.log2_shiftl; [done|lia|done]. }
  rewrite Hl.
  pose proof (Z.log2_nonneg m).
  destruct (decide (m = 2 ^ 53)) as [->|Hne].
  - rewrite Z.log2_pow2 by lia.
    set (s := Z.max (53 + t - 52) 0).
    exists (2 ^ (53 + t - s)).
    rewrite <- !Z.pow_add_r by lia. f_equal. lia.
  - assert (Z.log2 m < 53) by (apply Z.log2_lt_pow2; lia).
    set (s := Z.max (Z.log2 m + t - 52) 0).
    exists (m * 2 ^ (t - s)).
    rewrite <- Z.mul_assoc, <- Z.pow_add_r by lia. do 2 f_equal. lia.
Qed.

(** A quotient that is a double is delivered as it is. *)
Lemma round_units_exact c d :
  0 < d -> 0 <= c -> on_grid c -> round_units (c * d) d = c.
Proof.
  intros Hd Hc Hg. destruct (decide (c = 0)) as [->|Hne].
  - unfold round_units, ulp_exp. rewrite Z.mul_0_l, Z.abs_0, Z.div_0_l by lia.
    change (Z.max (Z.log2 0 - 52) 0) with 0. rewrite Z.pow_0_r, !Z.mul_1_r.
    unfold rne_div. rewrite Z.div_0_l, Z.mod_0_l by lia.
    destruct (Z.ltb_spec (2 * 0) d); [done|lia].
  - pose proof (round_units_ge (c * d) d c ltac:(done) ltac:(lia) Hg ltac:(lia)).
    pose proof (round_units_le (c * d) d c ltac:(done) ltac:(nia) ltac:(lia) Hg ltac:(lia)).
    lia.
Qed.

End Float64Facts.

Module WorkerFacts.
Import Float64 Float64Facts Worker.



Lemma overflow_above_255 : 255 * one_units < overflow_units.
Proof. reflexivity. Qed.

Local Opaque one_units overflow_units.

Lemma fmul_255_nonpos r :
  r <= 0 ->
  exists y, fmul (Fin r) (Fin (255 * one_units)) = y /\
            fclip y (Fin (0 * one_units)) (Fin (255 * one_units)) = Fin 0.
Proof.
  intros Hr. pose proof one_units_pos. eexists; split; [done|].
  unfold fmul.
  pose proof (round_units_nonpos (r * (255 * one_units)) one_units ltac:(done) ltac:(nia)).
  destruct (of_units_cases (round_units (r * (255 * one_units)) one_units))
    as [->|[[-> ?]|[-> ?]]].
  - rewrite fclip_Fin. f_equal; lia.
  - lia.
  - rewrite fclip_Inf by lia. f_equal; lia.
Qed.

Lemma fmul_255_ge_one r :
  one_units <= r ->
  exists y, fmul (Fin r) (Fin (255 * one_units)) = y /\
            fclip y (Fin (0 * one_units)) (Fin (255 * one_units)) = Fin (255 * one_units).
Proof.
  intros Hr. pose proof one_units_pos. eexists; split; [done|].
  unfold fmul.
  pose proof (round_units_ge (r * (255 * one_units)) one_units (255 * one_units)
                ltac:(done) ltac:(lia) (on_grid_mul_one 255 ltac:(lia)) ltac:(nia)).
  destruct (of_units_cases (round_units (r * (255 * one_units)) one_units))
    as [->|[[-> ?]|[-> ?]]].
  - rewrite fclip_Fin. f_equal; lia.
  - rewrite fclip_Inf by lia. done.
  - lia.
Qed.

Lemma fmul_255_unit_interval r :
  0 <= r <= one_units ->
  exists u, fmul (Fin r) (Fin (255 * one_units)) = Fin u /\ 0 <= u <= 255 * one_units.
Proof.
  intros Hr. pose proof one_units_pos. pose proof overflow_above_255.
  unfold fmul.
  pose proof (round_units_le (r * (255 * one_units)) one_units (255 * one_units)
                ltac:(done) ltac:(nia) ltac:(lia) (on_grid_mul_one 255 ltac:(lia)) ltac:(nia)).
  pose proof (round_units_nonneg (r * (255 * one_units)) one_units ltac:(done) ltac:(nia)).
  rewrite of_units_small by lia. eauto.
Qed.

Lemma fdiv_color_max u :
  fdiv (Fin u) color_max = of_units (round_units (u * one_units) (100 * one_units)).
Proof.
  unfold fdiv, color_max, of_Z, color_reference. pose proof one_units_pos.
  destruct (Z.eqb_spec (100 * one_units) 0); [lia|].
  destruct (Z.ltb_spec 0 (100 * one_units)); [done|lia].
Qed.



(** A few values against CPython/NumPy: 50 maps to 127, 99 to 252, a
    negative value to 0, values above the reference and +inf to 255. *)
Example chunk_normalized_samples :
  chunk_normalized color_max (of_Z 50) = Some 127 /\
  chunk_normalized color_max (of_Z 99) = Some 252 /\
  chunk_normalized color_max (of_Z (-3)) = Some 0 /\
  chunk_normalized color_max (of_Z 101) = Some 255 /\
  chunk_normalized color_max (Inf false) = Some 255 /\
  chunk_normalized color_max NaN = None.
Proof. vm_compute. repeat split. Qed.

End WorkerFacts.

Module PyramidFacts.
Import Float64 Float64Facts Pyramid.

Lemma neg_div_ceil a b : 0 < b -> - (- a / b) = cdiv a b.
Proof.
  intros Hb. unfold cdiv.
  pose proof (Z.div_mod (- a) b ltac:(lia)).
  pose proof (Z.mod_pos_bound (- a) b Hb).
  pose proof (Z.div_mod (a + b - 1) b ltac:(lia)).
  pose proof (Z.mod_pos_bound (a + b - 1) b Hb).
  nia.
Qed.

Lemma cdiv_pos a b : 0 < b -> 1 <= a -> 1 <= cdiv a b.
Proof.
  intros Hb Ha. unfold cdiv. apply Z.div_le_lower_bound; lia.
Qed.

Lemma cdiv_small a b : 1 <= a <= b -> cdiv a b = 1.
Proof.
  intros Ha. unfold cdiv. 
  assert (H : a + b - 1 = 1 * b + (a - 1)) by lia. rewrite H.
  rewrite Z.div_add_l by lia. rewrite Z.div_small by lia. done.
Qed.

Lemma cdiv_half a p : 0 < p -> ceil_half (cdiv a p) = cdiv a (2 * p).
Proof.
  intros Hp. unfold ceil_half, cdiv.
  replace ((a + p - 1) / p + 1) with ((a + 2 * p - 1) / p).
  2:{ replace (a + 2 * p - 1) with (a + p - 1 + 1 * p) by lia.
      by rewrite Z.div_add by lia. }
  rewrite Z.div_div by lia. f_equal. lia.
Qed.

(** Up to 2^53 the float quotient by a power of two is exact, or it is
    below one and [max(1, ...)] takes over: the extent is the integer
    ceiling. *)
Lemma level_extent_pow2 a k :
  1 <= a <= 2 ^ 53 -> 0 <= k -> level_extent a (2 ^ k) = Some (cdiv a (2 ^ k)).
Proof.
  intros Ha Hk. unfold level_extent, int_truediv.
  assert (Hd : 0 < 2 ^ k) by (apply Z.pow_pos_nonneg; lia).
  destruct (Z.eqb_spec (2 ^ k) 0); [lia|].
  destruct (Z.ltb_spec 0 (2 ^ k)); [|lia].
  pose proof one_units_pos as H1.
  assert (Hof : 2 ^ 53 * one_units < overflow_units) by reflexivity.
  destruct (Z_le_gt_dec k unit_exp) as [Hle|Hgt].
  - (* the quotient is a double: the division is exact *)
    assert (Hone : one_units = 2 ^ (unit_exp - k) * 2 ^ k).
    { unfold one_units. rewrite <- Z.pow_add_r by lia. f_equal. lia. }
    assert (Hp : 0 < 2 ^ (unit_exp - k)) by (apply Z.pow_pos_nonneg; lia).
    assert (Hr : round_units (a * one_units) (2 ^ k) = a * 2 ^ (unit_exp - k)).
    { rewrite Hone, Z.mul_assoc.
      apply round_units_exact; [done|nia|]. apply on_grid_shift; lia. }
    rewrite Hr.
    destruct (Z.ltb_spec (Z.abs (a * 2 ^ (unit_exp - k))) overflow_units) as [_|Hbad].
    2:{ rewrite Z.abs_eq in Hbad by nia.
        assert (2 ^ (unit_exp - k) <= one_units) by nia. nia. }
    assert (Hceil : - (- (a * 2 ^ (unit_exp - k)) / one_units) = cdiv a (2 ^ k)).
    { rewrite Hone.
      replace (- (a * 2 ^ (unit_exp - k))) with (2 ^ (unit_exp - k) * - a) by lia.
      rewrite Z.div_mul_cancel_l by lia. by apply neg_div_ceil. }
    simpl. rewrite Hceil.
    pose proof (cdiv_pos a (2 ^ k) Hd ltac:(lia)). f_equal. lia.
  - (* the scale exceeds 2^1074: the quotient is below one *)
    assert (Hbig : 2 ^ 53 < 2 ^ k).
    { apply Z.pow_lt_mono_r; unfold unit_exp in *; lia. }
    assert (Hone : 2 ^ k = one_units * 2 ^ (k - unit_exp)).
    { unfold one_units. rewrite <- Z.pow_add_r by (unfold unit_exp in *; lia).
      f_equal. lia. }
    assert (Hp : 0 < 2 ^ (k - unit_exp)).
    { apply Z.pow_pos_nonneg; unfold unit_exp in *; lia. }
    pose proof (round_units_nonneg (a * one_units) (2 ^ k) Hd ltac:(nia)) as Hr0.
    pose proof (round_units_le (a * one_units) (2 ^ k) (2 ^ 53 * 2 ^ 0)
                  Hd ltac:(nia) ltac:(lia) (on_grid_shift (2 ^ 53) 0 ltac:(lia) ltac:(lia))) as Hr1.
    assert (Hsmall : 2 ^ 53 < one_units) by reflexivity.
    set (r := round_units (a * one_units) (2 ^ k)) in *.
    assert (Hrb : r <= 2 ^ 53).
    { assert (a * one_units <= 2 ^ 53 * 2 ^ 0 * 2 ^ k); [|lia]. nia. }
    destruct (Z.ltb_spec (Z.abs r) overflow_units); [|lia].
    simpl. f_equal. rewrite cdiv_small by lia.
    rewrite neg_div_ceil by done.
    destruct (decide (r = 0)) as [->|?].
    + unfold cdiv. rewrite Z.div_small by lia. lia.
    + rewrite cdiv_small by lia. lia.
Qed.

(** C9, amended. For every resolution with 1 <= W, H <= 2^53 and every
    level 0 <= L < maxLevel, [get_level_dimensions] gives
    dim(L) = ceil(dim(L+1)/2) componentwise and dim(maxLevel) = (W, H). *)
Theorem level_dimensions_halve W H L maxLevel :
  1 <= W <= 2 ^ 53 -> 1 <= H <= 2 ^ 53 -> 0 <= L < maxLevel ->
  get_level_dimensions W H maxLevel maxLevel = Some (W, H) /\
  exists w h w' h',
    get_level_dimensions W H L maxLevel = Some (w, h) /\
    get_level_dimensions W H (L + 1) maxLevel = Some (w', h') /\
    w = ceil_half w' /\ h = ceil_half h'.
Proof.
  intros HW HH HL. 
  assert (Hgld : forall l, 0 <= l <= maxLevel ->
            get_level_dimensions W H l maxLevel =
            Some (cdiv W (2 ^ (maxLevel - l)), cdiv H (2 ^ (maxLevel - l)))).
  { intros l Hl. unfold get_level_dimensions, int_pow2.
    destruct (Z.ltb_spec (maxLevel - l) 0); [lia|]. simpl.
    rewrite !level_extent_pow2 by lia. done. }
  split.
  - rewrite Hgld by lia. rewrite Z.sub_diag. unfold cdiv. simpl.
    rewrite !Z.div_1_r. do 2 f_equal; lia.
  - eexists _, _, _, _. rewrite !Hgld by lia. repeat split.
    + replace (maxLevel - L) with (Z.succ (maxLevel - (L + 1))) by lia.
      rewrite Z.pow_succ_r by lia. symmetry. apply cdiv_half.
      apply Z.pow_pos_nonneg; lia.
    + replace (maxLevel - L) with (Z.succ (maxLevel - (L + 1))) by lia.
      rewrite Z.pow_succ_r by lia. symmetry. apply cdiv_half.
      apply Z.pow_pos_nonneg; lia.
Qed.

(** C9, as stated, fails for resolutions too large for a double: the
    quotient [width / scale] is a float, and at scale 2251799813685249 the
    full-resolution level is not (W, H). *)
Lemma level_dimensions_inexact :
  let W := (2 ^ 51 + 1) * 10240 in
  let H := (2 ^ 51 + 1) * 7680 in
  get_level_dimensions W H 65 65 = Some (W - 2048, H + 512) /\
  get_level_dimensions W H 65 65 <> Some (W, H).
Proof. vm_compute. split; [reflexivity|congruence]. Qed.

Lemma level_dimensions_halve_witness :
  1 <= 10240 <= 2 ^ 53 /\ 1 <= 7680 <= 2 ^ 53 /\ 0 <= 13 < 14 /\
  get_level_dimensions 10240 7680 14 14 = Some (10240, 7680).
Proof.
  split; [lia|]. split; [lia|]. split; [lia|].
  apply (level_dimensions_halve 10240 7680 13 14); lia.
Defined.

(** The spec's scenario: 1024 x 768 at level 10 is full size, level 0 is
    one pixel. *)
Example level_dimensions_1024_768 :
  get_level_dimensions 1024 768 10 10 = Some (1024, 768) /\
  get_level_dimensions 1024 768 9 10 = Some (512, 384) /\
  get_level_dimensions 1024 768 0 10 = Some (1, 1).
Proof. vm_compute. repeat split. Qed.

End PyramidFacts.

Module ControlFacts.
Import Control.

Lemma lower_ctrl_c : lower ctrl_c = ctrl_c.
Proof. reflexivity. Qed.

Lemma interrupt_is_no_command ch :
  is_interrupt ch = true -> is_pause ch = false /\ is_save ch = false /\ is_exit ch = false.
Proof.
  unfold is_interrupt. intros H%Ascii.eqb_eq. subst ch. by vm_compute.
Qed.

Lemma commands_exclusive ch :
  (is_pause ch = true -> is_save ch = false /\ is_exit ch = false) /\
  (is_save ch = true -> is_pause ch = false /\ is_exit ch = false) /\
  (is_exit ch = true -> is_pause ch = false /\ is_save ch = false).
Proof.
  unfold is_pause, is_save, is_exit.
  split; [|split]; intros H%Ascii.eqb_eq; rewrite H; split; reflexivity.
Qed.

(** One key ends the process exactly when it is the interrupt character,
    or an exit command while the exit is armed. *)
Lemma key_pressed_exits f ch :
  (key_pressed f ch).1 = Exited <->
  is_interrupt ch = true \/ (is_exit ch = true /\ exit_confirm f = 1).
Proof.
  unfold key_pressed.
  pose proof (interrupt_is_no_command ch) as Hint.
  pose proof (commands_exclusive ch) as (Hp & Hs & He).
  fold (is_pause ch) (is_save ch) (is_exit ch) (is_interrupt ch).
  destruct (is_pause ch) eqn:Ep.
  { destruct (Hp eq_refl) as [_ Hne].
    destruct (is_interrupt ch); [by destruct Hint|].
    repeat case_match; simpl; split; try done; intros [?|[? ?]]; congruence. }
  destruct (is_save ch) eqn:Es.
  { destruct (Hs eq_refl) as [_ Hne].
    destruct (is_interrupt ch); [by destruct Hint as (_ & ? & _)|].
    repeat case_match; simpl; split; try done; intros [?|[? ?]]; congruence. }
  destruct (is_exit ch) eqn:Ee.
  { destruct (Z.eqb_spec (exit_confirm f) 1); simpl; split; try done; auto.
    intros [?|[? ?]]; [|done].
    destruct Hint as (_ & _ & ?); done. }
  destruct (is_interrupt ch); simpl; split; try done; auto.
  intros [?|[? ?]]; done.
Qed.

Lemma key_pressed_armed f ch f' :
  (key_pressed f ch).1 = Listening f' ->
  (exit_confirm f' =? 1) =
  (if is_pause ch then false else if is_exit ch then true else exit_confirm f =? 1).
Proof.
  unfold key_pressed.
  fold (is_pause ch) (is_save ch) (is_exit ch) (is_interrupt ch).
  pose proof (commands_exclusive ch) as (Hp & Hs & He).
  destruct (is_pause ch) eqn:Ep.
  { repeat case_match; simpl; intros [= <-]; simpl; try done; lia. }
  destruct (is_save ch) eqn:Es.
  { destruct (is_exit ch) eqn:Ee; [by destruct (Hs eq_refl)|].
    repeat case_match; simpl; intros [= <-]; simpl; done. }
  destruct (is_exit ch) eqn:Ee.
  { repeat case_match; simpl; intros [= <-]; simpl; done. }
  repeat case_match; simpl; intros [= <-]; simpl; done.
Qed.

Lemma input_listener_armed keys : forall f f',
  (input_listener f keys).1 = Listening f' ->
  (exit_confirm f' =? 1) = armed_after (exit_confirm f =? 1) keys.
Proof.
  induction keys as [|ch keys IH]; intros f f'; simpl.
  - by intros [= ->].
  - destruct (key_pressed f ch) as [[f1|] out] eqn:Hk; [|done].
    destruct (input_listener f1 keys) as [l out'] eqn:Hl. simpl.
    intros ->. 
    pose proof (IH f1 f') as IH'. rewrite Hl in IH'. rewrite IH' by done.
    f_equal. apply key_pressed_armed. by rewrite Hk.
Qed.

(** C8, as stated, fails: after exit then save the exit is still armed, and
    the next exit command ends the process although the command before it
    was not an exit command. *)
Lemma exit_stays_armed_across_save : ~ exits_only_on_consecutive_exit.
Proof.
  intros H.
  destruct (H ["e"%char] "s"%char "e"%char (Flags 1 1 1)) as [Hi|[_ Hs]];
    [reflexivity | reflexivity | discriminate Hi | discriminate Hs].
Qed.

(** C8, amended. One exit command arms the exit and forces the pause; a
    pause command received while it is armed clears both flags and the
    process goes on; the listener ends the process only on an interrupt, or
    on an exit command received while the exit is armed, that is, after an
    exit command with no pause command since (a save command or any other
    key in between leaves it armed). *)
Theorem armed_exit_cancelled_by_pause f e p :
  is_exit e = true -> is_pause p = true -> exit_confirm f <> 1 ->
  key_pressed f e = (Listening (Flags 1 1 (save_requested f)), [PressAgain]) /\
  key_pressed (Flags 1 1 (save_requested f)) p =
    (Listening (Flags 0 0 (save_requested f)), [ExitCancelled]) /\
  (input_listener f [e; p]).1 = Listening (Flags 0 0 (save_requested f)) /\
  (forall g ch, (key_pressed g ch).1 = Exited <->
                is_interrupt ch = true \/ (is_exit ch = true /\ exit_confirm g = 1)) /\
  (forall keys g, (input_listener f keys).1 = Listening g ->
                  (exit_confirm g = 1 <-> armed_after false keys = true)).
Proof.
  intros He Hp Hf.
  pose proof (commands_exclusive e) as (_ & _ & Hex). destruct (Hex He) as [Hep Hes].
  assert (H1 : key_pressed f e = (Listening (Flags 1 1 (save_requested f)), [PressAgain])).
  { unfold key_pressed. fold (is_pause e) (is_save e) (is_exit e).
    rewrite Hep, Hes, He. destruct (Z.eqb_spec (exit_confirm f) 1); done. }
  assert (H2 : key_pressed (Flags 1 1 (save_requested f)) p =
               (Listening (Flags 0 0 (save_requested f)), [ExitCancelled])).
  { unfold key_pressed. fold (is_pause p). rewrite Hp. done. }
  repeat split.
  - done.
  - done.
  - simpl. rewrite H1, H2. done.
  - by apply key_pressed_exits.
  - by apply key_pressed_exits.
  - intros Hg. pose proof (input_listener_armed keys f g H) as Ha.
    destruct (Z.eqb_spec (exit_confirm f) 1); [done|].
    rewrite <- Ha. by apply Z.eqb_eq.
  - intros Hg. pose proof (input_listener_armed keys f g H) as Ha.
    destruct (Z.eqb_spec (exit_confirm f) 1); [done|].
    rewrite <- Ha in Hg. by apply Z.eqb_eq.
Qed.

Lemma armed_exit_cancelled_by_pause_witness :
  is_exit "e" = true /\ is_pause "p" = true /\ exit_confirm initial_flags <> 1 /\
  (input_listener initial_flags ["e"; "p"]%char).1 = Listening (Flags 0 0 0).
Proof.
  split; [reflexivity|]. split; [reflexivity|]. split; [discriminate|].
  apply (armed_exit_cancelled_by_pause initial_flags "e" "p");
    [reflexivity | reflexivity | discriminate].
Defined.

End ControlFacts.

Module CheckpointFacts.
Import Checkpoint.

Lemma states_during_save_eq d scale strip total :
  states_during_save d scale strip total =
  current d :: (if os_path_exists (current d) then [Absent] else []) ++
  [Present true ""; Present true (json_dump (progress_data scale strip total))].
Proof.
  unfold states_during_save, save_progress, close_written, open_write, os_remove, store.
  destruct (os_path_exists (current d)); simpl;
    rewrite <- ?app_assoc; rewrite drop_app_length; done.
Qed.

Lemma json_dump_nonempty p : json_dump p <> "".
Proof. unfold json_dump. simpl. discriminate. Qed.

(** C2, as stated, fails: overwriting the record of strip 3 with that of
    strip 4 passes through a state with no file and one with an empty file. *)
Lemma save_progress_not_atomic :
  let d := Disk (Present true (json_dump (progress_data 1 3 30))) [] in
  states_during_save d 1 4 30 =
    [Present true (json_dump (progress_data 1 3 30)); Absent; Present true "";
     Present true (json_dump (progress_data 1 4 30))] /\
  ~ atomic_replace d 1 4 30.
Proof.
  split; [reflexivity|].
  unfold atomic_replace. rewrite states_during_save_eq. simpl.
  intros H. apply Forall_cons in H as [_ H]. apply Forall_cons in H as [[H|H] _];
    discriminate H.
Qed.

(** C2, amended. A save is remove, then create, then write: from its call
    to its return the file is, in this order, in its previous state, absent
    (when there was a file), empty, and finally the complete new record;
    when [save_progress] returns the file holds the complete new record,
    whatever it held before. *)
Theorem save_progress_replaces d scale strip total :
  current (save_progress d scale strip total) =
    Present true (json_dump (progress_data scale strip total)) /\
  states_during_save d scale strip total =
    current d :: (if os_path_exists (current d) then [Absent] else []) ++
    [Present true ""; Present true (json_dump (progress_data scale strip total))] /\
  Forall (fun s => s = current d \/ s = Absent \/ s = Present true "" \/
                   s = Present true (json_dump (progress_data scale strip total)))
         (states_during_save d scale strip total) /\
  json_dump (progress_data scale strip total) <> "".
Proof.
  split; [done|]. split; [apply states_during_save_eq|]. split.
  - rewrite states_during_save_eq.
    destruct (os_path_exists (current d)); simpl;
      repeat first [apply Forall_nil | apply Forall_cons; split]; auto 10.
  - apply json_dump_nonempty.
Qed.

Section LoadFacts.
Variable json_load : string -> py pyobj.

Lemma load_progress_eq s :
  load_progress json_load s =
  Return match s with
         | Present true text =>
             match json_load text with Return v => v | Raise _ => PyNone end
         | _ => PyNone
         end.
Proof.
  unfold load_progress, try_except, py_bind, open_read, os_path_exists.
  destruct s as [|[] text]; simpl; try done.
  by destruct (json_load text).
Qed.

(** C7. [load_progress] returns the parsed record exactly when the file
    is present, readable and parses; for an absent, unreadable or
    malformed file it returns [None]; it never raises. *)
Theorem load_progress_total s :
  (forall v, parses_to json_load s v -> load_progress json_load s = Return v) /\
  ((~ exists v, parses_to json_load s v) -> load_progress json_load s = Return PyNone) /\
  (forall v, load_progress json_load s = Return v -> v <> PyNone ->
             parses_to json_load s v) /\
  (exists v, load_progress json_load s = Return v) /\
  (forall e, load_progress json_load s <> Raise e).
Proof.
  rewrite load_progress_eq. repeat split.
  - intros v (text & -> & Hv). by rewrite Hv.
  - intros Hno. f_equal. destruct s as [|[] text]; try done.
    destruct (json_load text) as [v|e] eqn:Hv; [|done].
    destruct Hno. exists v, text. done.
  - intros v [= Hv] Hne. destruct s as [|[] text]; try done.
    destruct (json_load text) as [v'|e] eqn:Hv'; [|done].
    subst. by exists text.
  - eauto.
  - done.
Qed.
End LoadFacts.

End CheckpointFacts.

Module PipelineFacts.
Import Control Checkpoint Pipeline StripRun.

Section Facts.
Context {rgb_chunk strip_buffer tile : Type}.
Variable np_zeros : Z -> Z -> strip_buffer.
Variable assign_columns : strip_buffer -> Z -> Z -> rgb_chunk -> strip_buffer.
Variable flip_vertical : strip_buffer -> strip_buffer.
Variable split_into_tiles : strip_buffer -> Z -> list tile.
Variables (im_scale max_level : Z).

Local Notation "'world'" := (@world rgb_chunk tile).
Local Notation "'M'" := (@M rgb_chunk tile).
Local Notation "'nc'" := (nc im_scale).
Local Notation "'no_chunk_files'" := (no_chunk_files im_scale).
Local Notation "'strip_cases'" :=
  (strip_cases flip_vertical split_into_tiles im_scale max_level).

Lemma bind_unfold {A B} (m : M A) (k : A -> M B) w keys :
  (m ≫= k) w keys =
  match m w keys with
  | Done a w' keys' => k a w' keys'
  | Killed w' => Killed w'
  | Blocked w' => Blocked w'
  | Crashed w' => Crashed w'
  end.
Proof. reflexivity. Qed.

Lemma same_files_refl (w : world) : same_files w w [].
Proof. unfold same_files. by rewrite app_nil_r. Qed.

Lemma same_files_trans (w1 w2 w3 : world) e1 e2 :
  same_files w1 w2 e1 -> same_files w2 w3 e2 -> same_files w1 w3 (e1 ++ e2).
Proof.
  intros (? & ? & ?) (? & ? & ?). unfold same_files.
  rewrite app_assoc. repeat split; congruence.
Qed.

Lemma same_files_set_flags (w : world) f : same_files w (set_flags f w) [].
Proof. unfold same_files. simpl. by rewrite app_nil_r. Qed.

Lemma listen_spec (w : world) keys :
  same_files w (world_of (listen w keys)) [] /\
  forall a w' keys', listen w keys = Done a w' keys' -> exists rest, keys = rest ++ keys'.
Proof.
  unfold listen. destruct keys as [|batch keys].
  - split; [apply same_files_refl|]. intros ? ? ? [= <- <- <-]. by exists [].
  - destruct (input_listener (flags_of w) batch) as [[f|] out]; simpl.
    + split; [apply same_files_set_flags|]. intros ? ? ? [= <- <- <-]. by exists [batch].
    + split; [apply same_files_refl|]. done.
Qed.

Lemma wait_while_paused_spec keys : forall (w : world),
  same_files w (world_of (wait_while_paused w keys)) [].
Proof.
  induction keys as [|batch keys IH]; intros w; simpl.
  - repeat case_match; simpl; apply same_files_refl.
  - destruct (paused (flags_of w) =? 1); [|apply same_files_refl].
    destruct (save_requested (flags_of w) =? 1); [apply same_files_refl|].
    destruct (input_listener (flags_of w) batch) as [[f|] out]; simpl.
    + pose proof (same_files_trans _ _ _ _ _ (same_files_set_flags w f) (IH (set_flags f w))).
      done.
    + apply same_files_refl.
Qed.

Lemma emit_spec e (w : world) keys :
  exists w', emit e w keys = Done () w' keys /\ same_files w w' [e] /\
             flags_of w' = flags_of w.
Proof. eexists. split; [reflexivity|]. done. Qed.

Lemma wait_if_paused_spec (w : world) keys :
  exists evs, same_files w (world_of (wait_if_paused w keys)) evs /\ file_events evs = [].
Proof.
  unfold wait_if_paused. rewrite bind_unfold.
  destruct (listen_spec w keys) as [Hl _].
  destruct (listen w keys) as [[] w1 keys1| | |] eqn:El; simpl in Hl;
    try (exists []; split; [done|reflexivity]).
  rewrite bind_unfold. simpl.
  destruct ((paused (flags_of w1) =? 1) && (exit_confirm (flags_of w1) =? 0)).
  - rewrite bind_unfold. simpl.
    set (w2 := World _ _ _ _).
    exists ([] ++ [Printed PausedPrompt] ++ []). split; [|reflexivity].
    eapply same_files_trans; [exact Hl|].
    eapply same_files_trans; [|apply wait_while_paused_spec].
    done.
  - rewrite bind_unfold. simpl.
    exists ([] ++ []). split; [|reflexivity].
    eapply same_files_trans; [exact Hl|]. apply wait_while_paused_spec.
Qed.

Lemma np_save_spec i c (w : world) keys :
  np_save i c w keys = Crashed w \/
  exists w', np_save i c w keys = Done () w' keys /\
             trace w' = trace w ++ [ChunkSaved i] /\
             flags_of w' = flags_of w /\ save_file w' = save_file w /\
             chunks (dir_of w') = <[i:=c]> (chunks (dir_of w)).
Proof.
  unfold np_save, dir_of. rewrite bind_unfold. simpl.
  destruct (tiles_dir w) as [d|]; [right|by left].
  rewrite bind_unfold. simpl. eexists. split; [reflexivity|]. done.
Qed.

Lemma write_progress_spec strip total (w : world) keys :
  exists w', write_progress im_scale strip total w keys = Done () w' keys /\
             trace w' = trace w ++ [ProgressSaved strip] /\
             flags_of w' = flags_of w /\ tiles_dir w' = tiles_dir w /\
             save_file w' = save_progress (save_file w) im_scale strip total.
Proof.
  unfold write_progress. rewrite bind_unfold. simpl.
  eexists. split; [reflexivity|]. done.
Qed.

Lemma remove_chunk_spec i (w : world) keys :
  exists w' removed,
    remove_chunk i w keys = Done () w' keys /\
    trace w' = trace w ++ (ChunkRemoved <$> removed) /\
    flags_of w' = flags_of w /\ save_file w' = save_file w /\
    (tiles_dir w = None -> tiles_dir w' = None) /\
    (forall d, tiles_dir w = Some d ->
       exists d', tiles_dir w' = Some d' /\ levels d' = levels d /\
                  tiles d' = tiles d /\ others d' = others d /\
                  chunks d' !! i = None /\
                  forall j, chunks d !! j = None -> chunks d' !! j = None).
Proof.
  unfold remove_chunk. rewrite bind_unfold. simpl.
  destruct (tiles_dir w) as [d|] eqn:Hd.
  - destruct (chunks d !! i) as [c|] eqn:Hc.
    + rewrite bind_unfold. simpl. eexists _, [i]. split; [reflexivity|]. simpl.
      split_and!; try done.
      intros d0 [= <-]. eexists. split; [reflexivity|]. simpl.
      split_and!; try done.
      * apply lookup_delete_eq.
      * intros j Hj. destruct (decide (i = j)) as [->|]; [apply lookup_delete_eq|].
        by rewrite lookup_delete_ne.
    + exists w, []. simpl. rewrite app_nil_r. split_and!; try done; try congruence.
      intros d0 [= <-]. exists d. split_and!; done.
  - exists w, []. simpl. rewrite app_nil_r. split_and!; done.
Qed.

Lemma for_each_remove_chunk_spec l : forall (w : world) keys,
  exists w' removed,
    for_each l remove_chunk w keys = Done () w' keys /\
    trace w' = trace w ++ (ChunkRemoved <$> removed) /\
    flags_of w' = flags_of w /\ save_file w' = save_file w /\
    (tiles_dir w = None -> tiles_dir w' = None) /\
    (forall d, tiles_dir w = Some d ->
       exists d', tiles_dir w' = Some d' /\ levels d' = levels d /\
                  tiles d' = tiles d /\ others d' = others d /\
                  (forall i, i ∈ l -> chunks d' !! i = None) /\
                  forall j, chunks d !! j = None -> chunks d' !! j = None).
Proof.
  induction l as [|i l IH]; intros w keys; simpl.
  - exists w, []. simpl. rewrite app_nil_r. split_and!; try done.
    intros d Hd. exists d. split_and!; try done. intros i Hi. by apply elem_of_nil in Hi.
  - rewrite bind_unfold.
    destruct (remove_chunk_spec i w keys) as (w1 & r1 & -> & Ht1 & Hf1 & Hs1 & Hn1 & Hd1).
    destruct (IH w1 keys) as (w2 & r2 & -> & Ht2 & Hf2 & Hs2 & Hn2 & Hd2).
    exists w2, (r1 ++ r2). split; [done|].
    rewrite Ht2, Ht1, fmap_app, app_assoc.
    split_and!; try congruence; [auto|].
    intros d Hd. destruct (Hd1 d Hd) as (d1 & Hd1' & ? & ? & ? & Hi1 & Hm1).
    destruct (Hd2 d1 Hd1') as (d2 & Hd2' & ? & ? & ? & Hi2 & Hm2).
    exists d2. split_and!; try congruence; [|auto].
    intros j [->|Hj]%elem_of_cons; auto.
Qed.

Lemma remove_chunks_spec (w : world) keys :
  exists w' removed,
    remove_chunks im_scale w keys = Done () w' keys /\
    trace w' = trace w ++ (ChunkRemoved <$> removed) /\
    flags_of w' = flags_of w /\ save_file w' = save_file w /\
    no_chunk_files w' /\
    (tiles_dir w = None -> tiles_dir w' = None) /\
    (forall d, tiles_dir w = Some d ->
       exists d', tiles_dir w' = Some d' /\ levels d' = levels d /\
                  tiles d' = tiles d /\ others d' = others d).
Proof.
  unfold remove_chunks.
  destruct (for_each_remove_chunk_spec (np_arange nc) w keys)
    as (w' & removed & Heq & Ht & Hf & Hs & Hn & Hd).
  exists w', removed. split_and!; try done.
  - intros d' i Hd' Hi. destruct (tiles_dir w) as [d|] eqn:Hw.
    + destruct (Hd d eq_refl) as (d2 & Hd2 & _ & _ & _ & Hall & _).
      rewrite Hd2 in Hd'. injection Hd' as <-. apply Hall.
      unfold np_arange. apply elem_of_seqZ. lia.
    + rewrite Hn in Hd' by done. done.
  - intros d Hw. destruct (Hd d Hw) as (d' & ? & ? & ? & ? & _). by exists d'.
Qed.

Lemma save_tile_spec t level col row (w : world) keys :
  exists w', save_tile t level col row w keys = Done () w' keys /\
    trace w' = trace w ++ [TileSaved level col row] /\
    flags_of w' = flags_of w /\ save_file w' = save_file w /\
    tiles_dir w' = Some (dir_of w') /\
    chunks (dir_of w') = chunks (dir_of w) /\ others (dir_of w') = others (dir_of w) /\
    tiles (dir_of w') = <[(level, col, row) := t]> (tiles (dir_of w)).
Proof.
  unfold save_tile. rewrite bind_unfold. simpl.
  eexists. split; [reflexivity|]. done.
Qed.

Lemma save_tiles_spec row (ts : list tile) : forall off (w : world) keys,
  exists w',
    for_each (imap (fun k t => (Z.of_nat (off + k), t)) ts)
      (fun '(x, t) => save_tile t max_level x row) w keys = Done () w' keys /\
    trace w' = trace w ++
      ((fun col => TileSaved max_level col row) <$> seqZ (Z.of_nat off) (Z.of_nat (length ts))) /\
    flags_of w' = flags_of w /\ save_file w' = save_file w /\
    (is_Some (tiles_dir w) -> is_Some (tiles_dir w')) /\
    chunks (dir_of w') = chunks (dir_of w) /\ others (dir_of w') = others (dir_of w) /\
    (forall k t, ts !! k = Some t ->
       tiles (dir_of w') !! (max_level, Z.of_nat (off + k), row) = Some t) /\
    (forall key, (forall k, (k < length ts)%nat -> key <> (max_level, Z.of_nat (off + k), row)) ->
       tiles (dir_of w') !! key = tiles (dir_of w) !! key).
Proof.
  induction ts as [|t ts IH]; intros off w keys.
  - exists w. simpl. rewrite app_nil_r. split_and!; try done.
  - simpl. rewrite bind_unfold.
    destruct (save_tile_spec t max_level (Z.of_nat (off + 0)) row w keys)
      as (w1 & -> & Ht1 & Hf1 & Hs1 & Hd1 & Hc1 & Ho1 & Hm1).
    rewrite (imap_ext _ (fun k t => (Z.of_nat (S off + k), t))).
    2:{ intros k x _. simpl. do 2 f_equal. lia. }
    destruct (IH (S off) w1 keys) as (w2 & -> & Ht2 & Hf2 & Hs2 & Hd2 & Hc2 & Ho2 & Hm2 & Hk2).
    exists w2. split; [done|].
    split_and!; try congruence.
    + rewrite Ht2, Ht1, <- app_assoc. f_equal.
      rewrite (seqZ_cons (Z.of_nat off)) by lia. simpl.
      replace (off + 0)%nat with off by lia. do 3 f_equal; lia.
    + intros _. apply Hd2. rewrite Hd1. done.
    + intros [|k] x Hx; simpl in Hx.
      * injection Hx as ->. rewrite Hk2.
        -- rewrite Hm1. apply lookup_insert_eq.
        -- intros k _ [= Heq]. lia.
      * replace (off + S k)%nat with (S off + k)%nat by lia. by apply Hm2.
    + intros key Hkey. rewrite Hk2.
      * rewrite Hm1. apply lookup_insert_ne. apply not_eq_sym, (Hkey 0%nat). simpl. lia.
      * intros k Hk. replace (S off + k)%nat with (off + S k)%nat by lia.
        apply Hkey. simpl. lia.
Qed.

Lemma np_load_spec i (w : world) keys :
  (np_load i w keys = Crashed w /\ chunks (dir_of w) !! i = None) \/
  exists c, np_load i w keys = Done c w keys.
Proof.
  unfold np_load, dir_of. rewrite bind_unfold. simpl.
  destruct (tiles_dir w) as [d|]; simpl.
  - destruct (chunks d !! i) as [c|] eqn:Hc; [right; by exists c|by left].
  - by left.
Qed.

Lemma fold_load_spec body_assign l : forall (buf : strip_buffer) (w : world) keys,
  let body := fun buf i =>
    chunk_mmap ← np_load i; mret (body_assign buf i chunk_mmap) in
  (fold_each l body buf w keys = Crashed w /\
   exists i, i ∈ l /\ chunks (dir_of w) !! i = None) \/
  exists buf', fold_each l body buf w keys = Done buf' w keys.
Proof.
  induction l as [|i l IH]; intros buf w keys body.
  - right. by eexists.
  - simpl. rewrite bind_unfold. unfold body at 1 3. rewrite !bind_unfold.
    destruct (np_load_spec i w keys) as [[-> Hi]|[c ->]].
    { left. split; [done|]. exists i. split; [apply elem_of_cons; by left|done]. }
    destruct (IH (body_assign buf i c) w keys) as [[Hc (j & Hj & Hnone)]|Hd].
    + left. split; [exact Hc|]. exists j. split; [apply elem_of_cons; by right|done].
    + by right.
Qed.

Lemma assemble_strip_spec total strip_idx (w : world) keys :
  let asm := assemble_strip np_zeros assign_columns flip_vertical split_into_tiles
               im_scale max_level total strip_idx in
  (asm w keys = Crashed w /\
   exists i, 0 <= i < nc /\ chunks (dir_of w) !! i = None) \/
  exists w' removed buf,
    let ts := split_into_tiles (flip_vertical buf) TILE_SIZE in
    asm w keys = Done () w' keys /\
    trace w' = trace w ++ tile_events max_level total strip_idx (length ts) ++
               (ChunkRemoved <$> removed) /\
    flags_of w' = flags_of w /\ save_file w' = save_file w /\
    no_chunk_files w' /\
    others (dir_of w') = others (dir_of w) /\
    (forall k t, ts !! k = Some t ->
       tiles (dir_of w') !! (max_level, Z.of_nat k, total - 1 - strip_idx) = Some t) /\
    (forall level col row, row <> total - 1 - strip_idx ->
       tiles (dir_of w') !! (level, col, row) = tiles (dir_of w) !! (level, col, row)).
Proof.
  intros asm. unfold asm, assemble_strip. rewrite bind_unfold.
  match goal with |- context [fold_each ?l ?b ?z w keys] =>
    destruct (fold_load_spec
                (fun buf i c => assign_columns buf
                   (default 0 (getitem (ChunkGrid.bx (nx im_scale)) i))
                   (default 0 (getitem (ChunkGrid.ex (nx im_scale)) i)) c) l z w keys)
      as [[Hc (i & Hi & Hnone)]|[buf Hb]]
  end.
  - left. simpl in Hc. rewrite Hc. split; [done|]. exists i. split; [|done].
    unfold np_arange in Hi. apply elem_of_seqZ in Hi. lia.
  - right. simpl in Hb. rewrite Hb. rewrite bind_unfold.
    destruct (save_tiles_spec (total - 1 - strip_idx)
                (split_into_tiles (flip_vertical buf) TILE_SIZE) 0 w keys)
      as (w1 & Heq & Ht1 & Hf1 & Hs1 & Hd1 & Hc1 & Ho1 & Hm1 & Hk1).
    simpl in Heq. rewrite Heq.
    destruct (remove_chunks_spec w1 keys) as (w2 & removed & -> & Ht2 & Hf2 & Hs2 & Hno & Hn2 & Hd2).
    exists w2, removed, buf. cbv zeta. split; [done|].
    assert (Hdir : tiles (dir_of w2) = tiles (dir_of w1) /\ others (dir_of w2) = others (dir_of w1)).
    { unfold dir_of. destruct (tiles_dir w1) as [d1|] eqn:E1.
      - destruct (Hd2 d1 eq_refl) as (d2 & -> & _ & ? & ?). done.
      - rewrite Hn2 by done. done. }
    destruct Hdir as [Hdt Hdo].
    split_and!; try congruence; try done.
    + rewrite Ht2, Ht1, <- app_assoc. done.
    + intros k t Hk. rewrite Hdt. apply (Hm1 k t Hk).
    + intros level col row Hrow. rewrite Hdt. apply Hk1.
      intros k _ [= _ _ ?]. done.
Qed.

Lemma file_events_app a b : file_events (a ++ b) = file_events a ++ file_events b.
Proof. apply List.filter_app. Qed.

Lemma file_events_chunk_saved l : file_events (ChunkSaved <$> l) = ChunkSaved <$> l.
Proof. induction l; simpl; [done|]. unfold file_events in *. simpl. by f_equal. Qed.

Lemma file_events_chunk_removed l : file_events (ChunkRemoved <$> l) = ChunkRemoved <$> l.
Proof. induction l; simpl; [done|]. unfold file_events in *. simpl. by f_equal. Qed.

Lemma file_events_tiles total strip_idx n :
  file_events (tile_events max_level total strip_idx n) = tile_events max_level total strip_idx n.
Proof.
  unfold tile_events. induction (seqZ 0 (Z.of_nat n)); simpl; [done|].
  unfold file_events in *. simpl. by f_equal.
Qed.

Lemma wait_if_paused_cases (w : world) keys :
  exists evs, file_events evs = [] /\
    same_files w (world_of (wait_if_paused w keys)) evs /\
    forall w', wait_if_paused w keys <> Crashed w'.
Proof.
  destruct (wait_if_paused_spec w keys) as (evs & Hs & He).
  exists evs. split_and!; try done.
  unfold wait_if_paused. rewrite bind_unfold. intros w'.
  destruct (listen_spec w keys) as [_ _].
  assert (Hl : forall w0, listen w keys <> Crashed w0).
  { unfold listen. intros w0. repeat case_match; done. }
  destruct (listen w keys) as [[] w1 keys1| | |] eqn:El; try done.
  - rewrite bind_unfold. simpl.
    assert (Hw : forall k (w0 : world), wait_while_paused w0 k <> Crashed w').
    { induction k as [|b k IH]; intros w0; simpl; repeat case_match; try done. }
    destruct (_ && _); rewrite bind_unfold; simpl; apply Hw.
  - by destruct (Hl w0).
Qed.

(** The save branch of the chunk loop, lines 438-451. *)
Lemma give_up_spec total strip_idx (w : world) keys :
  exists w' removed,
    (emit WorkersTerminated ;;
     remove_chunks im_scale ;;
     write_progress im_scale strip_idx total ;;
     clear_save_requested ;;
     emit (Printed (SavedResumeFrom strip_idx)) ;;
     mret true) w keys = Done true w' keys /\
    trace w' = trace w ++ [WorkersTerminated] ++ (ChunkRemoved <$> removed) ++
               [ProgressSaved strip_idx; Printed (SavedResumeFrom strip_idx)] /\
    no_chunk_files w' /\
    save_file w' = save_progress (save_file w) im_scale strip_idx total /\
    tiles (dir_of w') = tiles (dir_of w).
Proof.
  rewrite bind_unfold.
  destruct (emit_spec WorkersTerminated w keys) as (w1 & -> & (Hs1 & Hd1 & Ht1) & Hf1).
  rewrite bind_unfold.
  destruct (remove_chunks_spec w1 keys) as (w2 & removed & -> & Ht2 & Hf2 & Hs2 & Hno & Hn2 & Hd2).
  rewrite bind_unfold.
  destruct (write_progress_spec strip_idx total w2 keys) as (w3 & -> & Ht3 & Hf3 & Hd3 & Hs3).
  exists (World (Flags (paused (flags_of w3)) (exit_confirm (flags_of w3)) 0) (save_file w3)
            (tiles_dir w3) (trace w3 ++ [Printed (SavedResumeFrom strip_idx)])), removed.
  split; [reflexivity|]. simpl. split_and!.
  - rewrite Ht3, Ht2, Ht1, <- !app_assoc. done.
  - intros d i. simpl. rewrite Hd3. apply Hno.
  - congruence.
  - unfold dir_of. simpl. rewrite Hd3, <- Hd1.
    destruct (tiles_dir w1) as [d1|] eqn:E1.
    + destruct (Hd2 d1 eq_refl) as (d2 & -> & _ & ? & _). done.
    + by rewrite Hn2.
Qed.

Lemma chunk_loop_spec total strip_idx n : forall results (w : world) keys,
  let out := chunk_loop im_scale total strip_idx n results w keys in
  exists evs, trace (world_of out) = trace w ++ evs /\
    match out with
    | Done false _ _ =>
        (n <= length results)%nat /\
        file_events evs = ChunkSaved <$> take n results.*1
    | Done true w' _ =>
        exists j removed, (j < n)%nat /\ (S j <= length results)%nat /\
          file_events evs = discarded_strip strip_idx (take (S j) results.*1) removed /\
          no_chunk_files w'
    | _ => exists j, (j <= n)%nat /\ file_events evs = ChunkSaved <$> take j results.*1
    end.
Proof.
  induction n as [|n IH]; intros results w keys out; subst out.
  - simpl. exists []. rewrite app_nil_r. split; [done|]. split; [lia|done].
  - simpl. destruct results as [|[i rgb] results].
    { exists []. simpl. rewrite app_nil_r. split; [done|]. exists 0%nat. split; [lia|done]. }
    rewrite bind_unfold.
    destruct (np_save_spec i rgb w keys) as [->|(w1 & -> & Ht1 & Hf1 & Hs1)].
    { exists []. simpl. rewrite app_nil_r. split; [done|]. exists 0%nat. split; [lia|done]. }
    rewrite bind_unfold.
    destruct (wait_if_paused_cases w1 keys) as (evs2 & He2 & (_ & _ & Ht2) & Hnc).
    destruct (wait_if_paused w1 keys) as [[|] w2 keys2|w2|w2|w2] eqn:Ew; simpl in Ht2.
    + (* the save request is seen *)
      destruct (give_up_spec total strip_idx w2 keys2) as (w3 & removed & -> & Ht3 & Hno & _).
      eexists. split.
      { simpl. rewrite Ht3, Ht2, Ht1, <- !app_assoc. reflexivity. }
      exists 0%nat, removed. split; [lia|]. split; [simpl; lia|]. split; [|done].
      rewrite !file_events_app, He2, file_events_chunk_removed. reflexivity.
    + (* on to the next chunk *)
      specialize (IH results w2 keys2). cbv zeta in IH.
      destruct IH as (evs3 & Ht3 & Hcases).
      exists ([ChunkSaved i] ++ evs2 ++ evs3). split.
      { rewrite Ht3, Ht2, Ht1, <- !app_assoc. reflexivity. }
      rewrite !file_events_app, He2. simpl.
      destruct (chunk_loop im_scale total strip_idx n results w2 keys2) as [[|] w3 keys3|w3|w3|w3].
      * destruct Hcases as (j & removed & Hj & Hl & Hev & Hno).
        exists (S j), removed. split; [lia|]. split; [simpl; lia|]. split; [|done].
        rewrite Hev. reflexivity.
      * destruct Hcases as [Hl Hev]. split; [lia|]. rewrite Hev. reflexivity.
      * destruct Hcases as (j & Hj & Hev). exists (S j). split; [lia|]. rewrite Hev. reflexivity.
      * destruct Hcases as (j & Hj & Hev). exists (S j). split; [lia|]. rewrite Hev. reflexivity.
      * destruct Hcases as (j & Hj & Hev). exists (S j). split; [lia|]. rewrite Hev. reflexivity.
    + exists ([ChunkSaved i] ++ evs2). split.
      { simpl. rewrite Ht2, Ht1, <- !app_assoc. reflexivity. }
      exists 1%nat. split; [lia|]. rewrite !file_events_app, He2. simpl. try rewrite take_0. done.
    + exists ([ChunkSaved i] ++ evs2). split.
      { simpl. rewrite Ht2, Ht1, <- !app_assoc. reflexivity. }
      exists 1%nat. split; [lia|]. rewrite !file_events_app, He2. simpl. try rewrite take_0. done.
    + by destruct (Hnc w2).
Qed.

Lemma read_save_requested_spec (w : world) keys :
  read_save_requested w keys = Killed w \/
  exists w' keys',
    read_save_requested w keys = Done (save_requested (flags_of w')) w' keys' /\
    same_files w w' [].
Proof.
  unfold read_save_requested. rewrite bind_unfold.
  destruct (listen_spec w keys) as [Hs _].
  unfold listen in *. destruct keys as [|batch keys]; simpl in *.
  - right. exists w, []. split; [reflexivity|done].
  - destruct (input_listener (flags_of w) batch) as [[f|] out]; simpl in *.
    + right. eexists _, _. split; [reflexivity|done].
    + by left.
Qed.

(** Lines 491-496 and 533-538. *)
Lemma save_tail_spec total strip_idx notice (w : world) keys :
  exists w',
    (write_progress im_scale (strip_idx + 1) total ;;
     clear_save_requested ;;
     clear_paused ;;
     emit (Printed notice) ;;
     mret true) w keys = Done true w' keys /\
    trace w' = trace w ++ [ProgressSaved (strip_idx + 1); Printed notice] /\
    tiles_dir w' = tiles_dir w /\
    save_file w' = save_progress (save_file w) im_scale (strip_idx + 1) total.
Proof.
  rewrite bind_unfold.
  destruct (write_progress_spec (strip_idx + 1) total w keys) as (w1 & -> & Ht1 & Hf1 & Hd1 & Hs1).
  eexists. split; [reflexivity|]. simpl. rewrite Ht1, <- app_assoc. done.
Qed.

Lemma no_chunk_files_same_dir (w w' : world) :
  tiles_dir w' = tiles_dir w -> no_chunk_files w -> no_chunk_files w'.
Proof. unfold no_chunk_files. intros ->. done. Qed.

Lemma dir_of_same_dir (w w' : world) : tiles_dir w' = tiles_dir w -> dir_of w' = dir_of w.
Proof. unfold dir_of. by intros ->. Qed.

Lemma process_strip_cases total strip_idx results (w : world) keys :
  let out := process_strip np_zeros assign_columns flip_vertical split_into_tiles
               im_scale max_level total strip_idx results w keys in
  exists evs, trace (world_of out) = trace w ++ evs /\
              strip_cases total strip_idx results out evs.
Proof.
  intros out. subst out. unfold process_strip. rewrite bind_unfold.
  destruct (chunk_loop_spec total strip_idx (Z.to_nat nc) results w keys) as (evs1 & Ht1 & Hc1).
  cbv zeta in Hc1.
  destruct (chunk_loop im_scale total strip_idx (Z.to_nat nc) results w keys)
    as [[|] w1 keys1|w1|w1|w1] eqn:Ecl; simpl in Ht1.
  { (* given up inside the chunk loop *)
    exists evs1. split; [done|]. left.
    destruct Hc1 as (j & removed & ? & ? & ? & ?). by exists j, removed, w1, keys1. }
  2,3,4: (exists evs1; split; [done|]; do 3 right;
          destruct Hc1 as (j & ? & ?); exists j; done).
  destruct Hc1 as [Hlen Hev1].
  (* line 456 *)
  rewrite bind_unfold.
  destruct (read_save_requested_spec w1 keys1) as [->|(w2 & keys2 & -> & (Hs2 & Hd2 & Ht2))].
  { exists evs1. split; [done|]. do 3 right. exists (Z.to_nat nc). split_and!; done || lia. }
  rewrite app_nil_r in Ht2.
  destruct (save_requested (flags_of w2) =? 1).
  { (* completing the strip for the save *)
    rewrite bind_unfold.
    destruct (emit_spec (Printed CompletingStripBeforeSaving) w2 keys2)
      as (w3a & -> & (_ & _ & Ht3a) & _).
    rewrite bind_unfold.
    destruct (emit_spec WorkersStopped w3a keys2) as (w3 & -> & (_ & _ & Ht3) & _).
    rewrite bind_unfold.
    destruct (assemble_strip_spec total strip_idx w3 keys2)
      as [[Hcr _]|(w4 & removed & buf & Heq & Ht4 & Hf4 & Hs4 & Hno & Ho4 & Htiles & _)];
      cbv zeta in *.
    - rewrite Hcr. eexists. split.
      { simpl. rewrite Ht3, Ht3a, Ht2, Ht1, <- !app_assoc. reflexivity. }
      do 3 right. exists (Z.to_nat nc). split_and!; try done; try lia.
      rewrite !file_events_app, Hev1. simpl. by rewrite app_nil_r.
    - rewrite Heq.
      destruct (save_tail_spec total strip_idx (ProgressSavedResumeFrom (strip_idx + 1)) w4 keys2)
        as (w5 & -> & Ht5 & Hd5 & _).
      eexists. split.
      { simpl. rewrite Ht5, Ht4, Ht3, Ht3a, Ht2, Ht1, <- !app_assoc. reflexivity. }
      right. left. exists removed, buf, w5, keys2. cbv zeta. split_and!; try done.
      + rewrite !file_events_app, Hev1, file_events_tiles, file_events_chunk_removed.
        unfold completed_strip. simpl. rewrite <- !app_assoc. reflexivity.
      + by apply (no_chunk_files_same_dir w4).
      + intros k t Hk. rewrite (dir_of_same_dir w4 w5 Hd5). by apply Htiles. }
  (* line 498 *)
  rewrite bind_unfold.
  destruct (read_save_requested_spec w2 keys2) as [->|(w3 & keys3 & -> & (Hs3 & Hd3 & Ht3))].
  { exists evs1. split; [simpl; congruence|]. do 3 right.
    exists (Z.to_nat nc). split_and!; done || lia. }
  rewrite app_nil_r in Ht3.
  rewrite bind_unfold.
  assert (Hst : exists w4 evs4,
             (if save_requested (flags_of w3) =? 0 then emit WorkersStopped else mret ())
               w3 keys3 = Done () w4 keys3 /\
             file_events evs4 = [] /\ trace w4 = trace w3 ++ evs4 /\
             tiles_dir w4 = tiles_dir w3).
  { destruct (save_requested (flags_of w3) =? 0).
    - eexists _, [WorkersStopped]. split; [reflexivity|]. done.
    - exists w3, []. rewrite app_nil_r. done. }
  destruct Hst as (w4 & evs4 & -> & He4 & Ht4 & Hd4).
  (* line 505 *)
  rewrite bind_unfold.
  destruct (read_save_requested_spec w4 keys3) as [->|(w5 & keys5 & -> & (Hs5 & Hd5 & Ht5))].
  { exists (evs1 ++ evs4). split; [simpl; rewrite Ht4, Ht3, Ht2, Ht1, <- app_assoc; done|].
    do 3 right. exists (Z.to_nat nc). split_and!; try done; try lia.
    rewrite file_events_app, He4, app_nil_r. done. }
  rewrite app_nil_r in Ht5.
  assert (Htr5 : trace w5 = trace w ++ evs1 ++ evs4).
  { rewrite Ht5, Ht4, Ht3, Ht2, Ht1, <- app_assoc. done. }
  destruct (save_requested (flags_of w5) =? 0).
  2:{ (* the strip is left as it is *)
      exists (evs1 ++ evs4). split; [done|].
      do 3 right. exists (Z.to_nat nc). split_and!; try done; try lia.
      rewrite file_events_app, He4, app_nil_r. done. }
  rewrite bind_unfold.
  destruct (assemble_strip_spec total strip_idx w5 keys5)
    as [[Hcr _]|(w6 & removed & buf & Heq & Ht6 & Hf6 & Hs6 & Hno & Ho6 & Htiles & _)];
    cbv zeta in *.
  { rewrite Hcr. exists (evs1 ++ evs4). split; [done|].
    do 3 right. exists (Z.to_nat nc). split_and!; try done; try lia.
    rewrite file_events_app, He4, app_nil_r. done. }
  rewrite Heq.
  assert (Htr6 : trace w6 = trace w ++ evs1 ++ evs4 ++
            tile_events max_level total strip_idx
              (length (split_into_tiles (flip_vertical buf) TILE_SIZE)) ++
            (ChunkRemoved <$> removed)).
  { rewrite Ht6, Htr5, <- !app_assoc. done. }
  assert (Hfe6 : file_events (evs1 ++ evs4 ++
            tile_events max_level total strip_idx
              (length (split_into_tiles (flip_vertical buf) TILE_SIZE)) ++
            (ChunkRemoved <$> removed)) =
          completed_strip max_level total strip_idx (take (Z.to_nat nc) results.*1) removed
            (length (split_into_tiles (flip_vertical buf) TILE_SIZE))).
  { rewrite !file_events_app, Hev1, He4, file_events_tiles, file_events_chunk_removed. done. }
  (* line 532 *)
  rewrite bind_unfold.
  destruct (read_save_requested_spec w6 keys5) as [->|(w7 & keys7 & -> & (Hs7 & Hd7 & Ht7))].
  { eexists. split; [exact Htr6|]. do 2 right. left. exists removed, buf. cbv zeta.
    split_and!; done. }
  rewrite app_nil_r in Ht7.
  destruct (save_requested (flags_of w7) =? 1).
  - destruct (save_tail_spec total strip_idx (ProgressSavedAt (strip_idx + 1)) w7 keys7)
      as (w8 & -> & Ht8 & Hd8 & _).
    eexists. split.
    { simpl. rewrite Ht8, Ht7, Htr6, <- !app_assoc. reflexivity. }
    right. left. exists removed, buf, w8, keys7. cbv zeta. split_and!; try done.
    + rewrite !app_assoc, file_events_app, <- !app_assoc, Hfe6. reflexivity.
    + apply (no_chunk_files_same_dir w6); [congruence|done].
    + intros k t Hk. rewrite (dir_of_same_dir w6 w8) by congruence. by apply Htiles.
  - rewrite bind_unfold.
    destruct (wait_if_paused_cases w7 keys7) as (evs8 & He8 & (_ & _ & Ht8) & _).
    exists ((evs1 ++ evs4 ++
             tile_events max_level total strip_idx
               (length (split_into_tiles (flip_vertical buf) TILE_SIZE)) ++
             (ChunkRemoved <$> removed)) ++ evs8).
    split.
    { destruct (wait_if_paused w7 keys7); simpl in *;
        rewrite Ht8, Ht7, Htr6, <- !app_assoc; reflexivity. }
    do 2 right. left. exists removed, buf. cbv zeta. split_and!; try done.
    + intros w' keys'. destruct (wait_if_paused w7 keys7); done.
    + rewrite file_events_app, Hfe6, He8, app_nil_r. done.
Qed.


(** The chunk files saved by a chunk loop that runs to its end are there
    when it ends. *)
Lemma chunk_loop_keeps_chunks total strip_idx n : forall results (w w' : world) keys keys' i,
  chunk_loop im_scale total strip_idx n results w keys = Done false w' keys' ->
  is_Some (chunks (dir_of w) !! i) \/ i ∈ (take n results).*1 ->
  is_Some (chunks (dir_of w') !! i).
Proof.
  induction n as [|n IH]; intros results w w' keys keys' i.
  - simpl. intros [= <- <-] [H|H]; [done|]. by apply elem_of_nil in H.
  - simpl. destruct results as [|[i0 rgb] results]; [done|].
    rewrite bind_unfold.
    destruct (np_save_spec i0 rgb w keys) as [->|(w1 & -> & _ & _ & _ & Hc1)]; [done|].
    rewrite bind_unfold.
    destruct (wait_if_paused_cases w1 keys) as (evs2 & _ & (_ & Hd2 & _) & _).
    destruct (wait_if_paused w1 keys) as [[|] w2 keys2|w2|w2|w2] eqn:Ew; simpl in Hd2; try done.
    { destruct (give_up_spec total strip_idx w2 keys2) as (w3 & removed & -> & _). done. }
    intros Hloop Hi. apply (IH results w2 w' keys2 keys' i Hloop).
    rewrite (dir_of_same_dir w1 w2 Hd2), Hc1.
    simpl in Hi. rewrite elem_of_cons in Hi.
    destruct Hi as [Hi|[->|Hi]]; [left|left|by right].
    + apply lookup_insert_is_Some. destruct (decide (i0 = i)); auto.
    + rewrite lookup_insert_eq. by eexists.
Qed.


Lemma elem_of_file_events e evs :
  e ∈ file_events evs <-> e ∈ evs /\ is_file_event e = true.
Proof. unfold file_events. rewrite !list_elem_of_In. apply List.filter_In. Qed.

Lemma elem_of_discarded_strip strip_idx arrived removed e :
  e ∈ discarded_strip strip_idx arrived removed ->
  (exists i, e = ChunkSaved i) \/ e = WorkersTerminated \/
  (exists i, e = ChunkRemoved i) \/ e = ProgressSaved strip_idx.
Proof.
  unfold discarded_strip. rewrite !elem_of_app, !list_elem_of_fmap, !list_elem_of_singleton.
  naive_solver.
Qed.

Lemma elem_of_completed_strip total strip_idx arrived removed n e :
  e ∈ completed_strip max_level total strip_idx arrived removed n ->
  (exists i, e = ChunkSaved i) \/
  (exists col, e = TileSaved max_level col (total - 1 - strip_idx)) \/
  (exists i, e = ChunkRemoved i).
Proof.
  unfold completed_strip, tile_events. rewrite !elem_of_app, !list_elem_of_fmap.
  naive_solver.
Qed.

(** A strip during which the progress is saved ends in one of two ways. *)
Lemma progress_saved_cases total strip_idx results (w : world) keys k evs :
  let out := process_strip np_zeros assign_columns flip_vertical split_into_tiles
               im_scale max_level total strip_idx results w keys in
  trace (world_of out) = trace w ++ evs ->
  ProgressSaved k ∈ evs ->
  exists w' keys',
    out = Done true w' keys' /\ no_chunk_files w' /\
    ((k = strip_idx /\
      exists j removed, (j < Z.to_nat nc)%nat /\ (S j <= length results)%nat /\
        file_events evs = discarded_strip strip_idx (take (S j) results.*1) removed) \/
     (k = strip_idx + 1 /\
      exists removed buf,
        let ts := split_into_tiles (flip_vertical buf) TILE_SIZE in
        (Z.to_nat nc <= length results)%nat /\
        file_events evs =
          completed_strip max_level total strip_idx (take (Z.to_nat nc) results.*1)
            removed (length ts) ++ [ProgressSaved (strip_idx + 1)] /\
        forall col t, ts !! col = Some t ->
          tiles (dir_of w') !! (max_level, Z.of_nat col, total - 1 - strip_idx) = Some t)).
Proof.
  intros out Htr Hk.
  destruct (process_strip_cases total strip_idx results w keys) as (evs' & Htr' & Hcases).
  fold out in Htr', Hcases.
  assert (evs' = evs) as -> by (rewrite Htr in Htr'; by apply app_inv_head in Htr').
  assert (Hk' : ProgressSaved k ∈ file_events evs) by (by apply elem_of_file_events).
  destruct Hcases as [(j & removed & w' & keys' & Hout & Hj & Hl & Hev & Hno)
                     |[(removed & buf & w' & keys' & Hout & Hl & Hev & Hno & Htiles)
                     |[(removed & buf & _ & _ & Hev)|(j & _ & _ & Hev)]]].
  - exists w', keys'. split_and!; try done. left.
    rewrite Hev in Hk'. apply elem_of_discarded_strip in Hk'.
    split; [naive_solver|]. by exists j, removed.
  - exists w', keys'. split_and!; try done. right.
    rewrite Hev in Hk'. apply elem_of_app in Hk' as [Hk'|Hk'].
    + apply elem_of_completed_strip in Hk'. naive_solver.
    + apply list_elem_of_singleton in Hk'. split; [congruence|].
      by exists removed, buf.
  - rewrite Hev in Hk'. apply elem_of_completed_strip in Hk'. naive_solver.
  - rewrite Hev in Hk'. apply list_elem_of_fmap in Hk'. naive_solver.
Qed.

(** *** The chunk files a strip is assembled from *)














(** C6. Whatever the keys and the arrival order, every tile a strip
    persists goes to the base level at row [total - 1 - strip_idx], so
    strip 0 fills the row [total - 1]; when the progress is saved after the
    strip was completed for a save, and whenever the strip assembly of
    either path returns, the tiles cut from the flipped strip are stored at
    that row, column by column, and no other row is touched. *)
Theorem tiles_saved_at_mirrored_row total strip_idx results (w : world) keys :
  let out := process_strip np_zeros assign_columns flip_vertical split_into_tiles
               im_scale max_level total strip_idx results w keys in
  let asm := assemble_strip np_zeros assign_columns flip_vertical split_into_tiles
               im_scale max_level total strip_idx in
  exists evs, trace (world_of out) = trace w ++ evs /\
    (forall level col row, TileSaved level col row ∈ evs ->
       level = max_level /\ row = total - 1 - strip_idx /\
       (strip_idx = 0 -> row = total - 1) /\
       (0 <= strip_idx < total -> 0 <= row < total)) /\
    (forall w' keys', out = Done true w' keys' -> ProgressSaved (strip_idx + 1) ∈ evs ->
       exists buf, forall col t,
         split_into_tiles (flip_vertical buf) TILE_SIZE !! col = Some t ->
         tiles (dir_of w') !! (max_level, Z.of_nat col, total - 1 - strip_idx) = Some t) /\
    (forall (v v' : world) ks ks', asm v ks = Done () v' ks' ->
       exists buf removed,
         let ts := split_into_tiles (flip_vertical buf) TILE_SIZE in
         trace v' = trace v ++ tile_events max_level total strip_idx (length ts) ++
                    (ChunkRemoved <$> removed) /\
         (forall col t, ts !! col = Some t ->
            tiles (dir_of v') !! (max_level, Z.of_nat col, total - 1 - strip_idx) = Some t) /\
         (forall level col row, row <> total - 1 - strip_idx ->
            tiles (dir_of v') !! (level, col, row) = tiles (dir_of v) !! (level, col, row))).
Proof.
  intros out asm.
  destruct (process_strip_cases total strip_idx results w keys) as (evs & Htr & Hcases).
  fold out in Htr, Hcases.
  exists evs. split; [done|]. split_and!.
  - intros level col row Hin.
    assert (Hin' : TileSaved level col row ∈ file_events evs) by (by apply elem_of_file_events).
    assert (level = max_level /\ row = total - 1 - strip_idx) as [-> ->]; [|lia].
    destruct Hcases as [(j & removed & w' & keys' & _ & _ & _ & Hev & _)
                       |[(removed & buf & w' & keys' & _ & _ & Hev & _)
                       |[(removed & buf & _ & _ & Hev)|(j & _ & _ & Hev)]]];
      rewrite Hev in Hin'.
    + apply elem_of_discarded_strip in Hin'. naive_solver.
    + apply elem_of_app in Hin' as [Hin'|Hin'].
      * apply elem_of_completed_strip in Hin'. naive_solver.
      * apply list_elem_of_singleton in Hin'. done.
    + apply elem_of_completed_strip in Hin'. naive_solver.
    + apply list_elem_of_fmap in Hin'. naive_solver.
  - intros w' keys' Hout Hsaved.
    destruct (progress_saved_cases total strip_idx results w keys
                (strip_idx + 1) evs Htr Hsaved)
      as (w2 & keys2 & Hout2 & _ & [[Hk _]|(_ & removed & buf & _ & _ & Htiles)]); [lia|].
    fold out in Hout2. rewrite Hout in Hout2. injection Hout2 as <- <-.
    by exists buf.
  - intros v v' ks ks' Hasm.
    destruct (assemble_strip_spec total strip_idx v ks)
      as [[Hcr _]|(v2 & removed & buf & Heq & Ht & _ & _ & _ & _ & Htiles & Hrows)];
      cbv zeta in *; unfold asm in Hasm.
    + congruence.
    + rewrite Hasm in Heq. injection Heq as <- <-. by exists buf, removed.
Qed.

(** C10. With start strip 0 the tiles directory, if there is one, is
    removed as a whole and an empty one is created, before anything is
    computed or written; with a start strip above 0 the directory and every
    file in it are as they were when the strip loop begins (only the
    directory of the base level is made if it is missing). *)
Theorem tiles_dir_fresh_or_kept start_strip (w : world) keys :
  (start_strip = 0 ->
   exists w' evs,
     prepare_tiles_dir start_strip w keys = Done () w' keys /\
     tiles_dir w' = Some empty_directory /\
     trace w' = trace w ++ evs /\ file_events evs = [] /\
     flags_of w' = flags_of w /\ save_file w' = save_file w) /\
  (0 < start_strip ->
   exists w',
     (prepare_tiles_dir start_strip ;; make_level_dir max_level) w keys = Done () w' keys /\
     prepare_tiles_dir start_strip w keys =
       Done () (World (flags_of w) (save_file w) (tiles_dir w)
                      (trace w ++ [Printed ResumingDirectory])) keys /\
     flags_of w' = flags_of w /\ save_file w' = save_file w /\
     forall d, tiles_dir w = Some d ->
       exists d', tiles_dir w' = Some d' /\
         tiles d' = tiles d /\ chunks d' = chunks d /\ others d' = others d /\
         levels d' = {[max_level]} ∪ levels d /\
         (max_level ∈ levels d -> d' = d)).
Proof.
  split.
  - intros ->. unfold prepare_tiles_dir. simpl.
    destruct w as [f s [d|] t]; simpl.
    + eexists _, [Printed RemovingDirectory]. split; [reflexivity|]. done.
    + eexists _, []. split; [reflexivity|]. simpl. by rewrite app_nil_r.
  - intros Hpos. unfold prepare_tiles_dir.
    destruct (Z.eqb_spec start_strip 0) as [?|_]; [lia|].
    eexists. split; [reflexivity|]. split; [reflexivity|]. simpl.
    split_and!; try done.
    intros d ->. simpl. eexists. split; [reflexivity|]. simpl.
    split_and!; try done.
    intros Hin. destruct d as [ls ts cs os]. simpl in *. f_equal.
    apply leibniz_equiv. set_solver.
Qed.

End Facts.

End PipelineFacts.

Module PipelineRuns.
Import Control Checkpoint Pipeline StripRun PipelineFacts.



(** The other way to save: pause, save and resume within one batch of
    keys.  The chunk loop runs to its end, the check after the loop finds
    the request, and the strip is completed before the progress is saved. *)
Example save_found_after_loop_completes_strip :
  exists w',
    bare_strip 30 0 ready_world [[]; ["p"; "s"; "p"]%char] = Done true w' [] /\
    trace w' = (ChunkSaved <$> seqZ 0 160) ++
               [Printed CompletingStripBeforeSaving; WorkersStopped] ++
               tile_events 14 30 0 40 ++ (ChunkRemoved <$> seqZ 0 160) ++
               [ProgressSaved 1; Printed (ProgressSavedResumeFrom 1)] /\
    current (save_file w') = Present true (json_dump (progress_data 1 1 30)).
Proof.
  eexists. split; [vm_compute; reflexivity|]. split; reflexivity.
Qed.

(** Without any key the first strip is carried through and the loop goes on. *)
Example undisturbed_strip_goes_on :
  exists w',
    bare_strip 30 0 ready_world [] = Done false w' [] /\
    file_events (trace w') = completed_strip 14 30 0 (seqZ 0 160) (seqZ 0 160) 40 /\
    current (save_file w') = Absent.
Proof.
  eexists. split; [vm_compute; reflexivity|]. split; reflexivity.
Qed.

End PipelineRuns.

(** * Further properties *)

Module ControlMore.
Import Control.

(** ** The listener on its own *)

Lemma key_pressed_binary f ch f' :
  (key_pressed f ch).1 = Listening f' ->
  (paused f = 0 \/ paused f = 1) /\ (exit_confirm f = 0 \/ exit_confirm f = 1) /\
  (save_requested f = 0 \/ save_requested f = 1) /\ (exit_confirm f = 1 -> paused f = 1) ->
  (paused f' = 0 \/ paused f' = 1) /\ (exit_confirm f' = 0 \/ exit_confirm f' = 1) /\
  (save_requested f' = 0 \/ save_requested f' = 1) /\ (exit_confirm f' = 1 -> paused f' = 1).
Proof.
  unfold key_pressed. intros Hk (Hp & He & Hs & Hep).
  repeat case_match; simpl in Hk; try discriminate Hk;
    injection Hk as <-; simpl; repeat split; auto; lia.
Qed.

Lemma input_listener_binary keys : forall f f',
  (input_listener f keys).1 = Listening f' ->
  (paused f = 0 \/ paused f = 1) /\ (exit_confirm f = 0 \/ exit_confirm f = 1) /\
  (save_requested f = 0 \/ save_requested f = 1) /\ (exit_confirm f = 1 -> paused f = 1) ->
  (paused f' = 0 \/ paused f' = 1) /\ (exit_confirm f' = 0 \/ exit_confirm f' = 1) /\
  (save_requested f' = 0 \/ save_requested f' = 1) /\ (exit_confirm f' = 1 -> paused f' = 1).
Proof.
  induction keys as [|ch keys IH]; intros f f'; simpl.
  - by intros [= ->].
  - destruct (key_pressed f ch) as [[f1|] out] eqn:Hk; [|done].
    destruct (input_listener f1 keys) as [l out'] eqn:Hl. simpl. intros -> Hinv.
    apply (IH f1 f'); [by rewrite Hl|].
    apply (key_pressed_binary f ch f1); [by rewrite Hk|done].
Qed.

(** X1. [input_listener] on its own keeps the flags well formed: started with
    flags that are each 0 or 1, with [exit_confirm = 1] only when
    [paused = 1] (the initial flags are such), it leaves flags of that
    kind whatever keys it handles.  The second half is the listener's
    invariant only, not the program's: the main thread's own
    [paused.value = 0] of line 493 clears [paused] and leaves
    [exit_confirm]; with an exit and a save typed when line 456 looks, the
    first strip ends with [exit_confirm = 1] and [paused = 0]. *)
Theorem listener_keeps_flags_binary :
  (forall keys f f',
     (paused f = 0 \/ paused f = 1) ->
     (exit_confirm f = 0 \/ exit_confirm f = 1) ->
     (save_requested f = 0 \/ save_requested f = 1) ->
     (exit_confirm f = 1 -> paused f = 1) ->
     (input_listener f keys).1 = Listening f' ->
     (paused f' = 0 \/ paused f' = 1) /\ (exit_confirm f' = 0 \/ exit_confirm f' = 1) /\
     (save_requested f' = 0 \/ save_requested f' = 1) /\
     (exit_confirm f' = 1 -> paused f' = 1)) /\
  (exists w',
     Pipeline.bare_strip 30 0 Pipeline.ready_world (replicate 160 [] ++ [["e"; "s"]%char]) =
       Pipeline.Done true w' [] /\
     Pipeline.flags_of w' = Flags 0 1 0).
Proof.
  split.
  - intros keys f f' Hp He Hs Hep H. by apply (input_listener_binary keys f f' H).
  - eexists. split; vm_compute; reflexivity.
Qed.

Lemma listener_keeps_flags_binary_witness :
  (input_listener initial_flags ["p"; "s"; "e"]%char).1 = Listening (Flags 1 1 1) /\
  (exit_confirm (Flags 1 1 1) = 1 -> paused (Flags 1 1 1) = 1).
Proof.
  split; [reflexivity|].
  apply (proj1 listener_keeps_flags_binary ["p"; "s"; "e"]%char initial_flags (Flags 1 1 1)).
  - left; reflexivity.
  - left; reflexivity.
  - left; reflexivity.
  - simpl. intros H. discriminate H.
  - reflexivity.
Defined.

Lemma key_pressed_save_requested f ch f' :
  (key_pressed f ch).1 = Listening f' ->
  save_requested f' = save_requested f \/
  (is_save ch = true /\ paused f = 1 /\ save_requested f' = 1).
Proof.
  unfold key_pressed. fold (is_save ch). intros Hk.
  destruct (Ascii.eqb (lower ch) "p").
  { repeat case_match; injection Hk as <-; by left. }
  destruct (is_save ch).
  { destruct (Z.eqb_spec (paused f) 1); injection Hk as <-; [right|left]; done. }
  repeat case_match; simpl in Hk; try discriminate Hk; injection Hk as <-; by left.
Qed.

Lemma input_listener_app f pre post :
  (input_listener f (pre ++ post)).1 =
  match (input_listener f pre).1 with
  | Listening g => (input_listener g post).1
  | Exited => Exited
  end.
Proof.
  revert f. induction pre as [|ch pre IH]; intros f; simpl; [done|].
  destruct (key_pressed f ch) as [[f1|] out]; [|done].
  specialize (IH f1).
  destruct (input_listener f1 (pre ++ post)) as [l1 o1].
  destruct (input_listener f1 pre) as [l2 o2]. simpl in *. done.
Qed.

(** X2. The listener never withdraws a save request, and it raises one only
    for a save key typed while the run is paused. *)
Theorem save_honoured_only_while_paused keys : forall f f',
  (input_listener f keys).1 = Listening f' ->
  (save_requested f = 1 -> save_requested f' = 1) /\
  (save_requested f' <> save_requested f ->
   exists pre ch post g,
     keys = pre ++ ch :: post /\ is_save ch = true /\
     (input_listener f pre).1 = Listening g /\ paused g = 1).
Proof.
  induction keys as [|ch keys IH]; intros f f'; simpl.
  - intros [= ->]. split; [done|]. intros H. by destruct H.
  - destruct (key_pressed f ch) as [[f1|] out] eqn:Hk; [|done].
    destruct (input_listener f1 keys) as [l out'] eqn:Hl. simpl. intros ->.
    destruct (IH f1 f') as [Hkeep Hraise]; [by rewrite Hl|].
    pose proof (key_pressed_save_requested f ch f1) as Hstep. rewrite Hk in Hstep.
    specialize (Hstep eq_refl).
    split.
    + intros Hf. apply Hkeep. destruct Hstep as [->|(_ & _ & ->)]; done.
    + intros Hne. destruct Hstep as [Heq|(Hs & Hp & H1)].
      * rewrite <- Heq in Hne. destruct (Hraise Hne) as (pre & c & post & g & -> & Hc & Hpre & Hg).
        exists (ch :: pre), c, post, g. split_and!; try done.
        simpl. rewrite Hk. destruct (input_listener f1 pre). simpl in *. done.
      * exists [], ch, keys, f. split_and!; done.
Qed.

Lemma save_honoured_only_while_paused_witness :
  (input_listener initial_flags ["s"; "p"; "s"]%char).1 = Listening (Flags 1 0 1) /\
  exists pre ch post g,
    ["s"; "p"; "s"]%char = pre ++ ch :: post /\ is_save ch = true /\
    (input_listener initial_flags pre).1 = Listening g /\ paused g = 1.
Proof.
  split; [reflexivity|].
  apply (save_honoured_only_while_paused ["s"; "p"; "s"]%char initial_flags (Flags 1 0 1));
    [reflexivity | discriminate].
Defined.

(** Upper-case and lower-case keys act alike. *)
Lemma keys_are_case_insensitive f ch : key_pressed f (lower ch) = key_pressed f ch.
Proof.
  destruct ch as [[] [] [] [] [] [] [] []]; reflexivity.
Qed.

(** X3. Pausing and resuming gives back the flags as they were. *)
Theorem pause_twice_restores_flags f p1 p2 :
  is_pause p1 = true -> is_pause p2 = true ->
  exit_confirm f <> 1 -> paused f = 0 \/ paused f = 1 ->
  (input_listener f [p1; p2]).1 = Listening f.
Proof.
  intros H1 H2 He Hp. simpl. unfold key_pressed.
  fold (is_pause p1) (is_pause p2). rewrite H1, H2.
  destruct f as [p e s]. simpl in *.
  destruct (Z.eqb_spec e 1); [done|].
  destruct Hp as [-> | ->]; simpl; destruct (Z.eqb_spec e 1); done.
Qed.

Lemma pause_twice_restores_flags_witness :
  is_pause "P" = true /\ is_pause "p" = true /\
  (input_listener (Flags 0 0 1) ["P"; "p"]%char).1 = Listening (Flags 0 0 1).
Proof.
  split; [reflexivity|]. split; [reflexivity|].
  apply (pause_twice_restores_flags (Flags 0 0 1) "P" "p");
    [reflexivity | reflexivity | discriminate | by left].
Defined.

End ControlMore.

Module WaitMore.
Import Control Checkpoint Pipeline PipelineFacts.

Section Wait.
Context {rgb_chunk tile : Type}.

Local Notation "'world'" := (@world rgb_chunk tile).

Lemma wait_while_paused_verdict keys : forall (w : world),
  match wait_while_paused w keys with
  | Done true w' _ => paused (flags_of w') = 1 /\ save_requested (flags_of w') = 1
  | Done false w' _ => paused (flags_of w') <> 1
  | Blocked w' => paused (flags_of w') = 1 /\ save_requested (flags_of w') <> 1
  | Killed _ => True
  | Crashed _ => False
  end.
Proof.
  induction keys as [|batch keys IH]; intros w; simpl.
  - destruct (Z.eqb_spec (paused (flags_of w)) 1); [|done].
    destruct (Z.eqb_spec (save_requested (flags_of w)) 1); done.
  - destruct (Z.eqb_spec (paused (flags_of w)) 1); [|done].
    destruct (Z.eqb_spec (save_requested (flags_of w)) 1); [done|].
    destruct (input_listener (flags_of w) batch) as [[f|] out]; [|done].
    apply IH.
Qed.

Lemma wait_if_paused_unfold (w : world) keys :
  wait_if_paused w keys = Killed w \/
  exists w1 keys1, wait_if_paused w keys = wait_while_paused w1 keys1.
Proof.
  unfold wait_if_paused. rewrite bind_unfold.
  unfold listen. destruct keys as [|batch keys].
  - right. rewrite bind_unfold. simpl.
    destruct (_ && _); rewrite bind_unfold; eexists _, _; reflexivity.
  - destruct (input_listener (flags_of w) batch) as [[f|] out]; [|by left].
    right. rewrite bind_unfold. simpl.
    destruct (_ && _); rewrite bind_unfold; eexists _, _; reflexivity.
Qed.

(** X4. [wait_if_paused] answers True only when it finds the run paused with a
    save requested, and False only when the run is not paused; if the keys
    run out while the run is paused it never returns; whatever happens, it
    leaves the progress file and the tiles directory alone. *)
Theorem wait_if_paused_verdict (w : world) keys :
  exists evs,
    file_events evs = [] /\
    same_files w (world_of (wait_if_paused w keys)) evs /\
    match wait_if_paused w keys with
    | Done true w' _ => paused (flags_of w') = 1 /\ save_requested (flags_of w') = 1
    | Done false w' _ => paused (flags_of w') <> 1
    | Blocked w' => paused (flags_of w') = 1 /\ save_requested (flags_of w') <> 1
    | Killed _ => True
    | Crashed _ => False
    end.
Proof.
  destruct (wait_if_paused_spec w keys) as (evs & Hs & He).
  exists evs. split; [done|]. split; [done|].
  destruct (wait_if_paused_unfold w keys) as [->|(w1 & keys1 & ->)]; [done|].
  apply wait_while_paused_verdict.
Qed.

End Wait.

(** Paused, with nothing more typed: the main thread waits for ever. *)
Example paused_without_keys_blocks :
  exists w', wait_if_paused ready_world [["p"%char]] = Blocked w' /\
             flags_of w' = Flags 1 0 0.
Proof. eexists. split; reflexivity. Qed.

End WaitMore.

Module ProgramGrid.
Import Float64 Float64Facts ChunkGrid ChunkGridFacts Pipeline.

(** An integer quotient of at most 53 bits comes out of Python's true
    division as it is. *)
Lemma int_truediv_multiple m d :
  0 < d -> 0 <= m <= 2 ^ 53 -> int_truediv (m * d) d = Some (of_Z m).
Proof.
  intros Hd Hm. unfold int_truediv, of_Z.
  destruct (Z.eqb_spec d 0); [lia|]. destruct (Z.ltb_spec 0 d); [|lia].
  pose proof one_units_pos as H1.
  assert (Hgrid : on_grid (m * one_units)).
  { destruct (decide (m = 0)) as [->|]; [by exists 0|].
    unfold one_units. apply on_grid_shift; unfold unit_exp; lia. }
  replace (m * d * one_units) with (m * one_units * d) by lia.
  rewrite round_units_exact by (try done; nia).
  assert (2 ^ 53 * one_units < overflow_units) by reflexivity.
  destruct (Z.ltb_spec (Z.abs (m * one_units)) overflow_units); [done|].
  rewrite Z.abs_eq in * by nia. nia.
Qed.

Lemma math_ceil_of_Z m : math_ceil (of_Z m) = Some m.
Proof.
  unfold math_ceil, of_Z. f_equal. pose proof one_units_pos.
  rewrite <- Z.mul_opp_l, Z.div_mul by lia. lia.
Qed.

(** X5. In the program the width is a multiple of 64: a run at scale [s] has
    160 s chunks a strip and every one of them, the last included, is
    exactly 64 columns wide. *)
Theorem program_chunks_are_full im_scale :
  1 <= im_scale ->
  nc im_scale = 160 * im_scale /\
  forall i, 0 <= i < 160 * im_scale -> chunk_width (nx im_scale) i = Some 64.
Proof.
  intros Hs.
  assert (Hnc : nc im_scale = 160 * im_scale).
  { unfold nc, ChunkGrid.nc, fx, nx, ncol.
    replace (im_scale * 10240) with (160 * im_scale * 64) by lia.
    rewrite Z.div_mul by lia.
    destruct (Z.ltb_spec (160 * im_scale * 64) (160 * im_scale * 64)); lia. }
  split; [done|]. intros i Hi. unfold chunk_width.
  unfold nc in Hnc.
  rewrite bx_lookup, ex_lookup by lia. simpl. f_equal.
  unfold np_clip, ncol, nx. lia.
Qed.

Lemma program_chunks_are_full_witness :
  1 <= 4 /\ nc 4 = 640 /\ chunk_width (nx 4) 639 = Some 64.
Proof.
  split; [lia|].
  destruct (program_chunks_are_full 4 ltac:(lia)) as [Hnc Hw].
  split; [exact Hnc|]. apply Hw. lia.
Defined.

(** X6. The strips of a run at scale [s]: the float division gives exactly
    30 s of them, each 256 rows high, and their row ranges cut [0, ny)
    into consecutive pieces without gap or overlap. *)
Theorem program_strips_partition im_scale :
  1 <= im_scale -> ny im_scale <= 2 ^ 53 ->
  strips_per_height im_scale = Some (30 * im_scale) /\
  (forall s, 0 <= s < 30 * im_scale ->
     strip_y_start s = 256 * s /\ strip_y_end im_scale s = 256 * (s + 1) /\
     strip_height im_scale s = 256) /\
  (forall y, 0 <= y < ny im_scale <->
     exists s, 0 <= s < 30 * im_scale /\ strip_y_start s <= y < strip_y_end im_scale s) /\
  (forall s s' y, 0 <= s < 30 * im_scale -> 0 <= s' < 30 * im_scale ->
     strip_y_start s <= y < strip_y_end im_scale s ->
     strip_y_start s' <= y < strip_y_end im_scale s' -> s = s').
Proof.
  intros Hs Hny. unfold ny in Hny.
  assert (Hbounds : forall s, 0 <= s < 30 * im_scale ->
            strip_y_start s = 256 * s /\ strip_y_end im_scale s = 256 * (s + 1) /\
            strip_height im_scale s = 256).
  { intros s Hr. unfold strip_height, strip_y_end, strip_y_start, ny, TILE_SIZE. lia. }
  split_and!.
  - unfold strips_per_height, ny, TILE_SIZE.
    replace (im_scale * 7680) with (30 * im_scale * 256) by lia.
    rewrite int_truediv_multiple by lia. simpl. apply math_ceil_of_Z.
  - exact Hbounds.
  - intros y. split.
    + intros Hy. exists (y / 256).
      pose proof (Z.div_mod y 256 ltac:(lia)).
      pose proof (Z.mod_pos_bound y 256 ltac:(lia)).
      assert (0 <= y / 256) by (apply Z.div_pos; lia).
      assert (y / 256 < 30 * im_scale).
      { apply Z.div_lt_upper_bound; unfold ny in Hy; lia. }
      destruct (Hbounds (y / 256) ltac:(lia)) as (-> & -> & _). lia.
    + intros (s & Hr & Hy). destruct (Hbounds s Hr) as (Ha & Hb & _).
      rewrite Ha, Hb in Hy. unfold ny. lia.
  - intros s s' y Hr Hr' Hy Hy'.
    destruct (Hbounds s Hr) as (Ha & Hb & _). destruct (Hbounds s' Hr') as (Ha' & Hb' & _).
    lia.
Qed.

Lemma program_strips_partition_witness :
  1 <= 4 /\ ny 4 <= 2 ^ 53 /\ strips_per_height 4 = Some 120.
Proof.
  split; [lia|]. split; [unfold ny; lia|].
  apply (program_strips_partition 4); [lia | unfold ny; lia].
Defined.

End ProgramGrid.

Module WorkerMore.
Import Float64 Float64Facts Worker WorkerFacts WorkerOutput.

Local Opaque one_units overflow_units.

(** Every number has a byte. *)
Lemma chunk_normalized_defined v :
  v <> NaN -> exists b, chunk_normalized color_max v = Some b /\ 0 <= b <= 255.
Proof.
  intros Hv. pose proof one_units_pos as H1. unfold chunk_normalized.
  destruct v as [u|s|]; [| |done].
  - rewrite fdiv_color_max. unfold of_Z.
    set (r := round_units (u * one_units) (100 * one_units)).
    destruct (of_units_cases r) as [->|[[-> ?]|[-> ?]]].
    + destruct (Z_le_gt_dec r 0) as [Hr0|Hr0].
      { destruct (fmul_255_nonpos r Hr0) as (y & -> & ->).
        exists 0. split; [|lia]. apply (astype_uint8_of_Z 0). lia. }
      destruct (Z_le_gt_dec one_units r) as [Hr1|Hr1].
      { destruct (fmul_255_ge_one r Hr1) as (y & -> & ->).
        exists 255. split; [|lia]. apply astype_uint8_of_Z. lia. }
      destruct (fmul_255_unit_interval r ltac:(lia)) as (p & -> & Hp).
      rewrite fclip_Fin.
      replace (Z.min (Z.max p (0 * one_units)) (255 * one_units)) with p by lia.
      apply astype_uint8_range. done.
    + exists 255. unfold fmul.
      destruct (Z.eqb_spec (255 * one_units) 0); [lia|].
      destruct (Z.ltb_spec (255 * one_units) 0); [lia|]. cbn [xorb].
      rewrite fclip_Inf by lia. split; [|lia]. apply astype_uint8_of_Z. lia.
    + exists 0. unfold fmul.
      destruct (Z.eqb_spec (255 * one_units) 0); [lia|].
      destruct (Z.ltb_spec (255 * one_units) 0); [lia|]. cbn [xorb].
      rewrite fclip_Inf by lia. split; [|lia]. apply (astype_uint8_of_Z 0). lia.
  - destruct s; [exists 0|exists 255]; (split; [vm_compute; reflexivity|lia]).
Qed.

Lemma rgb_of_defined (lut : list rgb) v :
  length lut = 256%nat -> v <> NaN ->
  exists b px, chunk_normalized color_max v = Some b /\ lut !! Z.to_nat b = Some px /\
               rgb_of lut color_max v = Some px.
Proof.
  intros Hlut Hv. destruct (chunk_normalized_defined v Hv) as (b & Hb & Hr).
  destruct (lookup_lt_is_Some_2 lut (Z.to_nat b) ltac:(lia)) as [px Hpx].
  exists b, px. split_and!; try done. unfold rgb_of. rewrite Hb. done.
Qed.

Section WorkerLoopFacts.
Context {grids : Type} (calc_val : grids -> list (list float64)).

Lemma rgb_chunk_of_defined (lut : list rgb) coldata :
  length lut = 256%nat -> all_numbers coldata ->
  exists chunk, rgb_chunk_of lut color_max coldata = Some chunk /\
                Forall2 (Forall2 (coloured lut)) coldata chunk.
Proof.
  intros Hlut Hall. unfold rgb_chunk_of.
  assert (Hrow : forall row, Forall (fun v => v <> NaN) row ->
            exists out, mapM (rgb_of lut color_max) row = Some out /\
                        Forall2 (coloured lut) row out).
  { induction 1 as [|v row Hv _ (out & Hout & Hrel)].
    - exists []. split; [done|constructor].
    - destruct (rgb_of_defined lut v Hlut Hv) as (b & px & Hb & Hpx & Hrgb).
      exists (px :: out). split.
      + apply mapM_Some. constructor; [done|]. by apply mapM_Some.
      + constructor; [by exists b|done]. }
  induction Hall as [|row rows Hr _ (chunk & Hchunk & Hrel)].
  - exists []. split; [done|constructor].
  - destruct (Hrow row Hr) as (out & Hout & Hrel1).
    exists (out :: chunk). split.
    + apply mapM_Some. constructor; [done|]. by apply mapM_Some.
    + by constructor.
Qed.

(** X7. The worker answers every work item it takes, in the order it took
    them and under the item's own index; the answer has the shape of the
    kernel's array, each pixel being the table's row for the value at its
    place. *)
Theorem worker_answers_every_item (lut : list rgb) (items : list (Z * grids)) :
  length lut = 256%nat ->
  Forall (fun item => all_numbers (calc_val item.2)) items ->
  exists out,
    worker calc_val lut color_max items = Some out /\
    out.*1 = items.*1 /\
    Forall2 (fun item answer =>
               answer.1 = item.1 /\
               Forall2 (Forall2 (coloured lut)) (calc_val item.2) answer.2)
            items out.
Proof.
  intros Hlut Hall. unfold worker.
  induction Hall as [|[i args] items Hi _ (out & Hout & Hidx & Hrel)].
  - exists []. split; [done|]. split; [done|constructor].
  - destruct (rgb_chunk_of_defined lut (calc_val args) Hlut Hi) as (chunk & Hchunk & Hc).
    exists ((i, chunk) :: out). split_and!.
    + apply mapM_Some. constructor.
      * simpl in Hchunk. rewrite Hchunk. done.
      * by apply mapM_Some.
    + simpl. by f_equal.
    + constructor; [done|done].
Qed.
End WorkerLoopFacts.

(** One item, a 1 x 3 array from the kernel, a grey ramp for a table. *)
Lemma worker_answers_every_item_witness :
  let lut : list rgb := (fun b => (b, b, b)) <$> seqZ 0 256 in
  let calc_val := fun _ : unit => [[of_Z 0; of_Z 50; of_Z 1000]] in
  length lut = 256%nat /\
  Forall (fun item => all_numbers (calc_val item.2)) [(7, ())] /\
  worker calc_val lut color_max [(7, ())] = Some [(7, [[(0,0,0); (127,127,127); (255,255,255)]])].
Proof.
  intros lut calc_val.
  assert (H1 : length lut = 256%nat) by reflexivity.
  assert (H2 : Forall (fun item => all_numbers (calc_val item.2)) [(7, ())]).
  { repeat constructor; discriminate. }
  split; [exact H1|]. split; [exact H2|].
  destruct (worker_answers_every_item calc_val lut [(7, ())] H1 H2) as (out & Hout & _).
  vm_compute. reflexivity.
Defined.

End WorkerMore.

Module StripRunFacts.
Import Control Checkpoint Pipeline PipelineFacts StripRun.

Section Steady.
Context {rgb_chunk tile : Type}.
Local Notation "'world'" := (@world rgb_chunk tile).
Local Notation "'M'" := (@M rgb_chunk tile).
Variable R : relation world.
Context `{!PreOrder R}.

Lemma steady_ret {A} (a : A) : steady R (mret a : M A).
Proof. intros w keys. simpl. reflexivity. Qed.

Lemma steady_bind {A B} (m : M A) (k : A -> M B) :
  steady R m -> (forall a, steady R (k a)) -> steady R (m ≫= k).
Proof.
  intros Hm Hk w keys. rewrite bind_unfold. specialize (Hm w keys).
  destruct (m w keys) as [a w1 keys1| | |]; simpl in *; try done.
  etrans; [exact Hm|apply Hk].
Qed.

Lemma steady_get : steady R (get : M world).
Proof. intros w keys. simpl. reflexivity. Qed.

Lemma steady_crash {A} : steady R (crash : M A).
Proof. intros w keys. simpl. reflexivity. Qed.

Lemma steady_block {A} : steady R (block : M A).
Proof. intros w keys. simpl. reflexivity. Qed.

Lemma steady_for_each {A} (body : A -> M unit) l :
  (forall a, steady R (body a)) -> steady R (for_each l body).
Proof.
  intros Hb. induction l as [|a l IH]; simpl; [apply steady_ret|].
  apply steady_bind; [apply Hb|intros _; apply IH].
Qed.

Lemma steady_fold_each {A B} (body : B -> A -> M B) l :
  (forall b a, steady R (body b a)) -> forall b, steady R (fold_each l body b).
Proof.
  intros Hb. induction l as [|a l IH]; intros b; simpl; [apply steady_ret|].
  apply steady_bind; [apply Hb|intros b'; apply IH].
Qed.
End Steady.

Section AccountsFacts.
Context {rgb_chunk strip_buffer tile : Type}.
Variable np_zeros : Z -> Z -> strip_buffer.
Variable assign_columns : strip_buffer -> Z -> Z -> rgb_chunk -> strip_buffer.
Variable flip_vertical : strip_buffer -> strip_buffer.
Variable split_into_tiles : strip_buffer -> Z -> list tile.
Variables (im_scale max_level total : Z).
Local Notation "'world'" := (@world rgb_chunk tile).
Local Notation "'M'" := (@M rgb_chunk tile).
Local Notation "'acc'" := (@accounts rgb_chunk tile im_scale total).

Lemma replay_app d e1 e2 :
  replay im_scale total d (e1 ++ e2) = replay im_scale total (replay im_scale total d e1) e2.
Proof. unfold replay. apply foldl_app. Qed.

Lemma replay_no_save d evs :
  (forall k, ProgressSaved k ∉ evs) -> replay im_scale total d evs = d.
Proof.
  revert d. induction evs as [|e evs IH]; intros d Hno; [done|].
  simpl. destruct e; try (apply IH; intros k Hk; apply (Hno k); by right).
  destruct (Hno strip). by left.
Qed.

Lemma accounts_preorder : PreOrder acc.
Proof.
  split.
  - intros w. exists []. rewrite app_nil_r. done.
  - intros w1 w2 w3 (e1 & Ht1 & Hs1 & Ho1 & Hk1 & Hd1) (e2 & Ht2 & Hs2 & Ho2 & Hk2 & Hd2).
    exists (e1 ++ e2). split_and!.
    + rewrite Ht2, Ht1. by rewrite app_assoc.
    + rewrite Hs2, Hs1. by rewrite replay_app.
    + congruence.
    + intros l c r Hno. rewrite Hk2, Hk1; [done| |];
        intros Hin; apply Hno; apply elem_of_app; auto.
    + auto.
Qed.

Lemma acc_ret {A} (a : A) : steady acc (mret a : M A).
Proof. apply steady_ret, accounts_preorder. Qed.

Lemma acc_bind {A B} (m : M A) (k : A -> M B) :
  steady acc m -> (forall a, steady acc (k a)) -> steady acc (m ≫= k).
Proof. apply steady_bind, accounts_preorder. Qed.

Lemma acc_get : steady acc (get : M world).
Proof. apply steady_get, accounts_preorder. Qed.

Lemma acc_crash {A} : steady acc (crash : M A).
Proof. apply steady_crash, accounts_preorder. Qed.

Lemma acc_block {A} : steady acc (block : M A).
Proof. apply steady_block, accounts_preorder. Qed.

Lemma acc_for_each {A} (body : A -> M unit) l :
  (forall a, steady acc (body a)) -> steady acc (for_each l body).
Proof. apply steady_for_each, accounts_preorder. Qed.

Lemma acc_fold_each {A B} (body : B -> A -> M B) l :
  (forall b a, steady acc (body b a)) -> forall b, steady acc (fold_each l body b).
Proof. apply steady_fold_each, accounts_preorder. Qed.

Lemma accounts_same_files (w w' : world) evs :
  same_files w w' evs -> (forall k, ProgressSaved k ∉ evs) -> acc w w'.
Proof.
  intros (Hs & Hd & Ht) Hno. exists evs. unfold dir_of. rewrite Hd, Hs.
  split_and!; try done. by rewrite replay_no_save.
Qed.

Lemma accounts_flags (w : world) f : acc w (set_flags f w).
Proof. apply (accounts_same_files _ _ []); [apply same_files_set_flags|]. intros k Hk. inversion Hk. Qed.

Lemma steady_listen : steady acc (listen : M unit).
Proof.
  intros w keys. destruct (listen_spec w keys) as [Hs _].
  apply (accounts_same_files _ _ []); [done|]. intros k Hk. inversion Hk.
Qed.

Lemma steady_emit e : (forall k, e <> ProgressSaved k) -> steady acc (emit e : M unit).
Proof.
  intros He w keys. destruct (emit_spec e w keys) as (w' & -> & Hs & _). simpl.
  apply (accounts_same_files _ _ [e]); [done|].
  intros k Hk. apply list_elem_of_singleton in Hk. by apply (He k).
Qed.

Lemma steady_wait_if_paused : steady acc (wait_if_paused : M bool).
Proof.
  intros w keys. destruct (wait_if_paused_spec w keys) as (evs & Hs & Hf).
  apply (accounts_same_files _ _ evs); [done|].
  intros k Hk. assert (Hin : ProgressSaved k ∈ file_events evs).
  { apply elem_of_file_events. done. }
  rewrite Hf in Hin. inversion Hin.
Qed.

Lemma steady_read_save_requested : steady acc (read_save_requested : M Z).
Proof.
  unfold read_save_requested. apply acc_bind; [apply steady_listen|].
  intros _. apply acc_bind; [apply acc_get|]. intros w. apply acc_ret.
Qed.

Lemma steady_clear_save_requested : steady acc (clear_save_requested : M unit).
Proof. intros w keys. apply accounts_flags. Qed.

Lemma steady_clear_paused : steady acc (clear_paused : M unit).
Proof. intros w keys. apply accounts_flags. Qed.

Lemma steady_np_save i c : steady acc (np_save i c : M unit).
Proof.
  intros w keys. unfold np_save. rewrite bind_unfold. simpl.
  destruct (tiles_dir w) as [d|] eqn:Hd; [|apply accounts_preorder].
  rewrite bind_unfold. simpl.
  exists [ChunkSaved i]. unfold dir_of. simpl. rewrite Hd. simpl. split_and!; done.
Qed.

Lemma steady_np_load i : steady acc (np_load i : M rgb_chunk).
Proof.
  intros w keys. unfold np_load. rewrite bind_unfold. simpl.
  destruct (tiles_dir w ≫= _); apply accounts_preorder.
Qed.

Lemma no_save_in_removed k (removed : list Z) : ProgressSaved k ∉ ChunkRemoved <$> removed.
Proof. intros Hin. apply list_elem_of_fmap in Hin as (i & Hi & _). discriminate Hi. Qed.

Lemma no_tile_in_removed level col row (removed : list Z) :
  TileSaved level col row ∉ ChunkRemoved <$> removed.
Proof. intros Hin. apply list_elem_of_fmap in Hin as (i & Hi & _). discriminate Hi. Qed.

Lemma steady_remove_chunks : steady acc (remove_chunks im_scale : M unit).
Proof.
  intros w keys.
  destruct (remove_chunks_spec im_scale w keys) as (w' & removed & -> & Ht & _ & Hs & _ & Hn & Hd).
  simpl. exists (ChunkRemoved <$> removed). split; [done|].
  rewrite replay_no_save by (intros k; apply no_save_in_removed).
  split; [done|]. unfold dir_of.
  destruct (tiles_dir w) as [d|] eqn:Hw.
  - destruct (Hd d eq_refl) as (d' & -> & _ & Htl & Ho). simpl. rewrite Htl, Ho.
    split_and!; done.
  - rewrite (Hn eq_refl). split_and!; done.
Qed.

Lemma steady_save_tile t level col row : steady acc (save_tile t level col row : M unit).
Proof.
  intros w keys.
  destruct (save_tile_spec t level col row w keys) as (w' & -> & Ht & _ & Hs & Hd & _ & Ho & Htl).
  simpl. exists [TileSaved level col row]. split_and!; try done.
  intros l c r Hno. rewrite Htl. apply lookup_insert_ne. intros [= -> -> ->].
  apply Hno. by apply list_elem_of_singleton.
Qed.

Lemma steady_write_progress k : steady acc (write_progress im_scale k total : M unit).
Proof.
  intros w keys.
  destruct (write_progress_spec im_scale k total w keys) as (w' & -> & Ht & _ & Hd & Hs).
  simpl. exists [ProgressSaved k]. unfold dir_of. rewrite Hd. split_and!; done.
Qed.

Lemma steady_chunk_loop strip_idx n : forall results,
  steady acc (chunk_loop im_scale total strip_idx n results : M bool).
Proof.
  induction n as [|n IH]; intros results; simpl; [apply acc_ret|].
  destruct results as [|[i rgb] results]; [apply acc_block|].
  apply acc_bind; [apply steady_np_save|]. intros _.
  apply acc_bind; [apply steady_wait_if_paused|]. intros [|]; [|apply IH].
  apply acc_bind; [by apply steady_emit|]. intros _.
  apply acc_bind; [apply steady_remove_chunks|]. intros _.
  apply acc_bind; [apply steady_write_progress|]. intros _.
  apply acc_bind; [apply steady_clear_save_requested|]. intros _.
  apply acc_bind; [by apply steady_emit|]. intros _.
  apply acc_ret.
Qed.

Lemma steady_assemble_strip strip_idx :
  steady acc (assemble_strip np_zeros assign_columns flip_vertical split_into_tiles
                im_scale max_level total strip_idx : M unit).
Proof.
  unfold assemble_strip.
  apply acc_bind.
  { apply acc_fold_each. intros b a. apply acc_bind; [apply steady_np_load|].
    intros c. apply acc_ret. }
  intros buf. apply acc_bind; [|intros _; apply steady_remove_chunks].
  apply acc_for_each. intros [x t]. apply steady_save_tile.
Qed.

Lemma steady_process_strip strip_idx results :
  steady acc (process_strip np_zeros assign_columns flip_vertical split_into_tiles
                im_scale max_level total strip_idx results : M bool).
Proof.
  unfold process_strip.
  apply acc_bind; [apply steady_chunk_loop|]. intros [|]; [apply acc_ret|].
  apply acc_bind; [apply steady_read_save_requested|]. intros r1.
  destruct (r1 =? 1).
  { apply acc_bind; [by apply steady_emit|]. intros _.
    apply acc_bind; [by apply steady_emit|]. intros _.
    apply acc_bind; [apply steady_assemble_strip|]. intros _.
    apply acc_bind; [apply steady_write_progress|]. intros _.
    apply acc_bind; [apply steady_clear_save_requested|]. intros _.
    apply acc_bind; [apply steady_clear_paused|]. intros _.
    apply acc_bind; [by apply steady_emit|]. intros _. apply acc_ret. }
  apply acc_bind; [apply steady_read_save_requested|]. intros r2.
  apply acc_bind.
  { destruct (r2 =? 0); [by apply steady_emit|apply acc_ret]. }
  intros _. apply acc_bind; [apply steady_read_save_requested|]. intros r3.
  destruct (r3 =? 0); [|apply acc_ret].
  apply acc_bind; [apply steady_assemble_strip|]. intros _.
  apply acc_bind; [apply steady_read_save_requested|]. intros r4.
  destruct (r4 =? 1).
  - apply acc_bind; [apply steady_write_progress|]. intros _.
    apply acc_bind; [apply steady_clear_save_requested|]. intros _.
    apply acc_bind; [apply steady_clear_paused|]. intros _.
    apply acc_bind; [by apply steady_emit|]. intros _. apply acc_ret.
  - apply acc_bind; [apply steady_wait_if_paused|]. intros _. apply acc_ret.
Qed.

Lemma steady_strips_loop results strips :
  steady acc (strips_loop np_zeros assign_columns flip_vertical split_into_tiles
                im_scale max_level total strips results : M bool).
Proof.
  induction strips as [|s strips IH]; simpl; [apply acc_ret|].
  apply acc_bind; [apply steady_process_strip|]. intros [|]; [apply acc_ret|apply IH].
Qed.

Lemma replay_file_events d evs :
  replay im_scale total d (file_events evs) = replay im_scale total d evs.
Proof.
  revert d. induction evs as [|e evs IH]; intros d; [reflexivity|].
  unfold file_events in *. destruct e; simpl; apply IH.
Qed.

Lemma replay_last_save d evs k :
  (forall j, ProgressSaved j ∉ evs) ->
  replay im_scale total d (evs ++ [ProgressSaved k]) = save_progress d im_scale k total.
Proof. intros Hno. rewrite replay_app, (replay_no_save d evs) by done. done. Qed.

Lemma no_save_in_saved j (arrived : list Z) : ProgressSaved j ∉ ChunkSaved <$> arrived.
Proof. intros Hin. apply list_elem_of_fmap in Hin as (i & Hi & _). discriminate Hi. Qed.

(** What one strip can write. *)
Lemma strip_events strip_idx results (w : world) keys evs :
  let out := process_strip np_zeros assign_columns flip_vertical split_into_tiles
               im_scale max_level total strip_idx results w keys in
  trace (world_of out) = trace w ++ evs ->
  (forall level col row, TileSaved level col row ∈ evs ->
     level = max_level /\ row = total - 1 - strip_idx) /\
  ((forall w' keys', out <> Done true w' keys') -> forall k, ProgressSaved k ∉ evs) /\
  (forall w' keys', out = Done true w' keys' ->
     exists k, (k = strip_idx \/ k = strip_idx + 1) /\
       forall d, replay im_scale total d evs = save_progress d im_scale k total).
Proof.
  intros out Htr.
  destruct (process_strip_cases np_zeros assign_columns flip_vertical split_into_tiles
              im_scale max_level total strip_idx results w keys) as (evs' & Htr' & Hcases).
  fold out in Htr', Hcases.
  assert (evs' = evs) as -> by (rewrite Htr in Htr'; by apply app_inv_head in Htr').
  assert (Hfe : forall e, e ∈ evs -> is_file_event e = true -> e ∈ file_events evs).
  { intros e He Hf. by apply elem_of_file_events. }
  destruct Hcases as [(j & removed & w' & keys' & Hout & Hj & Hl & Hev & Hno)
                     |[(removed & buf & w' & keys' & Hout & Hl & Hev & Hno & Htiles)
                     |[(removed & buf & Hns & _ & Hev)|(j & Hns & _ & Hev)]]].
  - split_and!.
    + intros level col row Hin. apply Hfe in Hin; [|done]. rewrite Hev in Hin.
      apply (elem_of_discarded_strip np_zeros assign_columns flip_vertical split_into_tiles)
        in Hin. naive_solver.
    + intros Hns. by destruct (Hns w' keys').
    + intros _ _ _. exists strip_idx. split; [by left|]. intros d.
      rewrite <- replay_file_events, Hev. unfold discarded_strip.
      rewrite !app_assoc. apply replay_last_save.
      intros k Hk. rewrite !elem_of_app in Hk. destruct Hk as [[Hk|Hk]|Hk].
      * by apply no_save_in_saved in Hk.
      * apply list_elem_of_singleton in Hk. done.
      * by apply no_save_in_removed in Hk.
  - split_and!.
    + intros level col row Hin. apply Hfe in Hin; [|done]. rewrite Hev in Hin.
      apply elem_of_app in Hin as [Hin|Hin].
      * apply (elem_of_completed_strip np_zeros assign_columns flip_vertical split_into_tiles)
          in Hin. naive_solver.
      * apply list_elem_of_singleton in Hin. done.
    + intros Hns. by destruct (Hns w' keys').
    + intros _ _ _. exists (strip_idx + 1). split; [by right|]. intros d.
      rewrite <- replay_file_events, Hev. apply replay_last_save.
      intros k Hk.
      apply (elem_of_completed_strip np_zeros assign_columns flip_vertical split_into_tiles)
        in Hk. naive_solver.
  - split_and!.
    + intros level col row Hin. apply Hfe in Hin; [|done]. rewrite Hev in Hin.
      apply (elem_of_completed_strip np_zeros assign_columns flip_vertical split_into_tiles)
        in Hin. naive_solver.
    + intros _ k Hk. apply Hfe in Hk; [|done]. rewrite Hev in Hk.
      apply (elem_of_completed_strip np_zeros assign_columns flip_vertical split_into_tiles)
        in Hk. naive_solver.
    + intros w' keys' Hout. by destruct (Hns w' keys').
  - split_and!.
    + intros level col row Hin. apply Hfe in Hin; [|done]. rewrite Hev in Hin.
      apply list_elem_of_fmap in Hin. naive_solver.
    + intros _ k Hk. apply Hfe in Hk; [|done]. rewrite Hev in Hk.
      by apply no_save_in_saved in Hk.
    + intros w' keys' Hout. by destruct (Hns w' keys').
Qed.

(** What the strip loop can write. *)
Lemma loop_events results strips : forall (w : world) keys,
  let out := strips_loop np_zeros assign_columns flip_vertical split_into_tiles
               im_scale max_level total strips results w keys in
  exists evs, trace (world_of out) = trace w ++ evs /\
  (forall level col row, TileSaved level col row ∈ evs ->
     level = max_level /\ exists s, s ∈ strips /\ row = total - 1 - s) /\
  ((forall w' keys', out <> Done true w' keys') -> forall k, ProgressSaved k ∉ evs) /\
  (forall w' keys', out = Done true w' keys' ->
     exists s k, s ∈ strips /\ (k = s \/ k = s + 1) /\
       forall d, replay im_scale total d evs = save_progress d im_scale k total).
Proof.
  induction strips as [|s strips IH]; intros w keys out.
  { exists []. rewrite app_nil_r. split; [done|]. split_and!.
    - intros ??? Hin. inversion Hin.
    - intros _ k Hin. inversion Hin.
    - intros ?? Hout. discriminate Hout. }
  subst out. simpl. rewrite bind_unfold.
  destruct (steady_process_strip s (results s) w keys) as (evs1 & Htr1 & _).
  pose proof (strip_events s (results s) w keys evs1 Htr1) as (Ht1 & Hn1 & Hs1).
  assert (Ht1' : forall l c r, TileSaved l c r ∈ evs1 ->
            l = max_level /\ exists s', s' ∈ s :: strips /\ r = total - 1 - s').
  { intros l c r Hin. destruct (Ht1 l c r Hin) as [-> ->]. split; [done|].
    exists s. split; [by left|done]. }
  destruct (process_strip _ _ _ _ _ _ _ s (results s) w keys)
    as [[|] w1 keys1|w1|w1|w1] eqn:Hout1.
  - exists evs1. split; [done|]. split_and!; [done| |].
    + intros Hns. by destruct (Hns w1 keys1).
    + intros w' keys' _. destruct (Hs1 w1 keys1 eq_refl) as (k & Hk & Hr).
      exists s, k. split; [by left|done].
  - destruct (IH w1 keys1) as (evs2 & Htr2 & Ht2 & Hn2 & Hs2).
    exists (evs1 ++ evs2). simpl in Htr1. split; [by rewrite Htr2, Htr1, app_assoc|].
    assert (Hno1 : forall k, ProgressSaved k ∉ evs1) by (apply Hn1; intros ??; discriminate).
    split_and!.
    + intros l c r Hin. apply elem_of_app in Hin as [Hin|Hin]; [by apply (Ht1' l c r)|].
      destruct (Ht2 l c r Hin) as (-> & s' & Hs' & ->). split; [done|].
      exists s'. split; [by right|done].
    + intros Hns k Hin. apply elem_of_app in Hin as [Hin|Hin]; [by apply (Hno1 k)|].
      by apply (Hn2 Hns k).
    + intros w' keys' Hout. destruct (Hs2 w' keys' Hout) as (s' & k & Hs' & Hk & Hr).
      exists s', k. split; [by right|]. split; [done|]. intros d.
      by rewrite replay_app, (replay_no_save d evs1).
  - exists evs1. split; [done|]. split_and!; [done| |].
    + intros _. apply Hn1. intros ??; discriminate.
    + intros ?? Hout. discriminate Hout.
  - exists evs1. split; [done|]. split_and!; [done| |].
    + intros _. apply Hn1. intros ??; discriminate.
    + intros ?? Hout. discriminate Hout.
  - exists evs1. split; [done|]. split_and!; [done| |].
    + intros _. apply Hn1. intros ??; discriminate.
    + intros ?? Hout. discriminate Hout.
Qed.

(** The strip loop and the files: the foreign files stay; a tile is
    touched only at the base level and in the row of a strip of the loop;
    the checkpoint is written when the loop ends on a save, and then once,
    for a strip of the loop or the one after it. *)
Lemma strips_loop_files results strips (w : world) keys :
  let out := strips_loop np_zeros assign_columns flip_vertical split_into_tiles
               im_scale max_level total strips results w keys in
  others (dir_of (world_of out)) = others (dir_of w) /\
  (forall level col row,
     (level <> max_level \/ forall s, s ∈ strips -> row <> total - 1 - s) ->
     tiles (dir_of (world_of out)) !! (level, col, row) = tiles (dir_of w) !! (level, col, row)) /\
  (is_Some (tiles_dir w) -> is_Some (tiles_dir (world_of out))) /\
  ((forall w' keys', out <> Done true w' keys') -> save_file (world_of out) = save_file w) /\
  (forall w' keys', out = Done true w' keys' ->
     exists s k, s ∈ strips /\ (k = s \/ k = s + 1) /\
       save_file w' = save_progress (save_file w) im_scale k total).
Proof.
  intros out.
  destruct (steady_strips_loop results strips w keys) as (evs & Htr & Hsf & Ho & Htl & Hd).
  destruct (loop_events results strips w keys) as (evs' & Htr' & Ht & Hn & Hs).
  fold out in Htr, Hsf, Ho, Htl, Hd, Htr', Ht, Hn, Hs.
  assert (evs' = evs) as -> by (rewrite Htr in Htr'; by apply app_inv_head in Htr').
  split; [done|]. split_and!.
  - intros l c r Hrow. apply Htl. intros Hin.
    destruct (Ht l c r Hin) as (-> & s & Hs' & ->). destruct Hrow as [?|Hrow]; [done|].
    by apply (Hrow s).
  - done.
  - intros Hns. rewrite Hsf. apply replay_no_save. by apply Hn.
  - intros w' keys' Hout. destruct (Hs w' keys' Hout) as (s & k & Hs' & Hk & Hr).
    exists s, k. split; [done|]. split; [done|]. rewrite Hout in Hsf. simpl in Hsf.
    by rewrite Hsf.
Qed.

End AccountsFacts.

Section RunFacts.
Context {rgb_chunk strip_buffer tile : Type}.
Variable np_zeros : Z -> Z -> strip_buffer.
Variable assign_columns : strip_buffer -> Z -> Z -> rgb_chunk -> strip_buffer.
Variable flip_vertical : strip_buffer -> strip_buffer.
Variable split_into_tiles : strip_buffer -> Z -> list tile.
Variables (im_scale max_level : Z).
Local Notation "'world'" := (@world rgb_chunk tile).
Local Notation "'M'" := (@M rgb_chunk tile).
Local Notation "'run'" :=
  (run_strips np_zeros assign_columns flip_vertical split_into_tiles im_scale max_level).

Lemma prepare_keeps_checkpoint start (w : world) keys :
  exists w', prepare_tiles_dir start w keys = Done () w' keys /\
             save_file w' = save_file w /\ flags_of w' = flags_of w /\
             (start <> 0 -> tiles_dir w' = tiles_dir w).
Proof.
  unfold prepare_tiles_dir. destruct (Z.eqb_spec start 0) as [->|Hne].
  - rewrite !bind_unfold. simpl. destruct (tiles_dir w) as [d|] eqn:Hd.
    + rewrite !bind_unfold. simpl. eexists. split; [reflexivity|]. done.
    + simpl. eexists. split; [reflexivity|]. rewrite Hd. done.
  - eexists. split; [reflexivity|]. done.
Qed.

Lemma make_level_dir_spec (w : world) keys :
  exists w', make_level_dir max_level w keys = Done () w' keys /\
             save_file w' = save_file w /\ flags_of w' = flags_of w /\
             tiles (dir_of w') = tiles (dir_of w) /\
             others (dir_of w') = others (dir_of w) /\
             is_Some (tiles_dir w').
Proof. eexists. split; [reflexivity|]. simpl. split_and!; done. Qed.

(** X8. A run that resumes ([start_strip] is not 0) leaves every tile of the
    strips before [start_strip] as it found it, whatever is typed and
    however the run ends: it writes at the base level only, and there
    only in the rows [0 .. total - 1 - start_strip] of the strips it
    still has to do; the pyramid levels and the foreign files in the
    directory are not touched. *)
Theorem resumed_run_keeps_earlier_tiles start total results (w : world) keys :
  start <> 0 -> strips_per_height im_scale = Some total ->
  let out := run start results w keys in
  others (dir_of (world_of out)) = others (dir_of w) /\
  forall level col row,
    level <> max_level \/ row < 0 \/ total - start <= row ->
    tiles (dir_of (world_of out)) !! (level, col, row) = tiles (dir_of w) !! (level, col, row).
Proof.
  intros Hstart Htotal out. subst out. unfold run_strips.
  destruct (prepare_keeps_checkpoint start w keys) as (w1 & Hp & _ & _ & Hd1).
  specialize (Hd1 Hstart).
  destruct (make_level_dir_spec w1 keys) as (w2 & Hm & _ & _ & Ht2 & Ho2 & _).
  rewrite bind_unfold, Hp, Htotal, bind_unfold, Hm, bind_unfold.
  pose proof (strips_loop_files np_zeros assign_columns flip_vertical split_into_tiles
                im_scale max_level total results (seqZ start (total - start)) w2 keys)
    as (Ho & Htl & _).
  assert (Hd : dir_of w1 = dir_of w) by (unfold dir_of; by rewrite Hd1).
  assert (Hrows : forall level row,
            level <> max_level \/ row < 0 \/ total - start <= row ->
            level <> max_level \/
            forall s, s ∈ seqZ start (total - start) -> row <> total - 1 - s).
  { intros level row [?|Hrow]; [by left|right].
    intros s Hs%elem_of_seqZ. lia. }
  destruct (strips_loop _ _ _ _ _ _ _ _ _ _ _) as [a w3 keys3|w3|w3|w3]; simpl in *;
    (split; [by rewrite Ho, Ho2, Hd|]);
    intros level col row Hrow; rewrite Htl, Ht2, Hd; eauto.
Qed.

(** The strip phase writes the checkpoint only when it ends on a save:
    when the run goes on to the pyramid, is force-quit, hangs or breaks,
    the checkpoint is as it was before; and when the phase ends on a save,
    the checkpoint holds the record of one strip index [k] with
    [start_strip <= k <= total], written over whatever was there. *)
Lemma strip_phase_checkpoint start results (w : world) keys :
  let out := run start results w keys in
  ((forall w' keys', out <> Done SysExit w' keys') ->
   save_file (world_of out) = save_file w) /\
  (forall w' keys', out = Done SysExit w' keys' ->
   exists total k,
     strips_per_height im_scale = Some total /\ start <= k <= total /\
     save_file w' = save_progress (save_file w) im_scale k total /\
     current (save_file w') = Present true (json_dump (progress_data im_scale k total))).
Proof.
  intros out. subst out. unfold run_strips.
  destruct (prepare_keeps_checkpoint start w keys) as (w1 & Hp & Hs1 & _).
  destruct (make_level_dir_spec w1 keys) as (w2 & Hm & Hs2 & _).
  rewrite bind_unfold, Hp.
  destruct (strips_per_height im_scale) as [total|] eqn:Htotal.
  2:{ simpl. split; [done|]. intros ?? Hout. discriminate Hout. }
  rewrite bind_unfold, Hm, bind_unfold.
  pose proof (strips_loop_files np_zeros assign_columns flip_vertical split_into_tiles
                im_scale max_level total results (seqZ start (total - start)) w2 keys)
    as (_ & _ & _ & Hkeep & Hsave).
  destruct (strips_loop _ _ _ _ _ _ _ _ _ _ _) as [[|] w3 keys3|w3|w3|w3] eqn:Hloop;
    simpl in *.
  - split; [intros Hns; by destruct (Hns w3 keys3)|].
    intros w' keys' [= <- <-].
    destruct (Hsave w3 keys3 eq_refl) as (s & k & Hs%elem_of_seqZ & Hk & Hsf).
    exists total, k. split; [done|]. split; [lia|]. rewrite Hsf, Hs2, Hs1. done.
  - split; [|intros ?? Hout; discriminate Hout].
    intros _. rewrite Hkeep by (intros ??; discriminate). congruence.
  - split; [|intros ?? Hout; discriminate Hout].
    intros _. rewrite Hkeep by (intros ??; discriminate). congruence.
  - split; [|intros ?? Hout; discriminate Hout].
    intros _. rewrite Hkeep by (intros ??; discriminate). congruence.
  - split; [|intros ?? Hout; discriminate Hout].
    intros _. rewrite Hkeep by (intros ??; discriminate). congruence.
Qed.

End RunFacts.

(** The resumed run of the program at scale 1, from strip 5 of 30. *)
Lemma resumed_run_keeps_earlier_tiles_witness :
  5 <> 0 /\ strips_per_height 1 = Some 30 /\
  forall col,
    tiles (dir_of (world_of (bare_run 5 ready_world []))) !! (14, col, 25) =
    tiles (dir_of ready_world) !! (14, col, 25).
Proof.
  assert (H5 : 5 <> 0) by lia.
  assert (H30 : strips_per_height 1 = Some 30) by (vm_compute; reflexivity).
  split; [exact H5|]. split; [exact H30|]. intros col.
  apply (resumed_run_keeps_earlier_tiles (fun _ _ => ()) (fun buf _ _ _ => buf)
           (fun buf => buf) (fun _ _ => replicate 40%nat ()) 1 14 5 30 results_in_order
           ready_world [] H5 H30).
  right. right. lia.
Defined.

End StripRunFacts.

Module QuietRun.
Import Control Checkpoint Pipeline PipelineFacts StripRun StripRunFacts.

(** No batch of [keys] holds a pause, an exit or the interrupt. *)
Local Notation quiet keys := (Forall (Forall (fun ch => idle_key ch = true)) keys).

Lemma key_pressed_idle f ch :
  paused f <> 1 -> idle_key ch = true -> (key_pressed f ch).1 = Listening f.
Proof.
  intros Hp Hi. unfold idle_key in Hi.
  apply andb_prop in Hi as [Hi Hc]. apply andb_prop in Hi as [Hi He].
  apply negb_true_iff in Hi, He, Hc. unfold is_pause, is_exit, is_interrupt in *.
  unfold key_pressed. rewrite Hi, He, Hc.
  destruct (Z.eqb_spec (paused f) 1); [done|].
  by destruct (Ascii.eqb (lower ch) "s").
Qed.

Lemma input_listener_idle f batch :
  paused f <> 1 -> Forall (fun ch => idle_key ch = true) batch ->
  (input_listener f batch).1 = Listening f.
Proof.
  intros Hp Hb. induction Hb as [|ch batch Hch _ IH]; [done|].
  simpl. pose proof (key_pressed_idle f ch Hp Hch) as Hk.
  destruct (key_pressed f ch) as [l out]. simpl in Hk. subst l.
  destruct (input_listener f batch) as [l' out']. simpl in IH. by subst l'.
Qed.

Section Quiet.
Context {rgb_chunk strip_buffer tile : Type}.
Variable np_zeros : Z -> Z -> strip_buffer.
Variable assign_columns : strip_buffer -> Z -> Z -> rgb_chunk -> strip_buffer.
Variable flip_vertical : strip_buffer -> strip_buffer.
Variable split_into_tiles : strip_buffer -> Z -> list tile.
Variables (im_scale max_level : Z).
Local Notation "'world'" := (@world rgb_chunk tile).
Local Notation "'M'" := (@M rgb_chunk tile).

Lemma set_flags_same (w : world) : set_flags (flags_of w) w = w.
Proof. by destruct w. Qed.

Lemma listen_quiet (w : world) keys :
  paused (flags_of w) <> 1 -> quiet keys ->
  exists keys', listen w keys = Done () w keys' /\ quiet keys'.
Proof.
  intros Hp Hq. unfold listen. destruct Hq as [|batch keys Hb Hq]; [by exists []|].
  pose proof (input_listener_idle _ batch Hp Hb) as Hl.
  destruct (input_listener (flags_of w) batch) as [l out]. simpl in Hl. subst l.
  rewrite set_flags_same. by exists keys.
Qed.

Lemma wait_if_paused_quiet (w : world) keys :
  paused (flags_of w) <> 1 -> quiet keys ->
  exists keys', wait_if_paused w keys = Done false w keys' /\ quiet keys'.
Proof.
  intros Hp Hq. destruct (listen_quiet w keys Hp Hq) as (keys' & Hl & Hq').
  exists keys'. split; [|done]. unfold wait_if_paused.
  assert (Hb : (paused (flags_of w) =? 1) = false) by (by apply Z.eqb_neq).
  rewrite bind_unfold, Hl, bind_unfold. unfold get. rewrite Hb. cbn [andb].
  rewrite bind_unfold. unfold mret, M_ret.
  destruct keys'; simpl; by rewrite Hb.
Qed.

Lemma read_save_requested_quiet (w : world) keys :
  paused (flags_of w) <> 1 -> quiet keys ->
  exists keys', read_save_requested w keys = Done (save_requested (flags_of w)) w keys' /\
                quiet keys'.
Proof.
  intros Hp Hq. destruct (listen_quiet w keys Hp Hq) as (keys' & Hl & Hq').
  exists keys'. split; [|done]. unfold read_save_requested.
  by rewrite bind_unfold, Hl.
Qed.

Lemma np_save_quiet i c (w : world) keys d :
  tiles_dir w = Some d ->
  exists w', np_save i c w keys = Done () w' keys /\
    tiles_dir w' = Some (TilesDir (levels d) (tiles d) (<[i:=c]> (chunks d)) (others d)) /\
    flags_of w' = flags_of w /\ save_file w' = save_file w.
Proof.
  intros Hd. unfold np_save. rewrite bind_unfold. unfold get. rewrite Hd.
  rewrite bind_unfold. simpl. eexists. split; [reflexivity|]. done.
Qed.

Lemma chunk_loop_quiet total strip_idx n : forall results (w : world) keys d,
  tiles_dir w = Some d -> paused (flags_of w) <> 1 -> quiet keys ->
  (n <= length results)%nat ->
  exists w' keys',
    chunk_loop im_scale total strip_idx n results w keys = Done false w' keys' /\
    tiles_dir w' = Some (TilesDir (levels d) (tiles d)
                           (chunks_after (chunks d) (take n results)) (others d)) /\
    flags_of w' = flags_of w /\ save_file w' = save_file w /\ quiet keys'.
Proof.
  induction n as [|n IH]; intros results w keys d Hd Hp Hq Hn.
  { exists w, keys. simpl. destruct d. done. }
  destruct results as [|[i rgb] results]; [simpl in Hn; lia|].
  simpl. rewrite bind_unfold.
  destruct (np_save_quiet i rgb w keys d Hd) as (w1 & -> & Hd1 & Hf1 & Hs1).
  rewrite bind_unfold.
  destruct (wait_if_paused_quiet w1 keys ltac:(by rewrite Hf1) Hq) as (keys1 & -> & Hq1).
  destruct (IH results w1 keys1 _ Hd1 ltac:(by rewrite Hf1) Hq1 ltac:(simpl in Hn; lia))
    as (w2 & keys2 & -> & Hd2 & Hf2 & Hs2 & Hq2).
  exists w2, keys2. split; [done|]. simpl in Hd2. split_and!; try done; congruence.
Qed.

Lemma chunks_after_fresh (files : gmap Z rgb_chunk) results i :
  i ∉ results.*1 -> chunks_after files results !! i = files !! i.
Proof.
  revert files. induction results as [|[j c] results IH]; intros files Hi; [done|].
  simpl in *. apply not_elem_of_cons in Hi as [Hij Hi].
  unfold chunks_after in *. simpl. rewrite IH by done. by apply lookup_insert_ne.
Qed.

Lemma chunks_after_lookup (files : gmap Z rgb_chunk) results i c :
  NoDup results.*1 -> (i, c) ∈ results -> chunks_after files results !! i = Some c.
Proof.
  revert files. induction results as [|[j c'] results IH]; intros files Hnd Hin.
  { inversion Hin. }
  simpl in Hnd. apply NoDup_cons in Hnd as [Hj Hnd].
  apply elem_of_cons in Hin as [[= <- <-]|Hin].
  - unfold chunks_after. simpl. fold (chunks_after (<[i:=c]> files) results).
    rewrite chunks_after_fresh by done. apply lookup_insert_eq.
  - unfold chunks_after. simpl. by apply IH.
Qed.

Lemma indexed_fst (chunk_at : Z -> rgb_chunk) (l : list Z) :
  ((fun i => (i, chunk_at i)) <$> l).*1 = l.
Proof. induction l as [|i l IH]; [done|]. rewrite !fmap_cons, IH. done. Qed.

Lemma all_chunks_lookup chunk_at results (files : gmap Z rgb_chunk) i :
  all_chunks im_scale chunk_at results -> 0 <= i < nc im_scale ->
  chunks_after files (take (Z.to_nat (nc im_scale)) results) !! i = Some (chunk_at i).
Proof.
  intros Hall Hi. unfold all_chunks in Hall.
  assert (Hlen : length results = Z.to_nat (nc im_scale)).
  { rewrite Hall, length_fmap. unfold np_arange. by rewrite length_seqZ. }
  rewrite firstn_all2 by lia. apply chunks_after_lookup.
  - rewrite Hall. rewrite indexed_fst. apply NoDup_seqZ.
  - rewrite Hall. apply list_elem_of_fmap. exists i. split; [done|].
    apply elem_of_seqZ. lia.
Qed.

Lemma fold_load_exact (chunk_at : Z -> rgb_chunk) body_assign l :
  forall (buf : strip_buffer) (w : world) keys d,
  tiles_dir w = Some d ->
  (forall i, i ∈ l -> chunks d !! i = Some (chunk_at i)) ->
  fold_each l (fun buf i => chunk_mmap ← np_load i; mret (body_assign buf i chunk_mmap))
    buf w keys =
  Done (foldl (fun buf i => body_assign buf i (chunk_at i)) buf l) w keys.
Proof.
  induction l as [|i l IH]; intros buf w keys d Hd Hl; [done|].
  simpl. rewrite !bind_unfold. unfold np_load at 1. rewrite bind_unfold. unfold get.
  rewrite Hd. simpl. rewrite (Hl i) by (by left). simpl.
  apply (IH _ w keys d Hd). intros j Hj. apply Hl. by right.
Qed.

Lemma assemble_strip_exact total strip_idx chunk_at (w : world) keys d :
  tiles_dir w = Some d ->
  (forall i, 0 <= i < nc im_scale -> chunks d !! i = Some (chunk_at i)) ->
  let ts := split_into_tiles
              (flip_vertical (assembled np_zeros assign_columns im_scale strip_idx chunk_at))
              TILE_SIZE in
  exists w',
    assemble_strip np_zeros assign_columns flip_vertical split_into_tiles
      im_scale max_level total strip_idx w keys = Done () w' keys /\
    flags_of w' = flags_of w /\ save_file w' = save_file w /\
    is_Some (tiles_dir w') /\ no_chunk_files im_scale w' /\
    others (dir_of w') = others (dir_of w) /\
    (forall k t, ts !! k = Some t ->
       tiles (dir_of w') !! (max_level, Z.of_nat k, total - 1 - strip_idx) = Some t) /\
    (forall level col row, row <> total - 1 - strip_idx ->
       tiles (dir_of w') !! (level, col, row) = tiles (dir_of w) !! (level, col, row)).
Proof.
  intros Hd Hall ts. unfold assemble_strip. rewrite bind_unfold.
  rewrite (fold_load_exact chunk_at
             (fun buf i c => assign_columns buf
                (default 0 (getitem (ChunkGrid.bx (nx im_scale)) i))
                (default 0 (getitem (ChunkGrid.ex (nx im_scale)) i)) c)
             (np_arange (nc im_scale)) _ w keys d Hd).
  2:{ intros i Hi. apply Hall. unfold np_arange in Hi. apply elem_of_seqZ in Hi. lia. }
  fold (assembled np_zeros assign_columns im_scale strip_idx chunk_at).
  rewrite bind_unfold.
  destruct (save_tiles_spec max_level (total - 1 - strip_idx) ts 0 w keys)
    as (w1 & Heq & Ht1 & Hf1 & Hs1 & Hd1 & Hc1 & Ho1 & Hm1 & Hk1).
  simpl in Heq. fold ts. rewrite Heq.
  destruct (remove_chunks_spec im_scale w1 keys)
    as (w2 & removed & -> & Ht2 & Hf2 & Hs2 & Hno & Hn2 & Hd2).
  exists w2. split; [done|].
  destruct Hd1 as [d1 Hd1]; [by rewrite Hd|].
  destruct (Hd2 d1 Hd1) as (d2 & Hw2 & _ & Htl & Hot).
  assert (Hdt : tiles (dir_of w2) = tiles (dir_of w1)).
  { unfold dir_of. by rewrite Hw2, Hd1. }
  assert (Hdo : others (dir_of w2) = others (dir_of w1)).
  { unfold dir_of. by rewrite Hw2, Hd1. }
  split_and!.
  - congruence.
  - congruence.
  - by rewrite Hw2.
  - done.
  - congruence.
  - intros k t Hk. rewrite Hdt. apply (Hm1 k t Hk).
  - intros level col row Hrow. rewrite Hdt. apply Hk1.
    intros k _ [= _ _ ?]. done.
Qed.

(** One strip of a run nobody disturbs. *)
Lemma process_strip_quiet total strip_idx chunk_at results (w : world) keys :
  is_Some (tiles_dir w) ->
  paused (flags_of w) <> 1 -> save_requested (flags_of w) = 0 -> quiet keys ->
  all_chunks im_scale chunk_at results ->
  let ts := split_into_tiles
              (flip_vertical (assembled np_zeros assign_columns im_scale strip_idx chunk_at))
              TILE_SIZE in
  exists w' keys',
    process_strip np_zeros assign_columns flip_vertical split_into_tiles
      im_scale max_level total strip_idx results w keys = Done false w' keys' /\
    flags_of w' = flags_of w /\ save_file w' = save_file w /\ quiet keys' /\
    is_Some (tiles_dir w') /\ no_chunk_files im_scale w' /\
    others (dir_of w') = others (dir_of w) /\
    (forall k t, ts !! k = Some t ->
       tiles (dir_of w') !! (max_level, Z.of_nat k, total - 1 - strip_idx) = Some t) /\
    (forall level col row, row <> total - 1 - strip_idx ->
       tiles (dir_of w') !! (level, col, row) = tiles (dir_of w) !! (level, col, row)).
Proof.
  intros [d Hd] Hp Hs Hq Hall ts. unfold process_strip.
  assert (Hlen : length results = Z.to_nat (nc im_scale)).
  { unfold all_chunks in Hall. rewrite Hall, length_fmap. unfold np_arange.
    by rewrite length_seqZ. }
  destruct (chunk_loop_quiet total strip_idx (Z.to_nat (nc im_scale)) results w keys d
              Hd Hp Hq ltac:(lia)) as (w1 & keys1 & Hloop & Hd1 & Hf1 & Hs1 & Hq1).
  rewrite bind_unfold, Hloop.
  assert (Hp1 : paused (flags_of w1) <> 1) by (by rewrite Hf1).
  assert (Hr1 : save_requested (flags_of w1) = 0) by (by rewrite Hf1).
  destruct (read_save_requested_quiet w1 keys1 Hp1 Hq1) as (keys2 & Hrd2 & Hq2).
  rewrite bind_unfold, Hrd2, Hr1. simpl (0 =? 1). cbv iota.
  destruct (read_save_requested_quiet w1 keys2 Hp1 Hq2) as (keys3 & Hrd3 & Hq3).
  rewrite bind_unfold, Hrd3, Hr1. simpl (0 =? 0). cbv iota.
  destruct (emit_spec WorkersStopped w1 keys3) as (w3 & Hem & (Hs3 & Hd3 & _) & Hf3).
  rewrite bind_unfold, Hem.
  assert (Hp3 : paused (flags_of w3) <> 1) by (by rewrite Hf3).
  assert (Hr3 : save_requested (flags_of w3) = 0) by (by rewrite Hf3).
  destruct (read_save_requested_quiet w3 keys3 Hp3 Hq3) as (keys4 & Hrd4 & Hq4).
  rewrite bind_unfold, Hrd4, Hr3. simpl (0 =? 0). cbv iota.
  destruct (assemble_strip_exact total strip_idx chunk_at w3 keys4 _
              ltac:(rewrite Hd3; exact Hd1)) as (w4 & Hasm & Hf4 & Hs4 & Hd4 & Hno & Ho4 & Ht4 & Hk4).
  { intros i Hi. simpl. by apply all_chunks_lookup. }
  rewrite bind_unfold, Hasm.
  assert (Hp4 : paused (flags_of w4) <> 1) by (by rewrite Hf4).
  assert (Hr4 : save_requested (flags_of w4) = 0) by (by rewrite Hf4, Hr3).
  destruct (read_save_requested_quiet w4 keys4 Hp4 Hq4) as (keys5 & Hrd5 & Hq5).
  rewrite bind_unfold, Hrd5, Hr4. simpl (0 =? 1). cbv iota.
  destruct (wait_if_paused_quiet w4 keys5 Hp4 Hq5) as (keys6 & Hw & Hq6).
  rewrite bind_unfold, Hw. exists w4, keys6. split; [done|].
  assert (Hdir3 : dir_of w3 = dir_of w1) by (unfold dir_of; by rewrite Hd3).
  assert (Ht1 : tiles (dir_of w1) = tiles (dir_of w)).
  { unfold dir_of. by rewrite Hd1, Hd. }
  assert (Ho1 : others (dir_of w1) = others (dir_of w)).
  { unfold dir_of. by rewrite Hd1, Hd. }
  split_and!; try done; try congruence.
  intros level col row Hrow. rewrite Hk4 by done. by rewrite Hdir3, Ht1.
Qed.

Lemma strips_loop_quiet total chunk_at results strips : forall (w : world) keys,
  NoDup strips ->
  (forall s, s ∈ strips -> all_chunks im_scale (chunk_at s) (results s)) ->
  is_Some (tiles_dir w) ->
  paused (flags_of w) <> 1 -> save_requested (flags_of w) = 0 -> quiet keys ->
  exists w' keys',
    strips_loop np_zeros assign_columns flip_vertical split_into_tiles
      im_scale max_level total strips results w keys = Done false w' keys' /\
    flags_of w' = flags_of w /\ save_file w' = save_file w /\ quiet keys' /\
    is_Some (tiles_dir w') /\ (strips <> [] -> no_chunk_files im_scale w') /\
    others (dir_of w') = others (dir_of w) /\
    (forall s k t, s ∈ strips ->
       split_into_tiles
         (flip_vertical (assembled np_zeros assign_columns im_scale s (chunk_at s)))
         TILE_SIZE !! k = Some t ->
       tiles (dir_of w') !! (max_level, Z.of_nat k, total - 1 - s) = Some t) /\
    (forall level col row, (forall s, s ∈ strips -> row <> total - 1 - s) ->
       tiles (dir_of w') !! (level, col, row) = tiles (dir_of w) !! (level, col, row)).
Proof.
  induction strips as [|s strips IH]; intros w keys Hnd Hall Hd Hp Hs Hq.
  { exists w, keys. simpl. split_and!; try done. intros ??? Hin. inversion Hin. }
  apply NoDup_cons in Hnd as [Hs' Hnd].
  destruct (process_strip_quiet total s (chunk_at s) (results s) w keys Hd Hp Hs Hq)
    as (w1 & keys1 & Hstrip & Hf1 & Hs1 & Hq1 & Hd1 & Hno1 & Ho1 & Ht1 & Hk1).
  { apply Hall. by left. }
  destruct (IH w1 keys1 Hnd) as (w2 & keys2 & Hloop & Hf2 & Hs2 & Hq2 & Hd2 & Hno2 & Ho2 & Ht2 & Hk2);
    try done; try congruence.
  { intros s0 Hs0. apply Hall. by right. }
  exists w2, keys2. simpl. rewrite bind_unfold, Hstrip. split; [exact Hloop|].
  split_and!; try congruence; try done.
  - intros _. destruct strips as [|s1 strips]; [|by apply Hno2].
    simpl in Hloop. by injection Hloop as <- <-.
  - intros s0 k t Hin Hk. apply elem_of_cons in Hin as [->|Hin]; [|by apply Ht2].
    rewrite Hk2; [by apply Ht1|]. intros s1 Hs1' Heq.
    assert (s1 = s) as -> by lia. done.
  - intros level col row Hrow. rewrite Hk2, Hk1; [done| |].
    + apply Hrow. by left.
    + intros s1 Hin. apply Hrow. by right.
Qed.

(** The strip phase of a run that nobody disturbs. *)
Lemma run_strips_quiet start total chunk_at results (w : world) keys :
  strips_per_height im_scale = Some total ->
  paused (flags_of w) <> 1 -> save_requested (flags_of w) = 0 -> quiet keys ->
  (forall s, start <= s < total -> all_chunks im_scale (chunk_at s) (results s)) ->
  exists w' keys',
    run_strips np_zeros assign_columns flip_vertical split_into_tiles
      im_scale max_level start results w keys = Done PyramidPhase w' keys' /\
    save_file w' = save_file w /\ flags_of w' = flags_of w /\
    quiet keys' /\ is_Some (tiles_dir w') /\
    (start < total -> no_chunk_files im_scale w') /\
    forall s k t, start <= s < total ->
      split_into_tiles
        (flip_vertical (assembled np_zeros assign_columns im_scale s (chunk_at s)))
        TILE_SIZE !! k = Some t ->
      tiles (dir_of w') !! (max_level, Z.of_nat k, total - 1 - s) = Some t.
Proof.
  intros Htotal Hp Hs Hq Hall. unfold run_strips.
  destruct (prepare_keeps_checkpoint start w keys) as (w1 & Hprep & Hs1 & Hf1 & _).
  destruct (make_level_dir_spec max_level w1 keys) as (w2 & Hm & Hs2 & Hf2 & _ & _ & Hd2).
  rewrite bind_unfold, Hprep, Htotal, bind_unfold, Hm, bind_unfold.
  destruct (strips_loop_quiet total chunk_at results (seqZ start (total - start)) w2 keys)
    as (w3 & keys3 & Hloop & Hf3 & Hs3 & Hq3 & Hd3 & Hno3 & _ & Ht3 & _);
    try done; try congruence.
  { apply NoDup_seqZ. }
  { intros s Hin%elem_of_seqZ. apply Hall. lia. }
  rewrite Hloop. exists w3, keys3. split; [done|]. split_and!; try congruence; try done.
  - intros Hlt. apply Hno3. intros Hnil.
    assert (Hlen : length (seqZ start (total - start)) = 0%nat) by (by rewrite Hnil).
    rewrite length_seqZ in Hlen. lia.
  - intros s k t Hin Hk. apply Ht3; [|done]. apply elem_of_seqZ. lia.
Qed.

End Quiet.

End QuietRun.

Module LateSave.
Import Control Checkpoint Pipeline PipelineFacts StripRun StripRunFacts.

Section Late.
Context {rgb_chunk strip_buffer tile : Type}.
Variable np_zeros : Z -> Z -> strip_buffer.
Variable assign_columns : strip_buffer -> Z -> Z -> rgb_chunk -> strip_buffer.
Variable flip_vertical : strip_buffer -> strip_buffer.
Variable split_into_tiles : strip_buffer -> Z -> list tile.
Variables (im_scale max_level : Z).
Local Notation "'world'" := (@world rgb_chunk tile).
Local Notation "'M'" := (@M rgb_chunk tile).

Lemma chunk_loop_keeps_tiles total strip_idx n results (w w1 : world) keys keys1 :
  chunk_loop im_scale total strip_idx n results w keys = Done false w1 keys1 ->
  tiles (dir_of w1) = tiles (dir_of w) /\ save_file w1 = save_file w.
Proof.
  intros Hloop.
  destruct (steady_chunk_loop im_scale total strip_idx n results w keys)
    as (evs & Htr & Hsf & _ & Htl & _).
  destruct (chunk_loop_spec im_scale total strip_idx n results w keys) as (evs' & Htr' & Hev).
  cbv zeta in Htr', Hev. rewrite Hloop in Htr, Hsf, Htl, Htr', Hev. simpl in *.
  assert (evs' = evs) as -> by (rewrite Htr in Htr'; by apply app_inv_head in Htr').
  destruct Hev as [_ Hev].
  assert (Hno : forall e, e ∈ evs -> is_file_event e = true -> exists i, e = ChunkSaved i).
  { intros e He Hf. assert (Hin : e ∈ file_events evs) by (by apply elem_of_file_events).
    rewrite Hev in Hin. apply list_elem_of_fmap in Hin as (i & -> & _). by exists i. }
  split.
  - apply map_eq. intros [[l c] r]. apply Htl. intros Hin.
    destruct (Hno _ Hin eq_refl) as (i & Hi). discriminate Hi.
  - rewrite Hsf. apply replay_no_save. intros k Hin.
    destruct (Hno _ Hin eq_refl) as (i & Hi). discriminate Hi.
Qed.

(** X9. A save request that is not yet there when line 456 looks at the flag
    but is there when line 505 does (it came while the workers were being
    joined) makes the strip be skipped: nothing is assembled, no tile of
    the strip is written, its chunk files stay, no checkpoint is written,
    and the loop goes on to the next strip with the request still
    pending. *)
Theorem late_save_request_skips_strip total strip_idx results
    (w w1 w2 w3 w4 : world) keys keys1 keys2 keys3 keys4 r2 r :
  chunk_loop im_scale total strip_idx (Z.to_nat (nc im_scale)) results w keys =
    Done false w1 keys1 ->
  read_save_requested w1 keys1 = Done 0 w2 keys2 ->                    (* line 456 *)
  read_save_requested w2 keys2 = Done r2 w3 keys3 ->                   (* line 498 *)
  read_save_requested
    (if r2 =? 0
     then World (flags_of w3) (save_file w3) (tiles_dir w3) (trace w3 ++ [WorkersStopped])
     else w3) keys3 = Done r w4 keys4 ->                               (* line 505 *)
  r <> 0 ->
  process_strip np_zeros assign_columns flip_vertical split_into_tiles
    im_scale max_level total strip_idx results w keys = Done false w4 keys4 /\
  tiles (dir_of w4) = tiles (dir_of w) /\
  save_file w4 = save_file w /\
  save_requested (flags_of w4) = r /\
  forall i, i ∈ (take (Z.to_nat (nc im_scale)) results).*1 ->
            is_Some (chunks (dir_of w4) !! i).
Proof.
  intros Hloop H456 H498 H505 Hr.
  destruct (chunk_loop_keeps_tiles _ _ _ _ _ _ _ _ Hloop) as [Ht1 Hs1].
  set (w3' := if r2 =? 0
              then World (flags_of w3) (save_file w3) (tiles_dir w3)
                         (trace w3 ++ [WorkersStopped])
              else w3) in *.
  assert (Hsame : forall (u v : world) ks ks' a,
            read_save_requested u ks = Done a v ks' ->
            save_file v = save_file u /\ tiles_dir v = tiles_dir u /\
            a = save_requested (flags_of v)).
  { intros u v ks ks' a Hu.
    destruct (read_save_requested_spec u ks) as [Hk|(v' & ks2 & Hv & Hs & Hd & _)];
      rewrite Hu in *; [discriminate Hk|]. injection Hv as -> <- <-. done. }
  destruct (Hsame _ _ _ _ _ H456) as (Hs2 & Hd2 & _).
  destruct (Hsame _ _ _ _ _ H498) as (Hs3 & Hd3 & _).
  destruct (Hsame _ _ _ _ _ H505) as (Hs4 & Hd4 & Hr4).
  assert (Hs3' : save_file w3' = save_file w3 /\ tiles_dir w3' = tiles_dir w3).
  { unfold w3'. by destruct (r2 =? 0). }
  destruct Hs3' as [Hs3' Hd3'].
  assert (Hdir : dir_of w4 = dir_of w1).
  { unfold dir_of. by rewrite Hd4, Hd3', Hd3, Hd2. }
  split_and!.
  - unfold process_strip. rewrite bind_unfold, Hloop, bind_unfold, H456.
    simpl (0 =? 1). cbv iota. rewrite bind_unfold, H498, bind_unfold.
    assert (Hstep : (if r2 =? 0 then emit WorkersStopped else mret ()) w3 keys3 =
                    Done () w3' keys3).
    { unfold w3'. by destruct (r2 =? 0). }
    rewrite Hstep, bind_unfold, H505.
    destruct (Z.eqb_spec r 0); [done|]. done.
  - by rewrite Hdir.
  - congruence.
  - done.
  - intros i Hi. rewrite Hdir.
    apply (chunk_loop_keeps_chunks _ _ _ _ _ _ _ _ _ i Hloop). by right.
Qed.
End Late.

(** The program at scale 1, first strip: nothing is typed until the
    workers are joined, then [p] and [s] before line 505 looks. The strip
    is skipped; the next strip gives up at its first chunk and saves, so
    the checkpoint resumes from strip 1 while no tile of strip 0 exists. *)
Lemma late_save_request_skips_strip_witness :
  let keys := replicate 162 [] ++ [["p"; "s"]%char] in
  (exists w4, bare_strip 30 0 ready_world keys = Done false w4 [] /\
              tiles (dir_of w4) = ∅ /\ flags_of w4 = Flags 1 0 1) /\
  exists w',
    strips_loop (fun _ _ => ()) (fun buf _ _ _ => buf) (fun buf => buf)
      (fun _ _ => replicate 40 ()) 1 14 30 [0; 1] results_in_order ready_world keys =
      Done true w' [] /\
    current (save_file w') = Present true (json_dump (progress_data 1 1 30)) /\
    tiles (dir_of w') = ∅.
Proof.
  intros keys. split.
  - eexists. 
    refine ((fun H => conj (proj1 H) (conj (proj1 (proj2 H)) _))
              (late_save_request_skips_strip (fun _ _ => ()) (fun buf _ _ _ => buf)
                 (fun buf => buf) (fun _ _ => replicate 40 ()) 1 14 30 0
                 (results_in_order 0) ready_world _ _ _ _ keys _ _ _ _ 0 1 _ _ _ _ _)).
    all: try (vm_compute; reflexivity).
    + reflexivity.
    + lia.
  - eexists. split; [vm_compute; reflexivity|]. split; vm_compute; reflexivity.
Defined.

End LateSave.

Module PyramidBuildFacts.
Import Float64 Float64Facts Pyramid PyramidFacts Pipeline PyramidBuild.

Lemma cdiv_cdiv a b c : 0 < b -> 0 < c -> cdiv (cdiv a b) c = cdiv a (b * c).
Proof.
  intros Hb Hc. rewrite <- !neg_div_ceil by lia.
  rewrite Z.opp_involutive, Z.div_div by lia. done.
Qed.

Lemma cdiv_bounds a b : 0 < b -> 1 <= a -> 1 <= cdiv a b <= a.
Proof.
  intros Hb Ha. split; [by apply cdiv_pos|].
  unfold cdiv. apply Z.div_le_upper_bound; [done|]. nia.
Qed.

(** [int(math.ceil(a / 256))] is the ceiling quotient. *)
Lemma tiles_across_exact a : 1 <= a <= 2 ^ 53 -> tiles_across a = Some (cdiv a 256).
Proof.
  intros Ha. unfold tiles_across, TILE_SIZE, int_truediv.
  change (256 =? 0) with false. change (0 <? 256) with true. cbv iota.
  pose proof one_units_pos as H1.
  assert (Hone : one_units = 2 ^ (unit_exp - 8) * 256) by reflexivity.
  assert (Hp : 0 < 2 ^ (unit_exp - 8)) by reflexivity.
  assert (Hof : 2 ^ 53 * one_units < overflow_units) by reflexivity.
  assert (Hr : round_units (a * one_units) 256 = a * 2 ^ (unit_exp - 8)).
  { rewrite Hone, Z.mul_assoc.
    apply round_units_exact; [done|nia|]. apply on_grid_shift; [lia|done]. }
  rewrite Hr.
  destruct (Z.ltb_spec (Z.abs (a * 2 ^ (unit_exp - 8))) overflow_units) as [_|Hbad].
  2:{ rewrite Z.abs_eq in Hbad by nia.
      assert (2 ^ (unit_exp - 8) <= one_units) by nia. nia. }
  simpl. f_equal. rewrite Hone.
  replace (- (a * 2 ^ (unit_exp - 8))) with (2 ^ (unit_exp - 8) * - a) by lia.
  rewrite Z.div_mul_cancel_l by lia. by apply neg_div_ceil.
Qed.

Lemma level_grid_exact nx ny level max_level :
  1 <= nx <= 2 ^ 53 -> 1 <= ny <= 2 ^ 53 -> 0 <= level <= max_level ->
  level_grid nx ny level max_level =
    Some (cdiv nx (2 ^ (max_level - level) * 256), cdiv ny (2 ^ (max_level - level) * 256)).
Proof.
  intros Hx Hy Hl. unfold level_grid, get_level_dimensions, int_pow2.
  destruct (Z.ltb_spec (max_level - level) 0); [lia|]. simpl.
  assert (Hp : 0 < 2 ^ (max_level - level)) by (apply Z.pow_pos_nonneg; lia).
  rewrite !level_extent_pow2 by lia. simpl.
  pose proof (cdiv_bounds nx _ Hp ltac:(lia)).
  pose proof (cdiv_bounds ny _ Hp ltac:(lia)).
  rewrite !tiles_across_exact by lia. simpl.
  by rewrite !cdiv_cdiv by lia.
Qed.

Lemma elem_of_tiles_to_process level w h l c r :
  (l, c, r) ∈ tiles_to_process level w h <-> l = level /\ 0 <= c < w /\ 0 <= r < h.
Proof.
  unfold tiles_to_process. rewrite list_elem_of_bind. split.
  - intros (r' & Hin & Hr'). apply list_elem_of_fmap in Hin as (c' & [= -> -> ->] & Hc').
    apply elem_of_seqZ in Hr', Hc'. lia.
  - intros (-> & Hc & Hr). exists r. split; [|apply elem_of_seqZ; lia].
    apply list_elem_of_fmap. exists c. split; [done|]. apply elem_of_seqZ. lia.
Qed.

Lemma strips_per_height_program im_scale :
  1 <= im_scale -> nx im_scale <= 2 ^ 53 -> strips_per_height im_scale = Some (30 * im_scale).
Proof.
  intros Hs Hx. unfold nx in Hx.
  change (strips_per_height im_scale) with (tiles_across (im_scale * 7680)).
  rewrite tiles_across_exact by lia. f_equal. unfold cdiv.
  replace (im_scale * 7680 + 256 - 1) with (255 + 30 * im_scale * 256) by lia.
  rewrite Z.div_add by lia. done.
Qed.

Lemma program_grid im_scale level max_level :
  1 <= im_scale -> nx im_scale <= 2 ^ 53 -> 0 <= level <= max_level ->
  level_grid (nx im_scale) (ny im_scale) level max_level =
    Some (cdiv (40 * im_scale) (2 ^ (max_level - level)),
          cdiv (30 * im_scale) (2 ^ (max_level - level))) /\
  level_grid (nx im_scale) (ny im_scale) max_level max_level =
    Some (40 * im_scale, 30 * im_scale) /\
  strips_per_height im_scale = Some (30 * im_scale).
Proof.
  intros Hs Hx Hl. unfold nx, ny in *.
  assert (Hp : 0 < 2 ^ (max_level - level)) by (apply Z.pow_pos_nonneg; lia).
  assert (H40 : cdiv (im_scale * 10240) 256 = 40 * im_scale).
  { unfold cdiv. replace (im_scale * 10240 + 256 - 1) with (255 + 40 * im_scale * 256) by lia.
    rewrite Z.div_add by lia. done. }
  assert (H30 : cdiv (im_scale * 7680) 256 = 30 * im_scale).
  { unfold cdiv. replace (im_scale * 7680 + 256 - 1) with (255 + 30 * im_scale * 256) by lia.
    rewrite Z.div_add by lia. done. }
  split_and!.
  - rewrite level_grid_exact by lia.
    rewrite (Z.mul_comm _ 256), <- !cdiv_cdiv by lia. by rewrite H40, H30.
  - rewrite level_grid_exact by lia. rewrite Z.sub_diag.
    change (2 ^ 0 * 256) with 256. by rewrite H40, H30.
  - change (strips_per_height im_scale) with (tiles_across (im_scale * 7680)).
    rewrite tiles_across_exact by lia. by rewrite H30.
Qed.

(** X10. The number of tiles of every level of the program's image, in closed
    form: [ceil(40 s / 2^k)] by [ceil(30 s / 2^k)] at [k] levels below the
    base; the base level has as many rows as the strip phase has strips. *)
Theorem program_level_grids im_scale level max_level :
  1 <= im_scale -> nx im_scale <= 2 ^ 53 -> 0 <= level <= max_level ->
  level_grid (nx im_scale) (ny im_scale) level max_level =
    Some (cdiv (40 * im_scale) (2 ^ (max_level - level)),
          cdiv (30 * im_scale) (2 ^ (max_level - level))) /\
  level_grid (nx im_scale) (ny im_scale) max_level max_level =
    Some (40 * im_scale, 30 * im_scale) /\
  strips_per_height im_scale = Some (30 * im_scale).
Proof. apply program_grid. Qed.

Lemma program_level_grids_witness :
  1 <= 1 /\ nx 1 <= 2 ^ 53 /\ 0 <= 12 <= 14 /\
  level_grid (nx 1) (ny 1) 12 14 = Some (10, 8).
Proof.
  split; [lia|]. split; [vm_compute; discriminate|]. split; [lia|].
  apply (program_level_grids 1 12 14); [lia|vm_compute; discriminate|lia].
Defined.

(** X11. From one level to the next the tile grid halves, rounding up, and
    every tile of the grid of level [level + 1] is read by exactly one
    task of level [level]: the one at half its column and half its row,
    which is on that level's work list. *)
Theorem every_tile_has_one_reader nx ny level max_level :
  1 <= nx <= 2 ^ 53 -> 1 <= ny <= 2 ^ 53 -> 0 <= level < max_level ->
  exists w h w' h',
    level_grid nx ny level max_level = Some (w, h) /\
    level_grid nx ny (level + 1) max_level = Some (w', h') /\
    w = ceil_half w' /\ h = ceil_half h' /\
    forall c' r', 0 <= c' < w' -> 0 <= r' < h' ->
      (level, c' / 2, r' / 2) ∈ tiles_to_process level w h /\
      forall c r dx dy,
        (level, c, r) ∈ tiles_to_process level w h ->
        0 <= dx <= 1 -> 0 <= dy <= 1 ->
        (c * 2 + dx = c' /\ r * 2 + dy = r') <->
        (c = c' / 2 /\ r = r' / 2 /\ dx = c' mod 2 /\ dy = r' mod 2).
Proof.
  intros Hx Hy Hl.
  assert (Hp : 0 < 2 ^ (max_level - (level + 1))) by (apply Z.pow_pos_nonneg; lia).
  assert (Hk : 2 ^ (max_level - level) = 2 * 2 ^ (max_level - (level + 1))).
  { rewrite <- Z.pow_succ_r by lia. f_equal. lia. }
  eexists _, _, _, _. split; [apply level_grid_exact; lia|].
  split; [apply level_grid_exact; lia|].
  set (p := 2 ^ (max_level - (level + 1)) * 256).
  assert (Hw : cdiv nx (2 ^ (max_level - level) * 256) = ceil_half (cdiv nx p)).
  { rewrite cdiv_half by lia. unfold p. f_equal. lia. }
  assert (Hh : cdiv ny (2 ^ (max_level - level) * 256) = ceil_half (cdiv ny p)).
  { rewrite cdiv_half by lia. unfold p. f_equal. lia. }
  split; [done|]. split; [done|].
  intros c' r' Hc' Hr'. rewrite Hw, Hh. unfold ceil_half. split.
  - apply elem_of_tiles_to_process. split; [done|].
    pose proof (Z.div_mod c' 2 ltac:(lia)). pose proof (Z.mod_pos_bound c' 2 ltac:(lia)).
    pose proof (Z.div_mod r' 2 ltac:(lia)). pose proof (Z.mod_pos_bound r' 2 ltac:(lia)).
    pose proof (Z.div_mod (cdiv nx p + 1) 2 ltac:(lia)).
    pose proof (Z.mod_pos_bound (cdiv nx p + 1) 2 ltac:(lia)).
    pose proof (Z.div_mod (cdiv ny p + 1) 2 ltac:(lia)).
    pose proof (Z.mod_pos_bound (cdiv ny p + 1) 2 ltac:(lia)).
    lia.
  - intros c r dx dy _ Hdx Hdy.
    pose proof (Z.div_mod c' 2 ltac:(lia)). pose proof (Z.mod_pos_bound c' 2 ltac:(lia)).
    pose proof (Z.div_mod r' 2 ltac:(lia)). pose proof (Z.mod_pos_bound r' 2 ltac:(lia)).
    lia.
Qed.

Lemma every_tile_has_one_reader_witness :
  1 <= 10240 <= 2 ^ 53 /\ 1 <= 7680 <= 2 ^ 53 /\ 0 <= 13 < 14 /\
  exists w h w' h',
    level_grid 10240 7680 13 14 = Some (w, h) /\
    level_grid 10240 7680 (13 + 1) 14 = Some (w', h') /\
    w = ceil_half w' /\ h = ceil_half h'.
Proof.
  split; [lia|]. split; [lia|]. split; [lia|].
  destruct (every_tile_has_one_reader 10240 7680 13 14) as (w & h & w' & h' & H1 & H2 & H3 & H4 & _);
    [lia|lia|lia|].
  exists w, h, w', h'. split; [exact H1|]. split; [exact H2|]. split; [exact H3|exact H4].
Defined.

(** X12. When [2^max_level] is at least the width and the height, as line 384
    means it to be, level 0 is the single tile [0_0]. *)
Theorem top_level_is_one_tile nx ny max_level :
  1 <= nx <= 2 ^ 53 -> 1 <= ny <= 2 ^ 53 -> 0 <= max_level ->
  nx <= 2 ^ max_level -> ny <= 2 ^ max_level ->
  level_grid nx ny 0 max_level = Some (1, 1) /\
  tiles_to_process 0 1 1 = [(0, 0, 0)].
Proof.
  intros Hx Hy Hm Hxm Hym. split; [|reflexivity].
  rewrite level_grid_exact by lia. rewrite Z.sub_0_r.
  rewrite !cdiv_small by lia. done.
Qed.

Lemma top_level_is_one_tile_witness :
  1 <= 10240 <= 2 ^ 53 /\ 1 <= 7680 <= 2 ^ 53 /\ 0 <= 14 /\
  10240 <= 2 ^ 14 /\ 7680 <= 2 ^ 14 /\
  level_grid 10240 7680 0 14 = Some (1, 1).
Proof.
  split; [lia|]. split; [lia|]. split; [lia|]. split; [lia|]. split; [lia|].
  apply (top_level_is_one_tile 10240 7680 14); lia.
Defined.

Section BuildFacts.
Context {rgb_chunk tile combined : Type}.
Variable np_zeros : combined.
Variable paste : combined -> Z -> Z -> tile -> combined.
Variable downsample_tile : combined -> tile.
Local Notation "'tiles_directory'" := (@tiles_directory rgb_chunk tile).
Local Notation source_array := (combined_of np_zeros paste).
Local Notation pool := (imap_unordered np_zeros paste downsample_tile).

(** The working array of a task depends on the files of its source level
    only. *)
Lemma combined_of_ext (files1 files2 : gmap (Z * Z * Z) tile) source_level c r :
  (forall c' r', files1 !! (source_level, c', r') = files2 !! (source_level, c', r')) ->
  source_array files1 source_level c r = source_array files2 source_level c r.
Proof. intros Heq. unfold combined_of. cbn [foldl]. by rewrite 4!Heq. Qed.

Lemma imap_unordered_spec level order : forall (d : tiles_directory),
  (forall t, t ∈ order -> t.1.1 = level) ->
  let d' := pool d order in
  chunks d' = chunks d /\ others d' = others d /\
  levels d' = (if order is [] then levels d else {[level]} ∪ levels d) /\
  forall l c r,
    tiles d' !! (l, c, r) =
      if decide ((l, c, r) ∈ order)
      then Some (downsample_tile (source_array (tiles d) (level + 1) c r))
      else tiles d !! (l, c, r).
Proof.
  induction order as [|[[l0 c0] r0] order IH]; intros d Hlev.
  { simpl. split_and!; done. }
  assert (l0 = level) as -> by (apply (Hlev (l0, c0, r0)); by left).
  set (d1 := downsample_tile_worker np_zeros paste downsample_tile d level c0 r0 (level + 1)).
  destruct (IH d1) as (Hc & Ho & Hl & Ht).
  { intros t Ht. apply Hlev. by right. }
  assert (Hsrc : forall c r, source_array (tiles d1) (level + 1) c r =
                             source_array (tiles d) (level + 1) c r).
  { intros c r. apply combined_of_ext. intros c' r'. unfold d1. simpl.
    apply lookup_insert_ne. intros [= ? _ _]. lia. }
  change (pool d ((level, c0, r0) :: order)) with (pool d1 order).
  cbv zeta. split_and!.
  - by rewrite Hc.
  - by rewrite Ho.
  - rewrite Hl. destruct order; [done|]. unfold d1. simpl. set_solver.
  - intros l c r. rewrite Ht, Hsrc.
    destruct (decide ((l, c, r) ∈ order)) as [Hin|Hnin].
    + rewrite decide_True by (by right). done.
    + destruct (decide ((l, c, r) = (level, c0, r0))) as [[= -> -> ->]|Hne].
      * rewrite decide_True by (by left). unfold d1. simpl. apply lookup_insert_eq.
      * rewrite decide_False.
        2:{ intros Hin. apply elem_of_cons in Hin as [?|?]; done. }
        unfold d1. simpl. by apply lookup_insert_ne.
Qed.

(** X13. The workers of one level do not get in each other's way: whatever the
    order in which the pool finishes the tasks of a level, each task's
    tile is the downsampled array of the source tiles as they were before
    the level was begun, nothing else is written, and two orders of the
    same tasks leave the same directory. *)
Theorem workers_of_a_level_do_not_interfere level order (d : tiles_directory) :
  (forall t, t ∈ order -> t.1.1 = level) ->
  (forall l c r,
     tiles (pool d order) !! (l, c, r) =
       if decide ((l, c, r) ∈ order)
       then Some (downsample_tile (source_array (tiles d) (level + 1) c r))
       else tiles d !! (l, c, r)) /\
  chunks (pool d order) = chunks d /\
  others (pool d order) = others d /\
  forall order', order' ≡ₚ order -> pool d order' = pool d order.
Proof.
  intros Hlev. destruct (imap_unordered_spec level order d Hlev) as (Hc & Ho & Hl & Ht).
  split; [done|]. split; [done|]. split; [done|].
  intros order' Hperm.
  destruct (imap_unordered_spec level order' d) as (Hc' & Ho' & Hl' & Ht').
  { intros t Hin. apply Hlev. by rewrite <- Hperm. }
  destruct (pool d order') as [l1 t1 c1 o1], (pool d order) as [l2 t2 c2 o2].
  simpl in *. f_equal; try congruence.
  - rewrite Hl, Hl'. destruct order' as [|t' order'], order as [|t order]; try done.
    + by apply Permutation_nil_cons in Hperm.
    + symmetry in Hperm. by apply Permutation_nil_cons in Hperm.
  - apply map_eq. intros [[l c] r]. rewrite Ht, Ht'.
    destruct (decide ((l, c, r) ∈ order)) as [Hin|Hnin].
    + rewrite decide_True by (by rewrite Hperm). done.
    + rewrite decide_False by (by rewrite Hperm). done.
Qed.

End BuildFacts.

Lemma workers_of_a_level_do_not_interfere_witness :
  let d : tiles_directory (rgb_chunk:=()) (tile:=Z) :=
    TilesDir ∅ {[(4, 0, 0) := 7; (4, 1, 0) := 9]} ∅ ∅ in
  let paste := fun (combined : list Z) (y x : Z) (t : Z) => combined ++ [t] in
  let order := [(3, 0, 0); (3, 1, 0)] in
  (forall t, t ∈ order -> t.1.1 = 3) /\
  imap_unordered [] paste (foldr Z.add 0) d (reverse order) =
  imap_unordered [] paste (foldr Z.add 0) d order.
Proof.
  intros d paste order.
  assert (Hlev : forall t, t ∈ order -> t.1.1 = 3).
  { intros t Ht. unfold order in Ht. set_solver. }
  split; [exact Hlev|].
  apply (workers_of_a_level_do_not_interfere [] paste (foldr Z.add 0) 3 order d Hlev).
  apply reverse_Permutation.
Defined.

Section PyramidFiles.
Context {rgb_chunk tile combined : Type}.
Variable np_zeros : combined.
Variable paste : combined -> Z -> Z -> tile -> combined.
Variable downsample_tile : combined -> tile.
Variables (nx ny max_level : Z).
Variable finished : list (Z * Z * Z) -> list (Z * Z * Z).
Hypothesis nx_fits : 1 <= nx <= 2 ^ 53.
Hypothesis ny_fits : 1 <= ny <= 2 ^ 53.
Hypothesis finished_all : forall l, finished l ≡ₚ l.
Local Notation "'tiles_directory'" := (@tiles_directory rgb_chunk tile).
Local Notation source_array := (combined_of np_zeros paste).
Local Notation level_step :=
  (build_level np_zeros paste downsample_tile nx ny max_level finished).

Lemma build_level_spec (d : tiles_directory) level w h :
  0 <= level <= max_level -> level_grid nx ny level max_level = Some (w, h) ->
  exists d', level_step d level = Some d' /\
    chunks d' = chunks d /\ others d' = others d /\
    forall l c r,
      tiles d' !! (l, c, r) =
        if decide ((l, c, r) ∈ tiles_to_process level w h)
        then Some (downsample_tile (source_array (tiles d) (level + 1) c r))
        else tiles d !! (l, c, r).
Proof.
  intros Hl Hgrid. unfold build_level. rewrite Hgrid. simpl.
  eexists. split; [reflexivity|].
  match goal with |- context [imap_unordered _ _ _ ?d0 ?order] =>
    destruct (imap_unordered_spec np_zeros paste downsample_tile level order d0)
      as (Hc & Ho & _ & Ht)
  end.
  { intros [[l c] r] Hin. rewrite finished_all in Hin.
    apply elem_of_tiles_to_process in Hin. simpl. tauto. }
  split; [done|]. split; [done|]. intros l c r. rewrite Ht. simpl.
  destruct (decide ((l, c, r) ∈ tiles_to_process level w h)) as [Hin|Hnin].
  - rewrite decide_True by (by rewrite finished_all). done.
  - rewrite decide_False by (by rewrite finished_all). done.
Qed.

Lemma build_levels_spec (n : nat) : forall (d : tiles_directory),
  Z.of_nat n <= max_level ->
  exists d',
    foldl (fun d level => d ← d; level_step d level) (Some d)
          (reverse (seqZ 0 (Z.of_nat n))) = Some d' /\
    chunks d' = chunks d /\ others d' = others d /\
    (forall l c r, l < 0 \/ Z.of_nat n <= l ->
       tiles d' !! (l, c, r) = tiles d !! (l, c, r)) /\
    (forall level w h c r,
       0 <= level < Z.of_nat n -> level_grid nx ny level max_level = Some (w, h) ->
       tiles d' !! (level, c, r) =
         if decide ((level, c, r) ∈ tiles_to_process level w h)
         then Some (downsample_tile (source_array (tiles d') (level + 1) c r))
         else tiles d !! (level, c, r)).
Proof.
  induction n as [|n IH]; intros d Hn.
  { exists d. simpl. split_and!; try done. intros; lia. }
  replace (Z.of_nat (S n)) with (Z.of_nat n + 1) by lia.
  rewrite seqZ_app by lia. rewrite reverse_app, Z.add_0_l.
  change (seqZ (Z.of_nat n) 1) with [Z.of_nat 0 + Z.of_nat n].
  change (Z.of_nat 0) with 0. rewrite Z.add_0_l, reverse_singleton.
  cbn [app foldl mbind option_bind].
  assert (Hgrid := level_grid_exact nx ny (Z.of_nat n) max_level nx_fits ny_fits ltac:(lia)).
  destruct (build_level_spec d (Z.of_nat n) _ _ ltac:(lia) Hgrid) as (d1 & Hd1 & Hc1 & Ho1 & Ht1).
  rewrite Hd1.
  destruct (IH d1 ltac:(lia)) as (d' & Hd' & Hc' & Ho' & Hframe & Hlow).
  exists d'. split; [exact Hd'|]. split; [congruence|]. split; [congruence|].
  assert (Hother : forall l c r, l <> Z.of_nat n -> tiles d1 !! (l, c, r) = tiles d !! (l, c, r)).
  { intros l c r Hne. rewrite Ht1. rewrite decide_False; [done|].
    intros Hin%elem_of_tiles_to_process. lia. }
  split.
  - intros l c r Hl. rewrite Hframe by lia. apply Hother. lia.
  - intros level w h c r Hlev Hg.
    destruct (decide (level = Z.of_nat n)) as [->|Hne].
    + rewrite Hg in Hgrid. injection Hgrid as -> ->.
      rewrite Hframe by lia. rewrite Ht1.
      destruct (decide _); [|done]. do 2 f_equal.
      apply combined_of_ext. intros c' r'.
      rewrite Hframe by lia. symmetry. apply Hother. lia.
    + rewrite (Hlow level w h c r) by (try done; lia).
      destruct (decide _); [done|]. apply Hother. done.
Qed.

(** X14. The pyramid phase on the files, when it runs to its end: every level
    below the base level holds, for each place of its grid, the
    downsampled array of the (up to four) tiles of the level above it as
    they are at the end; the base level, the chunk files and the foreign
    files are as before; a file of a lower level that lies outside the
    grid is left as it was found. *)
Theorem pyramid_is_built_from_the_base_level (d : tiles_directory) :
  0 <= max_level ->
  exists d',
    build_pyramid np_zeros paste downsample_tile nx ny max_level finished d = Some d' /\
    chunks d' = chunks d /\ others d' = others d /\
    (forall l c r, l < 0 \/ max_level <= l ->
       tiles d' !! (l, c, r) = tiles d !! (l, c, r)) /\
    (forall level w h c r,
       0 <= level < max_level -> level_grid nx ny level max_level = Some (w, h) ->
       tiles d' !! (level, c, r) =
         if decide ((level, c, r) ∈ tiles_to_process level w h)
         then Some (downsample_tile (source_array (tiles d') (level + 1) c r))
         else tiles d !! (level, c, r)).
Proof.
  intros Hm. unfold build_pyramid.
  destruct (build_levels_spec (Z.to_nat max_level) d ltac:(lia))
    as (d' & Hd' & Hc & Ho & Hframe & Hlow).
  rewrite Z2Nat.id in * by done. by exists d'.
Qed.
End PyramidFiles.

(** A 1024 x 768 image with base level 10, the pool finishing each work
    list backwards. *)
Lemma pyramid_is_built_from_the_base_level_witness :
  1 <= 1024 <= 2 ^ 53 /\ 1 <= 768 <= 2 ^ 53 /\ (forall l : list (Z * Z * Z), reverse l ≡ₚ l) /\
  0 <= 10 /\
  exists d',
    build_pyramid (rgb_chunk:=()) [] (fun (combined : list Z) (y x t : Z) => combined ++ [t])
      (foldr Z.add 0) 1024 768 10 reverse empty_directory = Some d'.
Proof.
  assert (Hx : 1 <= 1024 <= 2 ^ 53) by lia.
  assert (Hy : 1 <= 768 <= 2 ^ 53) by lia.
  assert (Hf : forall l : list (Z * Z * Z), reverse l ≡ₚ l) by apply reverse_Permutation.
  split; [exact Hx|]. split; [exact Hy|]. split; [exact Hf|]. split; [lia|].
  destruct (pyramid_is_built_from_the_base_level (rgb_chunk:=()) []
              (fun (combined : list Z) (y x t : Z) => combined ++ [t])
              (foldr Z.add 0) 1024 768 10 reverse Hx Hy Hf empty_directory ltac:(lia))
    as (d' & Hd' & _).
  by exists d'.
Defined.

End PyramidBuildFacts.

Module GenerateFacts.
Import Float64 Pyramid Control Checkpoint Pipeline PipelineFacts StripRun StripRunFacts.
Import QuietRun PyramidBuild PyramidBuildFacts.

Section Lifecycle.
Context {rgb_chunk strip_buffer tile combined : Type}.
Variable np_zeros : Z -> Z -> strip_buffer.
Variable assign_columns : strip_buffer -> Z -> Z -> rgb_chunk -> strip_buffer.
Variable flip_vertical : strip_buffer -> strip_buffer.
Variable split_into_tiles : strip_buffer -> Z -> list tile.
Variable np_zeros_combined : combined.
Variable paste : combined -> Z -> Z -> tile -> combined.
Variable downsample_tile : combined -> tile.
Variables (im_scale max_level : Z).
Variable finished : list (Z * Z * Z) -> list (Z * Z * Z).
Local Notation "'world'" := (@world rgb_chunk tile).
Local Notation "'M'" := (@M rgb_chunk tile).
Local Notation same := (@same_checkpoint rgb_chunk tile).
Local Notation level_turn :=
  (pyramid_level np_zeros_combined paste downsample_tile im_scale max_level finished).
Local Notation whole_run :=
  (generate np_zeros assign_columns flip_vertical split_into_tiles
     np_zeros_combined paste downsample_tile im_scale max_level finished).

Lemma same_checkpoint_preorder : PreOrder same.
Proof. split; [done|]. intros w1 w2 w3 H1 H2. unfold same_checkpoint in *. congruence. Qed.

Lemma same_wait_if_paused : steady same (wait_if_paused : M bool).
Proof.
  intros w keys. destruct (wait_if_paused_spec w keys) as (evs & (Hs & _) & _). done.
Qed.

Lemma same_watch_level n : steady same (watch_level n : M unit).
Proof.
  unfold watch_level. apply steady_for_each; [apply same_checkpoint_preorder|]. intros _.
  apply steady_bind; [apply same_checkpoint_preorder|apply same_wait_if_paused|].
  intros b. apply steady_ret, same_checkpoint_preorder.
Qed.

Lemma same_pyramid_level level : steady same (level_turn level).
Proof.
  unfold pyramid_level.
  destruct (level_grid _ _ _ _) as [[tiles_wide tiles_high]|];
    [|apply steady_crash, same_checkpoint_preorder].
  apply steady_bind; [apply same_checkpoint_preorder| |].
  { intros w keys. done. }
  intros _. apply steady_bind; [apply same_checkpoint_preorder|apply same_watch_level|].
  intros _ w keys. done.
Qed.

(** X15. The checkpoint from the start of a run to its end: a run that goes
    through removes it, so that the next start finds no save; a run that
    ends on a save leaves the record of a strip [k] with
    [start_strip <= k <= total]; a run that hangs waiting or breaks (in
    the strips or in the pyramid, where a save request is not honoured)
    has not touched the checkpoint.  (Of a forced exit nothing is said:
    it can land inside [save_progress].) *)
Theorem checkpoint_lifecycle start results (w : world) keys :
  match whole_run start results w keys with
  | Done Completed w' _ =>
      current (save_file w') = Absent /\
      forall json_load, load_progress json_load (current (save_file w')) = Return PyNone
  | Done Saved w' _ =>
      exists total k,
        strips_per_height im_scale = Some total /\ start <= k <= total /\
        current (save_file w') = Present true (json_dump (progress_data im_scale k total))
  | Blocked w' | Crashed w' => save_file w' = save_file w
  | Killed _ => True
  end.
Proof.
  unfold generate. rewrite bind_unfold.
  pose proof (strip_phase_checkpoint np_zeros assign_columns flip_vertical split_into_tiles
                im_scale max_level start results w keys) as [Hkeep Hsave].
  cbv zeta in Hkeep, Hsave.
  destruct (run_strips _ _ _ _ _ _ _ _ w keys) as [[|] w1 keys1|w1|w1|w1] eqn:Hrun;
    try (simpl; apply Hkeep; intros ??; discriminate); try done.
  - simpl. destruct (Hsave w1 keys1 eq_refl) as (total & k & Ht & Hk & _ & Hcur).
    by exists total, k.
  - assert (Hs1 : save_file w1 = save_file w) by (apply Hkeep; intros ??; discriminate).
    rewrite bind_unfold.
    pose proof (@steady_for_each rgb_chunk tile same same_checkpoint_preorder Z level_turn
                  (reverse (seqZ 0 max_level)) same_pyramid_level w1 keys1) as Hs2.
    unfold same_checkpoint in Hs2.
    destruct (for_each _ _ w1 keys1) as [[] w2 keys2|w2|w2|w2]; simpl in *;
      try congruence; try done.
    unfold remove_save_file.
    destruct (current (save_file w2)) as [|readable text] eqn:Hcur; simpl.
    + rewrite Hcur. split; [done|]. intros json_load. done.
    + split; [done|]. intros json_load. done.
Qed.

Lemma watch_level_quiet n : forall (w : world) keys,
  paused (flags_of w) <> 1 -> quiet keys ->
  exists keys', watch_level n w keys = Done () w keys' /\ quiet keys'.
Proof.
  induction n as [|n IH]; intros w keys Hp Hq; [by exists keys|].
  unfold watch_level. simpl. rewrite !bind_unfold.
  destruct (wait_if_paused_quiet w keys Hp Hq) as (keys1 & -> & Hq1). simpl.
  apply (IH w keys1 Hp Hq1).
Qed.

Hypothesis scale_pos : 1 <= im_scale.
Hypothesis width_fits : nx im_scale <= 2 ^ 53.
Hypothesis finished_all : forall l, finished l ≡ₚ l.

Lemma program_sizes_fit : 1 <= nx im_scale <= 2 ^ 53 /\ 1 <= ny im_scale <= 2 ^ 53.
Proof. unfold nx, ny in *. lia. Qed.

Lemma pyramid_level_quiet level (w : world) keys d :
  tiles_dir w = Some d -> 0 <= level <= max_level ->
  paused (flags_of w) <> 1 -> quiet keys ->
  exists w' keys' d',
    level_turn level w keys = Done () w' keys' /\
    build_level np_zeros_combined paste downsample_tile (nx im_scale) (ny im_scale)
      max_level finished d level = Some d' /\
    tiles_dir w' = Some d' /\ flags_of w' = flags_of w /\ save_file w' = save_file w /\
    quiet keys'.
Proof.
  intros Hd Hl Hp Hq. destruct program_sizes_fit as [Hx Hy].
  unfold pyramid_level, build_level.
  rewrite (level_grid_exact _ _ level max_level Hx Hy Hl). simpl.
  rewrite bind_unfold. unfold make_level_dir at 1. simpl. rewrite bind_unfold.
  match goal with |- context [watch_level ?n ?w1 keys] =>
    destruct (watch_level_quiet n w1 keys) as (keys1 & -> & Hq1); [done|done|]
  end.
  simpl. eexists _, keys1, _. split; [reflexivity|]. simpl.
  unfold dir_of. simpl. rewrite Hd. simpl. done.
Qed.

Lemma pyramid_levels_quiet (n : nat) : forall (w : world) keys d,
  tiles_dir w = Some d -> Z.of_nat n <= max_level ->
  paused (flags_of w) <> 1 -> quiet keys ->
  exists w' keys' d',
    for_each (reverse (seqZ 0 (Z.of_nat n))) level_turn w keys = Done () w' keys' /\
    foldl (fun d level =>
             d ← d; build_level np_zeros_combined paste downsample_tile
                      (nx im_scale) (ny im_scale) max_level finished d level)
          (Some d) (reverse (seqZ 0 (Z.of_nat n))) = Some d' /\
    tiles_dir w' = Some d' /\ flags_of w' = flags_of w /\ save_file w' = save_file w /\
    quiet keys'.
Proof.
  induction n as [|n IH]; intros w keys d Hd Hn Hp Hq.
  { exists w, keys, d. done. }
  replace (Z.of_nat (S n)) with (Z.of_nat n + 1) by lia.
  rewrite seqZ_app by lia. rewrite reverse_app, Z.add_0_l.
  change (seqZ (Z.of_nat n) 1) with [Z.of_nat 0 + Z.of_nat n].
  change (Z.of_nat 0) with 0. rewrite Z.add_0_l, reverse_singleton.
  cbn [app foldl for_each mbind option_bind]. rewrite bind_unfold.
  destruct (pyramid_level_quiet (Z.of_nat n) w keys d Hd ltac:(lia) Hp Hq)
    as (w1 & keys1 & d1 & -> & -> & Hd1 & Hf1 & Hs1 & Hq1).
  destruct (IH w1 keys1 d1 Hd1 ltac:(lia) ltac:(by rewrite Hf1) Hq1)
    as (w2 & keys2 & d2 & Hrun & Hfold & Hd2 & Hf2 & Hs2 & Hq2).
  exists w2, keys2, d2. split_and!; try done; congruence.
Qed.

(** X16. A run that nobody disturbs (no pause, exit or interrupt is typed, no
    save is pending), whose workers deliver for each strip the chunk of
    every index once, in whatever order, and whose pool finishes the
    tasks of each level in whatever order, goes through to the end. Then
    the base level holds, for every strip, at row [total - 1 - strip] the
    tiles cut from the flipped strip, which is assembled by chunk index;
    every lower level holds at each place of its grid the downsampled
    array of the tiles above it; no chunk file is left; and the
    checkpoint is gone. *)
Theorem undisturbed_generation_completes start chunk_at results (w : world) keys :
  0 <= max_level ->
  paused (flags_of w) <> 1 -> save_requested (flags_of w) = 0 -> quiet keys ->
  (forall s, start <= s < 30 * im_scale -> all_chunks im_scale (chunk_at s) (results s)) ->
  exists w' keys' d',
    whole_run start results w keys = Done Completed w' keys' /\
    tiles_dir w' = Some d' /\
    current (save_file w') = Absent /\
    (start < 30 * im_scale -> forall i, 0 <= i < nc im_scale -> chunks d' !! i = None) /\
    (forall s k t, start <= s < 30 * im_scale ->
       split_into_tiles
         (flip_vertical (assembled np_zeros assign_columns im_scale s (chunk_at s)))
         TILE_SIZE !! k = Some t ->
       tiles d' !! (max_level, Z.of_nat k, 30 * im_scale - 1 - s) = Some t) /\
    (forall level c r,
       0 <= level < max_level ->
       0 <= c < cdiv (40 * im_scale) (2 ^ (max_level - level)) ->
       0 <= r < cdiv (30 * im_scale) (2 ^ (max_level - level)) ->
       tiles d' !! (level, c, r) =
         Some (downsample_tile
                 (combined_of np_zeros_combined paste (tiles d') (level + 1) c r))).
Proof.
  intros Hm Hp Hs Hq Hall. destruct program_sizes_fit as [Hx Hy].
  destruct (program_grid im_scale 0 max_level scale_pos width_fits ltac:(lia))
    as (_ & _ & Htotal).
  destruct (run_strips_quiet np_zeros assign_columns flip_vertical split_into_tiles
              im_scale max_level start (30 * im_scale) chunk_at results w keys
              Htotal Hp Hs Hq Hall)
    as (w1 & keys1 & Hrun & Hs1 & Hf1 & Hq1 & [d1 Hd1] & Hno1 & Ht1).
  destruct (pyramid_levels_quiet (Z.to_nat max_level) w1 keys1 d1 Hd1 ltac:(lia)
              ltac:(by rewrite Hf1) Hq1)
    as (w2 & keys2 & d2 & Hpyr & Hfold & Hd2 & Hf2 & Hs2 & Hq2).
  destruct (build_levels_spec np_zeros_combined paste downsample_tile
              (nx im_scale) (ny im_scale) max_level finished Hx Hy finished_all
              (Z.to_nat max_level) d1 ltac:(lia))
    as (d2' & Hfold' & Hc2 & _ & Hframe & Hlow).
  rewrite Hfold in Hfold'. injection Hfold' as <-.
  rewrite Z2Nat.id in * by done.
  unfold generate. rewrite bind_unfold, Hrun, bind_unfold, Hpyr, bind_unfold.
  simpl. eexists _, keys2, d2. split; [reflexivity|]. simpl.
  split; [done|]. split_and!.
  - unfold remove_save_file.
    destruct (current (save_file w2)) as [|readable text] eqn:Hcur; simpl; [|done].
    by rewrite Hcur.
  - intros Hlt i Hi. rewrite Hc2. apply (Hno1 Hlt d1 i Hd1 Hi).
  - intros s k t Hin Hk. rewrite Hframe by lia.
    specialize (Ht1 s k t Hin Hk). unfold dir_of in Ht1. by rewrite Hd1 in Ht1.
  - intros level c r Hl Hc Hr.
    destruct (program_grid im_scale level max_level scale_pos width_fits ltac:(lia))
      as (Hgrid & _ & _).
    rewrite (Hlow level _ _ c r ltac:(lia) Hgrid).
    rewrite decide_True; [done|]. apply elem_of_tiles_to_process. lia.
Qed.

End Lifecycle.

(** The program at scale 1 from a fresh start with base level 14, the
    chunks arriving in index order and the pool finishing each work list
    backwards. *)
Lemma undisturbed_generation_completes_witness :
  1 <= 1 /\ nx 1 <= 2 ^ 53 /\ (forall l : list (Z * Z * Z), reverse l ≡ₚ l) /\ 0 <= 14 /\
  paused (flags_of fresh_world) <> 1 /\ save_requested (flags_of fresh_world) = 0 /\
  quiet [] /\
  exists w' keys',
    generate (fun _ _ => ()) (fun buf _ _ _ => buf) (fun buf => buf)
      (fun _ _ => replicate 40 ()) () (fun c _ _ _ => c) (fun _ => ()) 1 14 reverse
      0 results_in_order fresh_world [] = Done Completed w' keys' /\
    current (save_file w') = Absent.
Proof.
  assert (H1 : 1 <= 1) by lia.
  assert (H2 : nx 1 <= 2 ^ 53) by (vm_compute; discriminate).
  assert (H3 : forall l : list (Z * Z * Z), reverse l ≡ₚ l) by apply reverse_Permutation.
  assert (H4 : 0 <= 14) by lia.
  assert (H5 : paused (flags_of fresh_world) <> 1) by (simpl; lia).
  assert (H6 : save_requested (flags_of fresh_world) = 0) by reflexivity.
  assert (H7 : quiet []) by constructor.
  split_and!; try done.
  destruct (undisturbed_generation_completes (fun _ _ => ()) (fun buf _ _ _ => buf)
              (fun buf => buf) (fun _ _ => replicate 40 ()) () (fun c _ _ _ => c)
              (fun _ => ()) 1 14 reverse H1 H2 H3 0 (fun _ _ => ()) results_in_order
              fresh_world [] H4 H5 H6 H7)
    as (w' & keys' & d' & Hrun & _ & Habs & _).
  - intros s _. unfold all_chunks, results_in_order. reflexivity.
  - exists w', keys'. split; [exact Hrun|exact Habs].
Defined.

Section PhaseTwoKeys.
Context {rgb_chunk tile : Type}.
Local Notation "'world'" := (@world rgb_chunk tile).

Lemma wait_if_paused_no_keys (w : world) :
  paused (flags_of w) = 1 ->
  exists w', flags_of w' = flags_of w /\ save_file w' = save_file w /\
             tiles_dir w' = tiles_dir w /\
             wait_if_paused w [] =
               if save_requested (flags_of w) =? 1 then Done true w' [] else Blocked w'.
Proof.
  intros Hp. unfold wait_if_paused. rewrite bind_unfold. simpl. rewrite bind_unfold.
  unfold get. rewrite Hp. simpl (1 =? 1). cbn [andb].
  destruct (exit_confirm (flags_of w) =? 0).
  - rewrite bind_unfold. simpl. rewrite Hp. simpl (1 =? 1). cbv iota.
    eexists. split_and!; [| | |destruct (_ =? 1); reflexivity]; done.
  - rewrite bind_unfold. simpl. rewrite Hp. simpl (1 =? 1). cbv iota.
    eexists. split_and!; [| | |destruct (_ =? 1); reflexivity]; done.
Qed.

(** X17. In the pyramid phase a save request is not a save: when the run is
    paused and [s] has been typed, every [wait_if_paused()] of the level
    returns at once, so the build goes on with the flags still saying
    paused, and nothing is written by the main thread; without the
    request, and with nothing more typed, the main thread stays in the
    first wait. *)
Theorem pyramid_phase_takes_save_for_resume n (w : world) :
  paused (flags_of w) = 1 ->
  (save_requested (flags_of w) = 1 ->
   exists w', watch_level n w [] = Done () w' [] /\ flags_of w' = flags_of w /\
              save_file w' = save_file w /\ tiles_dir w' = tiles_dir w) /\
  (save_requested (flags_of w) <> 1 -> n <> 0%nat ->
   exists w', watch_level n w [] = Blocked w' /\ flags_of w' = flags_of w).
Proof.
  intros Hp. split.
  - intros Hs. revert w Hp Hs. induction n as [|n IH]; intros w Hp Hs.
    { by exists w. }
    unfold watch_level. simpl. rewrite !bind_unfold.
    destruct (wait_if_paused_no_keys w Hp) as (w1 & Hf1 & Hs1 & Hd1 & ->).
    rewrite Hs. simpl.
    destruct (IH w1 ltac:(by rewrite Hf1) ltac:(by rewrite Hf1))
      as (w2 & Hrun & Hf2 & Hs2 & Hd2).
    exists w2. split; [exact Hrun|]. split_and!; congruence.
  - intros Hs Hn. destruct n as [|n]; [done|].
    unfold watch_level. simpl. rewrite !bind_unfold.
    destruct (wait_if_paused_no_keys w Hp) as (w1 & Hf1 & _ & _ & ->).
    destruct (Z.eqb_spec (save_requested (flags_of w)) 1); [done|].
    by exists w1.
Qed.
End PhaseTwoKeys.

Lemma pyramid_phase_takes_save_for_resume_witness :
  let w := World (Flags 1 0 1) (Disk Absent []) (Some empty_directory) []
             : world (rgb_chunk:=()) (tile:=()) in
  paused (flags_of w) = 1 /\ save_requested (flags_of w) = 1 /\
  exists w', watch_level 3 w [] = Done () w' [] /\ flags_of w' = flags_of w.
Proof.
  intros w. split; [reflexivity|]. split; [reflexivity|].
  destruct (pyramid_phase_takes_save_for_resume 3 w eq_refl) as [Hres _].
  destruct (Hres eq_refl) as (w' & Hrun & Hf & _). by exists w'.
Defined.

End GenerateFacts.

Module StartupFacts.
Import Float64 Checkpoint CheckpointFacts PyramidBuild Startup.

Section PromptFacts.
Variable json_load : string -> py pyobj.
Variable strip : string -> string.
Variable lower : string -> string.
Variable py_int : string -> option Z.
Variable estimate_raises : Z -> bool.
Local Notation fresh_loop := (fresh_or_resume strip lower py_int).
Local Notation scale_loop := (ask_scale strip lower py_int estimate_raises).
Local Notation found := (save_found strip lower py_int).
Local Notation begin := (startup json_load strip lower py_int estimate_raises).
Local Notation entered := (entered_scale py_int).

Lemma entered_scale_positive entry scale : entered entry = Some scale -> 1 <= scale.
Proof.
  unfold entered_scale. destruct (String.eqb entry ""); [intros [= <-]; lia|].
  destruct (py_int entry) as [n|]; [|done].
  destruct (Z.leb_spec n 0); [done|]. intros [= <-]. lia.
Qed.

Lemma remove_save_file_absent d : current (remove_save_file d) = Absent.
Proof.
  unfold remove_save_file. destruct (current d) eqn:Hd; simpl; [by rewrite Hd|done].
Qed.

Lemma resume_spec saved d inputs st :
  resume saved d inputs = Ok st ->
  subscript saved "im_scale" = Ok (im_scale st) /\
  subscript saved "current_strip" = Ok (start_strip st) /\
  save_file st = d /\ unread st = inputs.
Proof.
  unfold resume. destruct (subscript saved "im_scale") as [scale|]; [|done]. simpl.
  destruct (subscript saved "current_strip") as [strip_idx|]; [|done]. simpl.
  intros [= <-]. done.
Qed.

(** The loop of lines 182-208 ends in one of two ways. *)
Lemma fresh_or_resume_spec saved d inputs : forall choice st,
  fresh_loop saved d choice inputs = Ok st ->
  (exists scale, im_scale st = PyInt scale /\ 1 <= scale /\ start_strip st = PyInt 0 /\
                 save_file st = remove_save_file d) \/
  (subscript saved "im_scale" = Ok (im_scale st) /\
   subscript saved "current_strip" = Ok (start_strip st) /\ save_file st = d).
Proof.
  induction inputs as [inputs IH] using (well_founded_induction
    (well_founded_ltof _ (@length string))).
  intros choice st. destruct inputs as [|line rest]; simpl.
  { by destruct (entered choice). }
  destruct (entered choice) as [scale|] eqn:Hscale.
  - destruct (is_yes _).
    + intros [= <-]. left. exists scale. simpl. split_and!; try done.
      by apply (entered_scale_positive choice).
    + destruct rest as [|line' rest']; [done|].
      destruct (String.eqb _ "r").
      * intros Hr%resume_spec. right. tauto.
      * apply IH. unfold ltof. simpl. lia.
  - apply IH. unfold ltof. simpl. lia.
Qed.

(** The loop of lines 211-241 ends with a positive scale the estimates
    could be computed for; the start strip and the save file are not its
    business. *)
Lemma ask_scale_spec start_idx d inputs : forall st,
  scale_loop start_idx d inputs = Ok st ->
  exists scale, im_scale st = PyInt scale /\ 1 <= scale /\ estimate_raises scale = false /\
                start_strip st = start_idx /\ save_file st = d.
Proof.
  induction inputs as [inputs IH] using (well_founded_induction
    (well_founded_ltof _ (@length string))).
  intros st. destruct inputs as [|line rest]; simpl; [done|].
  destruct (entered (strip line)) as [scale|] eqn:Hscale.
  - destruct (estimate_raises scale) eqn:Hest; [done|].
    destruct rest as [|confirm rest']; [done|].
    destruct (is_yes _).
    + intros [= <-]. exists scale. simpl. split_and!; try done.
      by apply (entered_scale_positive (strip line)).
    + apply IH. unfold ltof. simpl. lia.
  - apply IH. unfold ltof. simpl. lia.
Qed.

(** X18. How the program can get past its prompts.  With no usable save
    (none, an unreadable or malformed one, or one that holds a false
    value) it starts at strip 0 with a positive scale and leaves the
    save file alone.  With a save it either starts afresh, again at
    strip 0 with a positive scale, and the save file is removed; or it
    resumes with the scale and the strip the save holds, whatever they
    are, and leaves the file alone; when the scale the save holds is
    [null], the scale is asked for and the strip is still the save's. *)
Theorem startup_cases d inputs st :
  begin d inputs = Ok st ->
  exists saved, load_progress json_load (current d) = Return saved /\
    ((truthy saved = false /\ save_file st = d /\ start_strip st = PyInt 0 /\
      exists scale, im_scale st = PyInt scale /\ 1 <= scale) \/
     (truthy saved = true /\ show_save saved = Ok tt /\
      save_file st = remove_save_file d /\ current (save_file st) = Absent /\
      start_strip st = PyInt 0 /\
      exists scale, im_scale st = PyInt scale /\ 1 <= scale) \/
     (truthy saved = true /\ show_save saved = Ok tt /\ save_file st = d /\
      subscript saved "current_strip" = Ok (start_strip st) /\
      (subscript saved "im_scale" = Ok (im_scale st) \/
       subscript saved "im_scale" = Ok PyNone /\
       exists scale, im_scale st = PyInt scale /\ 1 <= scale))).
Proof.
  unfold startup. rewrite load_progress_eq.
  set (saved := match current d with
                | Present true text =>
                    match json_load text with Return v => v | Raise _ => PyNone end
                | _ => PyNone
                end).
  intros Hst. exists saved. split; [done|].
  destruct (truthy saved) eqn:Htruthy.
  - right. unfold save_found in Hst.
    destruct (show_save saved) as [[]|] eqn:Hshow; [|done]. simpl in Hst.
    assert (Hfound : exists st0,
              ((exists scale, im_scale st0 = PyInt scale /\ 1 <= scale /\
                              start_strip st0 = PyInt 0 /\
                              save_file st0 = remove_save_file d) \/
               (subscript saved "im_scale" = Ok (im_scale st0) /\
                subscript saved "current_strip" = Ok (start_strip st0) /\
                save_file st0 = d)) /\
              match im_scale st0 with
              | PyNone => scale_loop (start_strip st0) (save_file st0) (unread st0)
              | _ => Ok st0
              end = Ok st).
    { destruct inputs as [|line rest]; [done|].
      destruct (String.eqb _ "r").
      - destruct (resume saved d rest) as [st0|] eqn:Hres; [|done].
        exists st0. split; [|done]. right. apply resume_spec in Hres. tauto.
      - destruct (fresh_loop saved d _ rest) as [st0|] eqn:Hloop; [|done].
        exists st0. split; [|done]. by apply fresh_or_resume_spec in Hloop. }
    destruct Hfound as (st0 & [(scale & Hsc & Hpos & Hstart & Hfile)|(Hsc & Hstart & Hfile)] & Hend).
    + left. rewrite Hsc in Hend. injection Hend as <-.
      split_and!; try done; [by rewrite Hfile, remove_save_file_absent|by exists scale].
    + right. destruct (im_scale st0) eqn:Hsc0;
        try (injection Hend as <-; split_and!; try done; left; by rewrite Hsc0).
      apply ask_scale_spec in Hend as (scale & Hsc1 & Hpos & _ & Hstart1 & Hfile1).
      split_and!; try done; try congruence.
      right. split; [done|]. by exists scale.
  - left. simpl in Hst.
    apply ask_scale_spec in Hst as (scale & Hsc & Hpos & _ & Hstart & Hfile).
    split_and!; try done. by exists scale.
Qed.

(** X19. A save the program cannot show stops it before it asks anything:
    when [json.load] gave a true value that is no dictionary, or lacks one
    of the three keys, or whose strip counts cannot be divided (a total
    of zero among them), the exception of lines 171-173 ends the program
    whatever is typed. *)
Theorem unusable_save_stops_the_program d saved :
  load_progress json_load (current d) = Return saved -> truthy saved = true ->
  (forall e, show_save saved = Raised e -> forall inputs, begin d inputs = Raised e) /\
  (show_save saved = Ok tt <->
   exists l scale current_strip total_strips percent,
     saved = PyDict l /\ dict_get l "im_scale" = Some scale /\
     dict_get l "current_strip" = Some current_strip /\
     dict_get l "total_strips" = Some total_strips /\
     truediv current_strip total_strips = Ok percent) /\
  (forall l scale k,
     saved = PyDict l -> dict_get l "im_scale" = Some scale ->
     dict_get l "current_strip" = Some (PyInt k) ->
     dict_get l "total_strips" = Some (PyInt 0) ->
     forall inputs, begin d inputs = Raised ZeroDivisionError).
Proof.
  intros Hload Htruthy.
  assert (Hstop : forall e, show_save saved = Raised e ->
                  forall inputs, begin d inputs = Raised e).
  { intros e He inputs. unfold startup, save_found. by rewrite Hload, Htruthy, He. }
  split; [exact Hstop|]. split.
  - unfold show_save, subscript. split.
    + destruct saved as [| | | | | |l]; try done.
      destruct (dict_get l "im_scale") as [scale|] eqn:H1; [|done]. simpl.
      destruct (dict_get l "current_strip") as [cs|] eqn:H2; [|done]. simpl.
      destruct (dict_get l "total_strips") as [ts|] eqn:H3; [|done]. simpl.
      destruct (truediv cs ts) as [q|] eqn:Hq; [|done]. intros _.
      by exists l, scale, cs, ts, q.
    + intros (l & scale & cs & ts & q & -> & -> & -> & -> & Hq). simpl. by rewrite Hq.
  - intros l scale k -> Hscale Hcs Hts. apply Hstop.
    unfold show_save, subscript. by rewrite Hscale, Hcs, Hts.
Qed.

(** X20. In the loop of lines 182-208 [r] is looked for only right after a
    confirmation was declined: typed after an entry that was refused (no
    integer, or not positive) it is itself refused as no integer, the
    program does not resume, and the next line is read as a new entry. *)
Theorem resume_refused_after_bad_entry saved d bad_choice r_line rest :
  py_int "r" = None ->
  entered bad_choice = None -> lower (strip r_line) = "r" ->
  fresh_loop saved d bad_choice (r_line :: rest) =
    match rest with
    | [] => Raised EOFError
    | line :: rest' => fresh_loop saved d (lower (strip line)) rest'
    end.
Proof.
  intros Hr Hbad Hline. simpl. rewrite Hbad, Hline.
  assert (Hnone : entered "r" = None) by (unfold entered_scale; simpl; by rewrite Hr).
  destruct rest as [|line rest']; simpl; by rewrite Hnone.
Qed.

End PromptFacts.

Lemma startup_cases_witness :
  let d := Disk (Present true "not json") [] in
  startup no_json id id toy_int (fun _ => false) d ["0"; "3"; "y"] =
    Ok (Start (PyInt 3) (PyInt 0) d []) /\
  exists saved, load_progress no_json (current d) = Return saved /\ truthy saved = false.
Proof.
  intros d.
  assert (Hrun : startup no_json id id toy_int (fun _ => false) d ["0"; "3"; "y"] =
                 Ok (Start (PyInt 3) (PyInt 0) d [])) by reflexivity.
  split; [exact Hrun|].
  destruct (startup_cases no_json id id toy_int (fun _ => false) d _ _ Hrun)
    as (saved & Hload & Hcases).
  exists saved. split; [exact Hload|].
  destruct Hcases as [(Hf & _)|[(_ & _ & Hfile & Habs & _)|(_ & Hshow & _)]]; [exact Hf| |].
  - discriminate Habs.
  - injection Hload as <-. discriminate Hshow.
Defined.

Lemma unusable_save_stops_the_program_witness :
  let d := Disk (Present true "{}") [] in
  let saved := PyDict [("im_scale", PyInt 2); ("current_strip", PyInt 0);
                       ("total_strips", PyInt 0)] in
  load_progress toy_json (current d) = Return saved /\ truthy saved = true /\
  startup toy_json id id toy_int (fun _ => false) d ["r"] = Raised ZeroDivisionError.
Proof.
  intros d saved. split; [reflexivity|]. split; [reflexivity|].
  destruct (unusable_save_stops_the_program toy_json id id toy_int (fun _ => false)
              d saved eq_refl eq_refl) as (_ & _ & Hzero).
  eapply (Hzero _ (PyInt 2) 0); reflexivity.
Defined.

Lemma resume_refused_after_bad_entry_witness :
  toy_int "r" = None /\ entered_scale toy_int "x" = None /\ id (id "r") = "r" /\
  fresh_or_resume id id toy_int PyNone (Disk Absent []) "x" ["r"; "3"; "y"] =
    Ok (Start (PyInt 3) (PyInt 0) (Disk Absent []) []).
Proof.
  split; [reflexivity|]. split; [reflexivity|]. split; [reflexivity|].
  rewrite (resume_refused_after_bad_entry id id toy_int PyNone (Disk Absent []) "x" "r"
             ["3"; "y"] eq_refl eq_refl eq_refl).
  reflexivity.
Defined.

End StartupFacts.

Module Safety.
Import Float64 Pyramid Control Checkpoint Pipeline PipelineFacts StripRun StripRunFacts.
Import PyramidBuild PyramidBuildFacts.

Section SafeSteps.
Context {rgb_chunk tile : Type}.
Local Notation "'world'" := (@world rgb_chunk tile).
Local Notation "'M'" := (@M rgb_chunk tile).

Lemma safe_ret {A} (P : world -> Prop) (Q : A -> world -> Prop) a :
  (forall w, P w -> Q a w) -> safe P Q (mret a : M A).
Proof. intros HPQ w keys HP. simpl. by apply HPQ. Qed.

Lemma safe_bind {A B} (P : world -> Prop) (Q : A -> world -> Prop)
    (R : B -> world -> Prop) (m : M A) (k : A -> M B) :
  safe P Q m -> (forall a, safe (Q a) R (k a)) -> safe P R (m ≫= k).
Proof.
  intros Hm Hk w keys HP. rewrite bind_unfold. specialize (Hm w keys HP).
  destruct (m w keys) as [a w1 keys1| | |]; try done. by apply Hk.
Qed.

Lemma safe_weaken {A} (P P' : world -> Prop) (Q Q' : A -> world -> Prop) (m : M A) :
  safe P Q m -> (forall w, P' w -> P w) -> (forall a w, Q a w -> Q' a w) -> safe P' Q' m.
Proof.
  intros Hm HP HQ w keys HP'. specialize (Hm w keys (HP w HP')).
  destruct (m w keys); try done. by apply HQ.
Qed.

Lemma safe_for_each {A} (P : world -> Prop) (body : A -> M unit) l :
  (forall a, a ∈ l -> safe P (fun _ => P) (body a)) -> safe P (fun _ => P) (for_each l body).
Proof.
  induction l as [|a l IH]; intros Hb; simpl; [by apply safe_ret|].
  apply (safe_bind P (fun _ => P)); [apply Hb; by left|].
  intros _. apply IH. intros b Hin. apply Hb. by right.
Qed.

Lemma has_chunks_same_dir indices (w w' : world) :
  tiles_dir w' = tiles_dir w -> has_chunks indices w -> has_chunks indices w'.
Proof. intros Hd (d & Hw & Hi). exists d. by rewrite Hd. Qed.

Lemma has_chunks_mono indices indices' (w : world) :
  (forall i, i ∈ indices' -> i ∈ indices) -> has_chunks indices w -> has_chunks indices' w.
Proof. intros Hsub (d & Hw & Hi). exists d. split; [done|]. intros i Hin. apply Hi, Hsub, Hin. Qed.

(** A step that leaves the files alone and does not break. *)
Lemma safe_same_files {A} indices (m : M A) :
  (forall w keys, exists evs, same_files w (world_of (m w keys)) evs) ->
  (forall w keys w', m w keys <> Crashed w') ->
  safe (has_chunks indices) (fun _ => has_chunks indices) m.
Proof.
  intros Hsame Hno w keys HP. destruct (Hsame w keys) as (evs & _ & Hd & _).
  specialize (Hno w keys). destruct (m w keys) as [a w1 keys1|w1|w1|w1]; try done.
  - by apply (has_chunks_same_dir indices w).
  - by destruct (Hno w1).
Qed.

Lemma safe_wait_if_paused indices :
  safe (has_chunks indices) (fun _ => has_chunks indices) (wait_if_paused : M bool).
Proof.
  apply safe_same_files.
  - intros w keys. destruct (wait_if_paused_cases w keys) as (evs & _ & Hs & _). by exists evs.
  - intros w keys. by destruct (wait_if_paused_cases w keys) as (evs & _ & _ & Hno).
Qed.

Lemma safe_read_save_requested indices :
  safe (has_chunks indices) (fun _ => has_chunks indices) (read_save_requested : M Z).
Proof.
  apply safe_same_files.
  - intros w keys.
    destruct (read_save_requested_spec w keys) as [->|(w' & keys' & -> & Hs)].
    + exists []. apply same_files_refl.
    + by exists [].
  - intros w keys w'.
    by destruct (read_save_requested_spec w keys) as [->|(w1 & keys' & -> & Hs)].
Qed.

Lemma safe_emit indices e :
  safe (has_chunks indices) (fun _ => has_chunks indices) (emit e : M unit).
Proof.
  apply safe_same_files.
  - intros w keys. destruct (emit_spec e w keys) as (w' & -> & Hs & _). by exists [e].
  - intros w keys w'. by destruct (emit_spec e w keys) as (w1 & -> & _).
Qed.

Lemma safe_flags indices (g : world -> flags) :
  safe (has_chunks indices) (fun _ => has_chunks indices)
       (modify (fun w => set_flags (g w) w) : M unit).
Proof. intros w keys HP. simpl. by apply (has_chunks_same_dir indices w). Qed.

Lemma safe_write_progress indices scale k total :
  safe (has_chunks indices) (fun _ => has_chunks indices)
       (write_progress scale k total : M unit).
Proof.
  intros w keys HP.
  destruct (write_progress_spec scale k total w keys) as (w' & -> & _ & _ & Hd & _).
  by apply (has_chunks_same_dir indices w).
Qed.

Lemma safe_np_save indices i c :
  safe (has_chunks indices) (fun _ => has_chunks (i :: indices)) (np_save i c : M unit).
Proof.
  intros w keys (d & Hd & Hi). unfold np_save. rewrite bind_unfold. unfold get.
  rewrite Hd, bind_unfold. simpl. eexists. split; [reflexivity|]. simpl.
  intros j Hj. destruct (decide (j = i)) as [->|Hne].
  - rewrite lookup_insert_eq. by eexists.
  - rewrite lookup_insert_ne by done. apply Hi.
    apply elem_of_cons in Hj as [?|?]; done.
Qed.

Lemma safe_remove_chunks indices scale :
  safe (has_chunks indices) (fun _ => has_chunks []) (remove_chunks scale : M unit).
Proof.
  intros w keys (d & Hd & _).
  destruct (remove_chunks_spec scale w keys) as (w' & removed & -> & _ & _ & _ & _ & _ & Hd').
  destruct (Hd' d Hd) as (d' & Hw' & _). exists d'. split; [done|].
  intros i Hi. inversion Hi.
Qed.

Lemma safe_save_tile t level col row :
  safe (has_chunks []) (fun _ => has_chunks []) (save_tile t level col row : M unit).
Proof.
  intros w keys _.
  destruct (save_tile_spec t level col row w keys) as (w' & -> & _ & _ & _ & Hd & _).
  eexists. split; [exact Hd|]. intros i Hi. inversion Hi.
Qed.

End SafeSteps.

Section SafeRun.
Context {rgb_chunk strip_buffer tile combined : Type}.
Variable np_zeros : Z -> Z -> strip_buffer.
Variable assign_columns : strip_buffer -> Z -> Z -> rgb_chunk -> strip_buffer.
Variable flip_vertical : strip_buffer -> strip_buffer.
Variable split_into_tiles : strip_buffer -> Z -> list tile.
Variable np_zeros_combined : combined.
Variable paste : combined -> Z -> Z -> tile -> combined.
Variable downsample_tile : combined -> tile.
Variables (im_scale max_level : Z).
Variable finished : list (Z * Z * Z) -> list (Z * Z * Z).
Local Notation "'world'" := (@world rgb_chunk tile).
Local Notation "'M'" := (@M rgb_chunk tile).
Local Notation strip_turn :=
  (process_strip np_zeros assign_columns flip_vertical split_into_tiles im_scale max_level).
Local Notation assemble :=
  (assemble_strip np_zeros assign_columns flip_vertical split_into_tiles im_scale max_level).

Lemma safe_give_up indices total strip_idx :
  safe (has_chunks indices) (fun saved w => saved = true /\ has_chunks [] w)
    (emit WorkersTerminated ;;
     remove_chunks im_scale ;;
     write_progress im_scale strip_idx total ;;
     clear_save_requested ;;
     emit (Printed (SavedResumeFrom strip_idx)) ;;
     mret true : M bool).
Proof.
  apply (safe_bind _ (fun _ => has_chunks indices)); [apply safe_emit|]. intros _.
  apply (safe_bind _ (fun _ => has_chunks [])); [apply safe_remove_chunks|]. intros _.
  apply (safe_bind _ (fun _ => has_chunks [])); [apply safe_write_progress|]. intros _.
  apply (safe_bind _ (fun _ => has_chunks [])); [apply safe_flags|]. intros _.
  apply (safe_bind _ (fun _ => has_chunks [])); [apply safe_emit|]. intros _.
  by apply safe_ret.
Qed.

Lemma safe_chunk_loop total strip_idx n : forall results indices,
  safe (has_chunks indices)
       (fun saved => if saved : bool then has_chunks []
                     else has_chunks ((take n results).*1 ++ indices))
       (chunk_loop im_scale total strip_idx n results : M bool).
Proof.
  induction n as [|n IH]; intros results indices.
  { simpl. by apply safe_ret. }
  destruct results as [|[i rgb] results]; [by intros w keys _|].
  simpl.
  apply (safe_bind _ (fun _ => has_chunks (i :: indices))); [apply safe_np_save|]. intros _.
  apply (safe_bind _ (fun _ => has_chunks (i :: indices))); [apply safe_wait_if_paused|].
  intros [|].
  - apply (safe_weaken _ _ _ _ _ (safe_give_up (i :: indices) total strip_idx)); [done|].
    by intros saved w [-> ?].
  - apply (safe_weaken _ _ _ _ _ (IH results (i :: indices))); [done|].
    intros [|] w; [done|]. apply has_chunks_mono. intros j Hj.
    simpl in Hj. apply elem_of_cons in Hj as [->|Hj].
    + apply elem_of_app. right. by left.
    + apply elem_of_app in Hj as [Hj|Hj]; apply elem_of_app; [by left|right; by right].
Qed.

Lemma safe_assemble total strip_idx indices :
  (forall i, 0 <= i < nc im_scale -> i ∈ indices) ->
  safe (has_chunks indices) (fun _ => has_chunks []) (assemble total strip_idx : M unit).
Proof.
  intros Hall w keys (d & Hd & Hi).
  pose proof (steady_assemble_strip np_zeros assign_columns flip_vertical split_into_tiles
                im_scale max_level total strip_idx w keys) as (_ & _ & _ & _ & _ & Hkeep).
  destruct (assemble_strip_spec np_zeros assign_columns flip_vertical split_into_tiles
              im_scale max_level total strip_idx w keys)
    as [[_ (i & Hrange & Hnone)]|(w' & removed & buf & Heq & _)]; cbv zeta in *.
  - destruct (Hi i (Hall i Hrange)) as [c Hc]. unfold dir_of in Hnone.
    rewrite Hd in Hnone. simpl in Hnone. congruence.
  - rewrite Heq in *. simpl in Hkeep. destruct Hkeep as [d' Hd']; [by rewrite Hd|].
    exists d'. split; [done|]. intros i Hin. inversion Hin.
Qed.

Lemma safe_save_tail indices total strip_idx notice :
  safe (has_chunks indices) (fun _ => has_chunks indices)
    (write_progress im_scale (strip_idx + 1) total ;;
     clear_save_requested ;;
     clear_paused ;;
     emit (Printed notice) ;;
     mret true : M bool).
Proof.
  apply (safe_bind _ (fun _ => has_chunks indices)); [apply safe_write_progress|]. intros _.
  apply (safe_bind _ (fun _ => has_chunks indices)); [apply safe_flags|]. intros _.
  apply (safe_bind _ (fun _ => has_chunks indices)); [apply safe_flags|]. intros _.
  apply (safe_bind _ (fun _ => has_chunks indices)); [apply safe_emit|]. intros _.
  by apply safe_ret.
Qed.

Lemma safe_process_strip total strip_idx results :
  covers im_scale results ->
  safe (has_chunks []) (fun _ => has_chunks []) (strip_turn total strip_idx results).
Proof.
  intros Hcov. unfold process_strip.
  set (all := (take (Z.to_nat (nc im_scale)) results).*1 ++ []).
  assert (Hall : forall i, 0 <= i < nc im_scale -> i ∈ all).
  { intros i Hi. unfold all. rewrite app_nil_r. by apply Hcov. }
  assert (Hdrop : forall w : world, has_chunks all w -> has_chunks [] w).
  { intros w. apply has_chunks_mono. intros i Hi. inversion Hi. }
  apply (safe_bind _ (fun saved => if saved : bool then has_chunks [] else has_chunks all));
    [apply safe_chunk_loop|].
  intros [|]; [by apply safe_ret|].
  apply (safe_bind _ (fun _ => has_chunks all)); [apply safe_read_save_requested|]. intros r1.
  destruct (r1 =? 1).
  { apply (safe_bind _ (fun _ => has_chunks all)); [apply safe_emit|]. intros _.
    apply (safe_bind _ (fun _ => has_chunks all)); [apply safe_emit|]. intros _.
    apply (safe_bind _ (fun _ => has_chunks [])); [by apply safe_assemble|]. intros _.
    apply safe_save_tail. }
  apply (safe_bind _ (fun _ => has_chunks all)); [apply safe_read_save_requested|]. intros r2.
  apply (safe_bind _ (fun _ => has_chunks all)).
  { destruct (r2 =? 0); [apply safe_emit|by apply safe_ret]. }
  intros _.
  apply (safe_bind _ (fun _ => has_chunks all)); [apply safe_read_save_requested|]. intros r3.
  destruct (r3 =? 0); [|by apply safe_ret].
  apply (safe_bind _ (fun _ => has_chunks [])); [by apply safe_assemble|]. intros _.
  apply (safe_bind _ (fun _ => has_chunks [])); [apply safe_read_save_requested|]. intros r4.
  destruct (r4 =? 1); [apply safe_save_tail|].
  apply (safe_bind _ (fun _ => has_chunks [])); [apply safe_wait_if_paused|]. intros _.
  by apply safe_ret.
Qed.

Lemma safe_strips_loop total results strips :
  (forall s, s ∈ strips -> covers im_scale (results s)) ->
  safe (has_chunks []) (fun _ => has_chunks [])
    (strips_loop np_zeros assign_columns flip_vertical split_into_tiles
       im_scale max_level total strips results : M bool).
Proof.
  induction strips as [|s strips IH]; intros Hcov; simpl; [by apply safe_ret|].
  apply (safe_bind _ (fun _ => has_chunks [])).
  { apply safe_process_strip, Hcov. by left. }
  intros [|]; [by apply safe_ret|]. apply IH. intros s' Hs'. apply Hcov. by right.
Qed.

Lemma safe_watch_level n :
  safe (has_chunks []) (fun _ => has_chunks []) (watch_level n : M unit).
Proof.
  unfold watch_level. apply safe_for_each. intros _ _.
  apply (safe_bind _ (fun _ => has_chunks [])); [apply safe_wait_if_paused|].
  intros _. by apply safe_ret.
Qed.

Hypothesis scale_pos : 1 <= im_scale.
Hypothesis width_fits : nx im_scale <= 2 ^ 53.

Lemma safe_pyramid_level level :
  0 <= level <= max_level ->
  safe (has_chunks []) (fun _ => has_chunks [])
    (pyramid_level np_zeros_combined paste downsample_tile im_scale max_level finished level
       : M unit).
Proof.
  intros Hl. unfold pyramid_level.
  assert (Hx : 1 <= nx im_scale <= 2 ^ 53) by (unfold nx in *; lia).
  assert (Hy : 1 <= ny im_scale <= 2 ^ 53) by (unfold nx, ny in *; lia).
  rewrite (level_grid_exact _ _ level max_level Hx Hy Hl).
  apply (safe_bind _ (fun _ => has_chunks [])).
  { intros w keys _. simpl. eexists. split; [reflexivity|]. intros i Hi. inversion Hi. }
  intros _. apply (safe_bind _ (fun _ => has_chunks [])); [apply safe_watch_level|].
  intros _ w keys _. simpl. eexists. split; [reflexivity|]. intros i Hi. inversion Hi.
Qed.

(** X21. Nothing that is typed can make the run break.  At a size the float
    divisions handle, and with workers that deliver for every strip still
    to do a chunk of every index among the first [nc] results, the
    program from line 372 on ends by completing, by a save, by a forced
    exit or by waiting for a key or a result; it never ends with one of
    the exceptions the pipeline can raise: [np.save] always finds the
    tiles directory, [np.load] always finds the chunk file of its index
    (also after a pause, a cancelled exit or a save request at any
    moment), and the divisions of lines 387 and 555-559 succeed. *)
Theorem generation_never_breaks start results (w : world) keys :
  (forall s, start <= s < 30 * im_scale -> covers im_scale (results s)) ->
  forall w', generate np_zeros assign_columns flip_vertical split_into_tiles
               np_zeros_combined paste downsample_tile im_scale max_level finished
               start results w keys <> Crashed w'.
Proof.
  intros Hcov w' Hcrash.
  assert (Hsafe : safe (fun _ : world => True) (fun (_ : finish) _ => True)
            (generate np_zeros assign_columns flip_vertical split_into_tiles
               np_zeros_combined paste downsample_tile im_scale max_level finished
               start results)).
  2:{ specialize (Hsafe w keys I). by rewrite Hcrash in Hsafe. }
  unfold generate.
  apply (safe_bind _ (fun _ => has_chunks [])).
  - unfold run_strips.
    apply (safe_bind _ (fun _ _ => True)).
    { intros w0 keys0 _.
      by destruct (prepare_keeps_checkpoint 0 w0 keys0) as (w1 & _),
                  (prepare_keeps_checkpoint start w0 keys0) as (w2 & -> & _). }
    intros _.
    rewrite (strips_per_height_program im_scale scale_pos width_fits).
    apply (safe_bind _ (fun _ => has_chunks [])).
    { intros w0 keys0 _. simpl. eexists. split; [reflexivity|]. intros i Hi. inversion Hi. }
    intros _. apply (safe_bind _ (fun _ => has_chunks [])).
    { apply safe_strips_loop. intros s Hs%elem_of_seqZ. apply Hcov. lia. }
    intros saved. by apply safe_ret.
  - intros [|]; [by apply safe_ret|].
    apply (safe_bind _ (fun _ => has_chunks [])).
    { apply safe_for_each. intros level Hin. apply safe_pyramid_level.
      apply elem_of_reverse, elem_of_seqZ in Hin. lia. }
    intros _. apply (safe_bind _ (fun _ _ => True)); [by intros w0 keys0 _|].
    intros _. by apply safe_ret.
Qed.

End SafeRun.

(** The program at scale 1, where the user pauses, exits, cancels and
    saves at random moments of the first strip. *)
Lemma generation_never_breaks_witness :
  1 <= 1 /\ nx 1 <= 2 ^ 53 /\
  (forall s, 0 <= s < 30 * 1 -> covers 1 (results_in_order s)) /\
  forall w',
    generate (fun _ _ => ()) (fun buf _ _ _ => buf) (fun buf => buf)
      (fun _ _ => replicate 40 ()) () (fun c _ _ _ => c) (fun _ => ()) 1 14 reverse
      0 results_in_order fresh_world [["p"]; ["e"; "p"]; []; ["p"; "s"]]%char <> Crashed w'.
Proof.
  assert (H1 : 1 <= 1) by lia.
  assert (H2 : nx 1 <= 2 ^ 53) by (vm_compute; discriminate).
  assert (H3 : forall s, 0 <= s < 30 * 1 -> covers 1 (results_in_order s)).
  { intros s _ i Hi. unfold results_in_order.
    change (Z.to_nat (nc 1)) with 160%nat in *. change (nc 1) with 160 in Hi.
    rewrite firstn_all2 by (rewrite length_fmap, length_seqZ; lia).
    apply list_elem_of_fmap. exists (i, ()). split; [done|].
    apply list_elem_of_fmap. exists i. split; [done|]. apply elem_of_seqZ. lia. }
  split; [exact H1|]. split; [exact H2|]. split; [exact H3|].
  apply (generation_never_breaks (fun _ _ => ()) (fun buf _ _ _ => buf) (fun buf => buf)
           (fun _ _ => replicate 40 ()) () (fun c _ _ _ => c) (fun _ => ()) 1 14 reverse
           H1 H2 0 results_in_order fresh_world _ H3).
Defined.

End Safety.
